(** * pybdv: metadata writers and the chunked converter

    A shallow embedding of [pybdv/metadata.py] and [pybdv/converter.py].

    - Python exceptions are values of [pyerror]; a function that may raise
      returns a [result].
    - An XML document is an [Element] tree (tag, attributes, text, children)
      as [xml.etree.ElementTree] holds it in memory.  The whitespace that
      [indent_xml] puts into the [text] and [tail] of elements that have
      children is not represented: no function of the module reads it, and
      documents are compared as trees.  A file on disk is identified with
      the tree that [ET.parse] returns for it: where the code assigns a
      string of the caller to the text of an element and then writes the
      tree, the element holds the text as the parser returns it
      ([ET.written_text]): no text for the empty string, and line ends
      read as newlines.
    - A container (HDF5 or N5) is a finite map from path strings to nodes.
    - Python [dict]s keep insertion order, so they are association lists. *)

From Stdlib Require Import ZArith String Ascii List Bool Lia DecimalString DecimalZ.
From stdpp Require Import base option gmap strings list fin_maps.

Open Scope string_scope.
Open Scope Z_scope.

(** ** Exceptions *)

Inductive pyerror : Type :=
| ValueError (msg : string)
| RuntimeError (msg : string)
| AssertionError (msg : string)
| KeyError (key : string)
| AttributeError
| TypeError
| IndexError
| OSError
| SystemExit (code : Z).

Inductive result (A : Type) : Type :=
| Ok (a : A)
| Err (e : pyerror).
Arguments Ok {A} a.
Arguments Err {A} e.

#[global] Instance result_bind : MBind result := fun A B k r =>
  match r with
  | Ok a => k a
  | Err e => Err e
  end.

#[global] Instance result_ret : MRet result := fun A a => Ok a.

Definition is_Ok {A} (r : result A) : Prop := exists a, r = Ok a.
Definition is_Err {A} (r : result A) : Prop := exists e, r = Err e.

(** [e.attr] on a value that may be [None]. *)
Definition deref {A} (o : option A) : result A :=
  match o with
  | Some a => Ok a
  | None => Err AttributeError
  end.

(** Apply a raising function to every element of a list, left to right. *)
Fixpoint mapM {A B} (f : A -> result B) (l : list A) : result (list B) :=
  match l with
  | [] => Ok []
  | a :: l' => b ← f a; bs ← mapM f l'; Ok (b :: bs)
  end.

(** ** Python strings and numbers *)

Module PyStr.

(** [str(z)] and ['%i' % z] for an integer. *)
Definition str (z : Z) : string := NilZero.string_of_int (Z.to_int z).

(** [int(s)] on a decimal literal; anything else raises [ValueError]. *)
Definition int (s : string) : result Z :=
  match NilZero.int_of_string s with
  | Some d => Ok (Z.of_int d)
  | None => Err (ValueError ("invalid literal for int(): " ++ s))
  end.

(** [int(text)] where [text] is an element's text, possibly [None]. *)
Definition int_text (t : option string) : result Z :=
  match t with
  | Some s => int s
  | None => Err TypeError
  end.

Fixpoint zeros (n : nat) : string :=
  match n with
  | O => ""
  | S n' => String "0" (zeros n')
  end.

(** ['%0wi' % z]: zero padding goes between the sign and the digits. *)
Definition pad (w : nat) (z : Z) : string :=
  let sign := if z <? 0 then "-" else "" in
  let digits := str (Z.abs z) in
  sign ++ zeros (w - String.length sign - String.length digits) ++ digits.

Definition is_space (c : ascii) : bool :=
  match c with
  | " " | "009" | "010" | "011" | "012" | "013" => true
  | _ => false
  end%char.

(** No whitespace character occurs in the string. *)
Fixpoint ws_free (s : string) : bool :=
  match s with
  | EmptyString => true
  | String c s' => negb (is_space c) && ws_free s'
  end.

(** A non-empty string without whitespace: one field of [str.split()]. *)
Definition token (s : string) : Prop := s <> "" /\ ws_free s = true.

Fixpoint fields (s : string) : list string :=
  match s with
  | EmptyString => [""]
  | String c s' =>
      if is_space c then "" :: fields s'
      else match fields s' with
           | t :: ts => String c t :: ts
           | [] => [String c ""]
           end
  end.

Definition nonempty (s : string) : bool :=
  match s with EmptyString => false | _ => true end.

(** [s.split()]: the maximal runs of non-whitespace characters. *)
Definition split (s : string) : list string := List.filter nonempty (fields s).

Definition upper (c : ascii) : ascii :=
  let n := nat_of_ascii c in
  if ((97 <=? n) && (n <=? 122))%nat then ascii_of_nat (n - 32) else c.

Definition lower (c : ascii) : ascii :=
  let n := nat_of_ascii c in
  if ((65 <=? n) && (n <=? 90))%nat then ascii_of_nat (n + 32) else c.

Fixpoint lower_all (s : string) : string :=
  match s with
  | EmptyString => ""
  | String c s' => String (lower c) (lower_all s')
  end.

(** [s.capitalize()] on ASCII text. *)
Definition capitalize (s : string) : string :=
  match s with
  | EmptyString => ""
  | String c s' => String (upper c) (lower_all s')
  end.

(** [sep.join(l)]. *)
Fixpoint join (sep : string) (l : list string) : string :=
  match l with
  | [] => ""
  | [a] => a
  | a :: l' => a ++ sep ++ join sep l'
  end.

(** [os.path.basename(p)]: what follows the last ['/']. *)
Fixpoint basename (p : string) : string :=
  match p with
  | EmptyString => ""
  | String c p' =>
      if Ascii.eqb c "/" then basename p'
      else if existsb (Ascii.eqb "/") (list_ascii_of_string p') then basename p'
      else p
  end.

(** A control character other than tab and newline.  An XML file with one
    in a text is refused by the parser, and a carriage return is read back
    as a newline. *)
Definition is_control (c : ascii) : bool :=
  let n := nat_of_ascii c in
  ((n <? 32) && negb ((n =? 9) || (n =? 10)))%nat.

Fixpoint control_free (s : string) : bool :=
  match s with
  | EmptyString => true
  | String c s' => negb (is_control c) && control_free s'
  end.

(** No carriage return occurs in the string. *)
Fixpoint cr_free (s : string) : bool :=
  match s with
  | EmptyString => true
  | String c s' => negb (Ascii.eqb c "013") && cr_free s'
  end.

(** Text that an XML file returns as it was written: not empty, and free
    of control characters. *)
Definition plain (s : string) : bool := nonempty s && control_free s.

(** Line ends as the XML parser reads them: ["\r\n"] and ["\r"] are
    newlines. *)
Fixpoint newlines (s : string) : string :=
  match s with
  | EmptyString => ""
  | String c s' =>
      if Ascii.eqb c "013" then
        String "010" match s' with
                     | String d s'' => if Ascii.eqb d "010" then newlines s'' else newlines s'
                     | EmptyString => ""
                     end
      else String c (newlines s')
  end.

End PyStr.

(** ** Python dictionaries

    Insertion-ordered, one entry per key.  [Dict.set] keeps the position of a
    key that is already present, as assignment to a [dict] does. *)

Module Dict.

Definition dict (V : Type) : Type := list (string * V).

Fixpoint get {V} (k : string) (d : dict V) : option V :=
  match d with
  | [] => None
  | (k', v) :: d' => if String.eqb k' k then Some v else get k d'
  end.

Definition contains {V} (k : string) (d : dict V) : bool :=
  match get k d with Some _ => true | None => false end.

Fixpoint set {V} (k : string) (v : V) (d : dict V) : dict V :=
  match d with
  | [] => [(k, v)]
  | (k', v') :: d' =>
      if String.eqb k' k then (k, v) :: d' else (k', v') :: set k v d'
  end.

Definition keys {V} (d : dict V) : list string := map fst d.

(** [{k: v for (k, v) in items}]. *)
Definition of_items {V} (items : list (string * V)) : dict V :=
  fold_left (fun d kv => set (fst kv) (snd kv) d) items [].

(** [d[k]]. *)
Definition item {V} (k : string) (d : dict V) : result V :=
  match get k d with
  | Some v => Ok v
  | None => Err (KeyError k)
  end.

(** [d1 == d2]: the same keys with equal values, in any order. *)
Definition eqb {V} (veqb : V -> V -> bool) (d1 d2 : dict V) : bool :=
  Nat.eqb (length d1) (length d2)
  && forallb (fun kv => match get (fst kv) d2 with
                        | Some v' => veqb (snd kv) v'
                        | None => false
                        end) d1.

(** What every Python [dict] satisfies. *)
Definition wf {V} (d : dict V) : Prop := NoDup (keys d).

End Dict.

Abbreviation dict := Dict.dict.

(** ** Element trees ([xml.etree.ElementTree]) *)

Module ET.

#[warnings="-register-all"]
Inductive Element : Type :=
  mkElement { tag : string;
              attrib : dict string;
              text : option string;
              children : list Element }.

(** [ET.Element(tag)]. *)
Definition new (t : string) : Element := mkElement t [] None [].

(** A leaf [<t>s</t>]: [ET.SubElement(_, t).text = s] before it is attached. *)
Definition leaf (t s : string) : Element := mkElement t [] (Some s) [].

Definition has_tag (t : string) (e : Element) : bool := String.eqb (tag e) t.

(** [e.find(t)]: the first child with tag [t], or [None]. *)
Definition find (t : string) (e : Element) : option Element :=
  List.find (has_tag t) (children e).

(** [e.findall(t)]: the children with tag [t], in document order. *)
Definition findall (t : string) (e : Element) : list Element :=
  List.filter (has_tag t) (children e).

(** [ET.SubElement(parent, ...)], with the new child already filled in. *)
Definition SubElement (parent child : Element) : Element :=
  mkElement (tag parent) (attrib parent) (text parent) (children parent ++ [child]).

Definition set_text (s : string) (e : Element) : Element :=
  mkElement (tag e) (attrib e) (Some s) (children e).

Definition set_attrib (k v : string) (e : Element) : Element :=
  mkElement (tag e) (Dict.set k v (attrib e)) (text e) (children e).

Fixpoint replace_first (t : string) (new_child : Element) (l : list Element)
  : list Element :=
  match l with
  | [] => []
  | c :: l' => if has_tag t c then new_child :: l' else c :: replace_first t new_child l'
  end.

(** The tree after the element that [e.find(t)] returned was mutated into
    [new_child]: the code changes sub-elements in place through the handle
    that [find] gave it. *)
Definition put (t : string) (new_child : Element) (e : Element) : Element :=
  mkElement (tag e) (attrib e) (text e) (replace_first t new_child (children e)).

Definition set_children (l : list Element) (e : Element) : Element :=
  mkElement (tag e) (attrib e) (text e) l.

(** The text of an element after [e.text = s], [tree.write(path)] and a
    later [ET.parse(path)]: the empty string is written like no text
    ([<name />]) and parses as [None]; line ends are read as newlines.
    (A text with other control characters gives a file that cannot be
    parsed; such texts are not represented.) *)
Definition written_text (s : string) : option string :=
  if String.eqb s "" then None else Some (PyStr.newlines s).

(** [ET.SubElement(_, t).text = s] for a string [s] of the caller. *)
Definition text_leaf (t s : string) : Element := mkElement t [] (written_text s) [].

(** [e.text = s] for a string [s] of the caller. *)
Definition write_text (s : string) (e : Element) : Element :=
  mkElement (tag e) (attrib e) (written_text s) (children e).

End ET.

Import ET.

(** ** Floating point values

    The resolution of a dataset is a triple of Python floats.  The writers
    only format them ([str], ['{}'.format]), parse them back ([float]) and
    compare them ([==]); these three operations are the interface. *)

Class PyFloat (F : Type) : Type := {
  fstr : F -> string;
  fparse : string -> option F;
  feqb : F -> F -> bool
}.

(** A float that is not NaN: its printed form is one whitespace-free field
    that parses back to the same value, and it is equal to itself. *)
Definition printable {F} `{PyFloat F} (x : F) : Prop :=
  PyStr.token (fstr x) /\ fparse (fstr x) = Some x /\ feqb x x = true.

(** The floats with an integral value, printed as Python prints them
    (["2.0"]); used to run the writers on concrete inputs. *)
Module IntegralFloat.

Fixpoint strip_dot_zero (s : string) : option string :=
  match s with
  | EmptyString => None
  | String c s' =>
      if String.eqb s ".0" then Some ""
      else match strip_dot_zero s' with
           | Some r => Some (String c r)
           | None => None
           end
  end.

Definition parse (s : string) : option Z :=
  match strip_dot_zero s with
  | Some digits => match PyStr.int digits with Ok z => Some z | Err _ => None end
  | None => match PyStr.int s with Ok z => Some z | Err _ => None end
  end.

#[global] Instance integral : PyFloat Z := {
  fstr z := PyStr.str z ++ ".0";
  fparse := parse;
  feqb := Z.eqb
}.

End IntegralFloat.

(** ** Containers

    An HDF5 file or N5 directory is a finite map from paths to nodes.  A node
    carries attributes and, unless it is a group, an array.  Of an image
    array the metadata writers read only shape, chunk shape and element
    type; the 2-d tables [resolutions] and [subdivisions] are held row by
    row.  Table entries are integers: a float32 entry is the integer it
    holds (the writers only store products of integer factors). *)

Record ndarray : Type := mkArray {
  a_shape : list Z;
  a_dtype : string;
  a_rows : list (list Z)
}.

(** [ds_chunks] is [None] for an array stored contiguously. *)
Record dataset : Type := mkDataset {
  ds_data : ndarray;
  ds_chunks : option (list Z)
}.

Section Containers.

Context {F : Type} `{PyFloat F}.

Inductive attr_value : Type :=
| AFactors (l : list (list Z))
| AFactor (l : list Z)
| AStr (s : string)
| ABool (b : bool)
| AFloats (l : list F).

Record node : Type := mkNode {
  attrs : gmap string attr_value;
  array : option dataset
}.

Definition list_eqb {A} (eqb : A -> A -> bool) : list A -> list A -> bool :=
  fix go l1 l2 :=
    match l1, l2 with
    | [], [] => true
    | a :: l1', b :: l2' => eqb a b && go l1' l2'
    | _, _ => false
    end.

(** [==] on attribute values as the container returns them. *)
Definition attr_eqb (a b : attr_value) : bool :=
  match a, b with
  | AFactors l1, AFactors l2 => list_eqb (list_eqb Z.eqb) l1 l2
  | AFactor l1, AFactor l2 => list_eqb Z.eqb l1 l2
  | AStr s1, AStr s2 => String.eqb s1 s2
  | ABool b1, ABool b2 => Bool.eqb b1 b2
  | AFloats l1, AFloats l2 => list_eqb feqb l1 l2
  | _, _ => false
  end.

(** The file system: XML documents and containers, by path. *)
Record world : Type := mkWorld {
  xml_files : gmap string Element;
  containers : gmap string (gmap string node)
}.

(** [open_file(path, 'r')]. *)
Definition open_read (w : world) (path : string) : result (gmap string node) :=
  match containers w !! path with
  | Some f => Ok f
  | None => Err OSError
  end.

(** [open_file(path, 'a')] creates the container when there is none. *)
Definition open_append (w : world) (path : string) : gmap string node :=
  default ∅ (containers w !! path).

Definition close (w : world) (path : string) (f : gmap string node) : world :=
  mkWorld (xml_files w) (<[path := f]> (containers w)).

(** [f[key]]. *)
Definition getitem (f : gmap string node) (key : string) : result node :=
  match f !! key with
  | Some n => Ok n
  | None => Err (KeyError key)
  end.

(** [f[key]] used as an array ([.shape], [.chunks], [.dtype], [[:]]). *)
Definition get_dataset (f : gmap string node) (key : string) : result dataset :=
  n ← getitem f key;
  match array n with
  | Some ds => Ok ds
  | None => Err AttributeError
  end.

(** [f.create_dataset(key, data=a)]. *)
Definition create_dataset (key : string) (a : ndarray) (f : gmap string node)
  : gmap string node :=
  <[key := mkNode ∅ (Some (mkDataset a None))]> f.

(** [f[key].attrs[name] = v] for a node that exists. *)
Definition set_attr (key name : string) (v : attr_value) (f : gmap string node)
  : gmap string node :=
  match f !! key with
  | Some n => <[key := mkNode (<[name := v]> (attrs n)) (array n)]> f
  | None => f
  end.

(** Modelled from the spec: [util.get_key] is not part of the sources.  The
    HDF5 layout is [t0000{t}/s{s}/{level}/cells] with a 2-digit zero-padded
    setup (§6); the N5 layout nests the per-level arrays in the timepoint
    group, which is nested in the setup root.  Arguments left out
    ([None]) shorten the path. *)
Definition get_key (is_h5 : bool) (timepoint setup_id scale : option Z) : string :=
  if is_h5 then
    match timepoint, setup_id, scale with
    | Some t, Some s, Some l =>
        "t" ++ PyStr.pad 5 t ++ "/s" ++ PyStr.pad 2 s ++ "/" ++ PyStr.str l ++ "/cells"
    | Some t, Some s, None => "t" ++ PyStr.pad 5 t ++ "/s" ++ PyStr.pad 2 s
    | Some t, _, _ => "t" ++ PyStr.pad 5 t
    | None, _, _ => ""
    end
  else
    match setup_id, timepoint, scale with
    | Some s, Some t, Some l =>
        "setup" ++ PyStr.str s ++ "/timepoint" ++ PyStr.str t ++ "/s" ++ PyStr.str l
    | Some s, Some t, None => "setup" ++ PyStr.str s ++ "/timepoint" ++ PyStr.str t
    | Some s, _, _ => "setup" ++ PyStr.str s
    | None, _, _ => ""
    end.

End Containers.

Arguments attr_value F : clear implicits.
Arguments node F : clear implicits.
Arguments world F : clear implicits.

(** ** metadata.py: the XML document *)

Inductive affine_arg (F : Type) : Type :=
| AffineList (trafo : list F)
| AffineDict (trafos : dict (list F)).
Arguments AffineList {F} trafo.
Arguments AffineDict {F} trafos.

Section XmlMetadata.

Context {F : Type} `{PyFloat F}.

(** [a, b, c = seq]. *)
Definition unpack3 {A} (l : list A) : result (A * A * A) :=
  match l with
  | [a; b; c] => Ok (a, b, c)
  | _ => Err (ValueError "wrong number of values to unpack")
  end.

(** [float(s)]. *)
Definition float (s : string) : result F :=
  match fparse s with
  | Some x => Ok x
  | None => Err (ValueError ("could not convert string to float: " ++ s))
  end.

(** [e.text.split()]. *)
Definition split_text (e : Element) : result (list string) :=
  s ← deref (text e); Ok (PyStr.split s).

(** [e.text != s] negated. *)
Definition text_is (e : Element) (s : string) : bool :=
  match text e with
  | Some t => String.eqb t s
  | None => false
  end.

(** ['{} {} {}'.format(a, b, c)]. *)
Definition format3 (a b c : string) : string := a ++ " " ++ b ++ " " ++ c.

(** [int(e.find('id').text)]. *)
Definition id_of (e : Element) : result Z :=
  i ← deref (find "id" e); PyStr.int_text (text i).

(** [{att.tag: int(att.text) for att in attrs}]. *)
Definition tag_ids (attrs : Element) : result (dict Z) :=
  items ← mapM (fun att => i ← PyStr.int_text (text att); Ok (tag att, i))
               (children attrs);
  Ok (Dict.of_items items).

(** The loop [for vs in setups: if int(vs.find('id').text) == setup_id: ...]:
    the first element whose id is [setup_id], if the loop gets that far. *)
Fixpoint first_with_id (setup_id : Z) (setups : list Element)
  : result (option Element) :=
  match setups with
  | [] => Ok None
  | vs :: rest =>
      i ← id_of vs;
      if Z.eqb i setup_id then Ok (Some vs) else first_with_id setup_id rest
  end.

Definition _check_setup (setup_name : string) (nx ny nz : Z) (dx dy dz : F)
    (attributes : dict Z) (unit : string) (vs : Element) : result () :=
  name ← deref (find "name" vs);
  if negb (text_is name setup_name) then Err (ValueError "Incompatible setup name") else
  size ← deref (find "size" vs);
  shape_exp ← split_text size;
  shape_exp ← mapM PyStr.int shape_exp;
  if negb (list_eqb Z.eqb shape_exp [nx; ny; nz])
  then Err (ValueError "Incompatible dataset size") else
  vox ← deref (find "voxelSize" vs);
  u ← deref (find "unit" vox);
  if negb (text_is u unit) then Err (ValueError "Incompatible unit of measurement") else
  vsize ← deref (find "size" vox);
  res_exp ← split_text vsize;
  res_exp ← mapM float res_exp;
  if negb (list_eqb feqb res_exp [dx; dy; dz])
  then Err (ValueError "Incompatible voxel size") else
  attrs ← deref (find "attributes" vs);
  view_attrs ← tag_ids attrs;
  if negb (Dict.eqb Z.eqb view_attrs attributes)
  then Err (ValueError "Incompatible view attributes") else
  Ok tt.

(** The [ViewSetup] element written for a setup that is not in the
    document.  The name and the unit are strings of the caller; nothing
    reads them between the assignment and [tree.write], so the element
    holds them as the file returns them. *)
Definition new_view_setup (setup_id : Z) (setup_name : string) (nx ny nz : Z)
    (dx dy dz : F) (attributes : dict Z) (unit : string) : Element :=
  mkElement "ViewSetup" [] None
    [ leaf "id" (PyStr.str setup_id);
      text_leaf "name" setup_name;
      leaf "size" (format3 (PyStr.str nx) (PyStr.str ny) (PyStr.str nz));
      mkElement "voxelSize" [] None
        [ text_leaf "unit" unit;
          leaf "size" (format3 (fstr dx) (fstr dy) (fstr dz)) ];
      mkElement "attributes" [] None
        (map (fun kv => leaf (fst kv) (PyStr.str (snd kv))) attributes) ].

Definition _require_view_setup (viewsets : Element) (setup_id : Z)
    (setup_name : string) (resolution : list F) (shape : list Z)
    (attributes : dict Z) (unit : string) : result Element :=
  '(dz, dy, dx) ← unpack3 resolution;
  '(nz, ny, nx) ← unpack3 shape;
  found ← first_with_id setup_id (findall "ViewSetup" viewsets);
  match found with
  | Some vs =>
      _ ← _check_setup setup_name nx ny nz dx dy dz attributes unit vs;
      Ok viewsets
  | None =>
      Ok (SubElement viewsets
            (new_view_setup setup_id setup_name nx ny nz dx dy dz attributes unit))
  end.

(** One entry [<Xml_name><id>i</id><name>i</name></Xml_name>] of a registry. *)
Definition attr_setup (xml_name : string) (att_id : Z) : Element :=
  mkElement xml_name [] None
    [ leaf "id" (PyStr.str att_id); leaf "name" (PyStr.str att_id) ].

Definition _initialize_attributes (viewsets : Element) (attributes : dict Z)
  : Element :=
  fold_left
    (fun viewsets kv =>
       let att_name := fst kv in
       SubElement viewsets
         (mkElement "Attributes" [("name", att_name)] None
            [ attr_setup (PyStr.capitalize att_name) (snd kv) ]))
    attributes viewsets.

(** The body of the loop of [_update_attributes] for one registry. *)
Definition update_attrset (attributes : dict Z) (attrset : Element)
  : result Element :=
  this_name ← Dict.item "name" (attrib attrset);
  match Dict.get this_name attributes with
  | None => Err (AssertionError this_name)
  | Some this_id =>
      let xml_name := PyStr.capitalize this_name in
      this_ids ← mapM id_of (findall xml_name attrset);
      if existsb (Z.eqb this_id) this_ids then Ok attrset
      else Ok (SubElement attrset (attr_setup xml_name this_id))
  end.

(** Every [Attributes] child of [viewsets] is visited in document order and
    changed in place; the other children stay. *)
Definition _update_attributes (viewsets : Element) (attributes : dict Z)
  : result Element :=
  cs ← mapM (fun c => if has_tag "Attributes" c
                      then update_attrset attributes c else Ok c)
            (children viewsets);
  Ok (set_children cs viewsets).

Definition view_registration (setup_id timepoint : Z) (transforms : list Element)
  : Element :=
  mkElement "ViewRegistration"
    [("timepoint", PyStr.str timepoint); ("setup", PyStr.str setup_id)]
    None transforms.

Definition _write_default_affine (vregs : Element) (setup_id timepoint : Z)
    (resolution : list F) : result Element :=
  '(dz, dy, dx) ← unpack3 resolution;
  let ox := "0.0" in
  let oy := "0.0" in
  let oz := "0.0" in
  Ok (SubElement vregs
        (view_registration setup_id timepoint
           [ mkElement "ViewTransform" [("type", "affine")] None
               [ leaf "affine"
                   (fstr dx ++ " 0.0 0.0 " ++ ox ++ " 0.0 " ++ fstr dy ++ " 0.0 "
                    ++ oy ++ " 0.0 0.0 " ++ fstr dz ++ " " ++ oz) ] ])).

(** The texts of the parameters and the names are held as the file
    returns them: an empty list of parameters leaves an [affine] element
    without text. *)
Definition _write_affine (vregs : Element) (setup_id timepoint : Z)
    (affine : affine_arg F) : Element :=
  SubElement vregs
    (view_registration setup_id timepoint
       match affine with
       | AffineList trafo =>
           [ mkElement "ViewTransform" [("type", "affine")] None
               [ text_leaf "affine" (PyStr.join " " (map fstr trafo)) ] ]
       | AffineDict trafos =>
           map (fun kv =>
                  mkElement "ViewTransform" [("type", "affine")] None
                    [ text_leaf "affine" (PyStr.join " " (map fstr (snd kv)));
                      text_leaf "Name" (fst kv) ])
               trafos
       end).

(** The handles that [write_xml_metadata] holds after loading or creating
    the document. *)
Record handles : Type := mkHandles {
  h_root : Element;
  h_seqdesc : Element;
  h_viewsets : Element;
  h_tpoints : Element;
  h_vregs : option Element
}.

(** The branch [if os.path.exists(xml_path)]. *)
Definition load_document (root : Element) (timepoint : Z) (attributes : dict Z)
  : result handles :=
  seqdesc ← deref (find "SequenceDescription" root);
  viewsets ← deref (find "ViewSetups" seqdesc);
  viewsets ← _update_attributes viewsets attributes;
  let vregs := find "ViewRegistrations" root in
  tpoints ← deref (find "Timepoints" seqdesc);
  first ← deref (find "first" tpoints);
  fi ← PyStr.int_text (text first);
  let tpoints := put "first" (set_text (PyStr.str (Z.min fi timepoint)) first) tpoints in
  last ← deref (find "last" tpoints);
  la ← PyStr.int_text (text last);
  let tpoints := put "last" (set_text (PyStr.str (Z.max la timepoint)) last) tpoints in
  Ok (mkHandles root seqdesc viewsets tpoints vregs).

(** The branch [else]: a new document. *)
Definition new_document (data_path : string) (is_h5 : bool) (timepoint : Z)
    (attributes : dict Z) : handles :=
  let format_type := if is_h5 then "hdf5" else "n5" in
  let bp := mkElement "BasePath" [("type", "relative")] (Some ".") [] in
  let imgload :=
    mkElement "ImageLoader" [("format", "bdv." ++ format_type)] None
      [ mkElement format_type [("type", "relative")]
          (Some (PyStr.basename data_path)) [] ] in
  let viewsets := _initialize_attributes (new "ViewSetups") attributes in
  let vregs := new "ViewRegistrations" in
  let tpoints :=
    mkElement "Timepoints" [("type", "range")] None
      [ leaf "first" (PyStr.str timepoint); leaf "last" (PyStr.str timepoint) ] in
  let seqdesc := mkElement "SequenceDescription" [] None [imgload; viewsets; tpoints] in
  let root := mkElement "SpimData" [("version", "0.2")] None [bp; seqdesc; vregs] in
  mkHandles root seqdesc viewsets tpoints (Some vregs).

(** The tree that [root] heads once the sub-elements were changed in place
    into [viewsets], [tpoints] and [vregs]. *)
Definition assemble (h : handles) (viewsets vregs : Element) : Element :=
  put "ViewRegistrations" vregs
    (put "SequenceDescription"
       (put "Timepoints" (h_tpoints h) (put "ViewSetups" viewsets (h_seqdesc h)))
       (h_root h)).

(** Everything [write_xml_metadata] does before [tree.write(xml_path)]. *)
Definition build_xml (w : world F) (xml_path data_path unit : string)
    (resolution : list F) (is_h5 : bool) (setup_id timepoint : Z)
    (setup_name : option string) (affine : option (affine_arg F))
    (attributes : dict Z) : result Element :=
  let setup_name := default ("Setup" ++ PyStr.str setup_id) setup_name in
  let key := get_key is_h5 (Some timepoint) (Some setup_id) (Some 0) in
  f ← open_read w data_path;
  ds ← get_dataset f key;
  let shape := a_shape (ds_data ds) in
  h ← match xml_files w !! xml_path with
      | Some root => load_document root timepoint attributes
      | None => Ok (new_document data_path is_h5 timepoint attributes)
      end;
  viewsets ← _require_view_setup (h_viewsets h) setup_id setup_name
                                 resolution shape attributes unit;
  vregs ← match h_vregs h with Some v => Ok v | None => Err TypeError end;
  vregs ← match affine with
          | None => _write_default_affine vregs setup_id timepoint resolution
          | Some a => Ok (_write_affine vregs setup_id timepoint a)
          end;
  Ok (assemble h viewsets vregs).

Definition write_xml_metadata (w : world F) (xml_path data_path unit : string)
    (resolution : list F) (is_h5 : bool) (setup_id timepoint : Z)
    (setup_name : option string) (affine : option (affine_arg F))
    (attributes : dict Z) : world F * result () :=
  match build_xml w xml_path data_path unit resolution is_h5 setup_id timepoint
                  setup_name affine attributes with
  | Ok root => (mkWorld (<[xml_path := root]> (xml_files w)) (containers w), Ok tt)
  | Err e => (w, Err e)
  end.

Definition get_time_range (w : world F) (xml_path : string) : result (Z * Z) :=
  root ← match xml_files w !! xml_path with
         | Some r => Ok r
         | None => Err OSError
         end;
  seqdesc ← deref (find "SequenceDescription" root);
  tpoints ← deref (find "Timepoints" seqdesc);
  first ← deref (find "first" tpoints);
  first ← PyStr.int_text (text first);
  last ← deref (find "last" tpoints);
  last ← PyStr.int_text (text last);
  Ok (first, last).

End XmlMetadata.

(** ** metadata.py: container metadata *)

(** A per-level scale factor: one integer for all axes, or one per axis. *)
Inductive factor : Type :=
| FInt (z : Z)
| FSeq (l : list Z).

Module Np.

(** [np.array(l)] for a list of rows; rows of different lengths are refused. *)
Definition array (dt : string) (l : list (list Z)) : result ndarray :=
  match l with
  | [] => Ok (mkArray [0] dt [])
  | r :: _ =>
      if forallb (fun r' => Nat.eqb (length r') (length r)) l
      then Ok (mkArray [Z.of_nat (length l); Z.of_nat (length r)] dt l)
      else Err (ValueError "setting an array element with a sequence")
  end.

(** The float32 nearest to an integer (ties to even; 24 bits of mantissa).
    Overflow to infinity, from 2^128 on, is not represented. *)
Definition float32 (z : Z) : Z :=
  let a := Z.abs z in
  if a <? 2 ^ 24 then z else
  let e := Z.log2 a - 23 in
  let q := a / 2 ^ e in
  let r := a mod 2 ^ e in
  let half := 2 ^ (e - 1) in
  let q' := if (half <? r) || ((r =? half) && Z.odd q) then q + 1 else q in
  Z.sgn z * (q' * 2 ^ e).

(** [a.astype('float32')]. *)
Definition astype_float32 (a : ndarray) : ndarray :=
  mkArray (a_shape a) "float32" (map (map float32) (a_rows a)).

(** [a.astype('int')]; chunk shapes fit the 64-bit integer. *)
Definition astype_int (a : ndarray) : ndarray :=
  mkArray (a_shape a) "int64" (a_rows a).

(** [np.array_equal(a1, a2)]: the same shape and equal elements. *)
Definition array_equal (a1 a2 : ndarray) : bool :=
  list_eqb Z.eqb (a_shape a1) (a_shape a2)
  && list_eqb (list_eqb Z.eqb) (a_rows a1) (a_rows a2).

(** [max(l)]. *)
Definition max (l : list Z) : result Z :=
  match l with
  | [] => Err (ValueError "max() arg is an empty sequence")
  | a :: l' => Ok (fold_left Z.max l' a)
  end.

End Np.

Section ContainerMetadata.

Context {F : Type} `{PyFloat F}.

(** The new [effective_scale] of one round of the loop of [write_h5_metadata]. *)
Definition scale_by (scale_factor : factor) (effective_scale : list Z) : list Z :=
  match scale_factor with
  | FInt scale_factor => map (fun eff => eff * scale_factor) effective_scale
  | FSeq scale_factor => zip_with (fun sf eff => eff * sf) scale_factor effective_scale
  end.

(** The loop [for scale, scale_factor in enumerate(scale_factors)] of
    [write_h5_metadata], from round [scale] on. *)
Fixpoint h5_levels (w : world F) (path : string) (setup_id timepoint : Z)
    (scale : Z) (effective_scale : list Z) (scale_factors : list factor)
    (scales chunks : list (list Z)) : result (list (list Z) * list (list Z)) :=
  match scale_factors with
  | [] => Ok (scales, chunks)
  | scale_factor :: rest =>
      let effective_scale := scale_by scale_factor effective_scale in
      let out_key := get_key true (Some timepoint) (Some setup_id) (Some scale) in
      f ← open_read w path;
      ds ← get_dataset f out_key;
      chunk ← match ds_chunks ds with
              | Some c => Ok (rev c)
              | None => Err TypeError
              end;
      h5_levels w path setup_id timepoint (scale + 1) effective_scale rest
                (scales ++ [rev effective_scale]) (chunks ++ [chunk])
  end.

Definition inconsistent (setup_id : Z) : pyerror :=
  RuntimeError ("Metadata for setup " ++ PyStr.str setup_id
                ++ " already exists and is inconsistent").

(** The block [if key in f: ... raise ... else: f.create_dataset(key, data=a)],
    which [write_h5_metadata] has once for each of its two records. *)
Definition compare_or_write (setup_id : Z) (key : string) (a : ndarray)
    (f : gmap string (node F)) : gmap string (node F) * result () :=
  match f !! key with
  | Some n =>
      match array n with
      | Some expected =>
          if negb (Np.array_equal (ds_data expected) a)
          then (f, Err (inconsistent setup_id))
          else (f, Ok tt)
      | None => (f, Err TypeError)
      end
  | None => (create_dataset key a f, Ok tt)
  end.

Definition key_res (setup_id : Z) : string := "s" ++ PyStr.pad 2 setup_id ++ "/resolutions".
Definition key_chunks (setup_id : Z) : string := "s" ++ PyStr.pad 2 setup_id ++ "/subdivisions".

(** The arrays [scales] and [chunks] that [write_h5_metadata] computes
    before it opens the container for writing. *)
Definition h5_arrays (w : world F) (path : string) (scale_factors : list factor)
    (setup_id timepoint : Z) : result (ndarray * ndarray) :=
  '(scales, chunks) ← h5_levels w path setup_id timepoint 0 [1; 1; 1]
                                scale_factors [] [];
  scales ← Np.array "int64" scales;
  chunks ← Np.array "int64" chunks;
  Ok (Np.astype_float32 scales, Np.astype_int chunks).

Definition write_h5_metadata (w : world F) (path : string)
    (scale_factors : list factor) (setup_id timepoint : Z) : world F * result () :=
  match h5_arrays w path scale_factors setup_id timepoint with
  | Err e => (w, Err e)
  | Ok (scales, chunks) =>
      let f := open_append w path in
      match compare_or_write setup_id (key_res setup_id) scales f with
      | (f, Err e) => (close w path f, Err e)
      | (f, Ok _) =>
          match compare_or_write setup_id (key_chunks setup_id) chunks f with
          | (f, r) => (close w path f, r)
          end
      end
  end.

(** The list [effective_scales] of [write_n5_metadata], grown by the factors
    after the first. *)
Fixpoint n5_effective_scales (effective_scales : list (list Z))
    (factors : list (list Z)) : list (list Z) :=
  match factors with
  | [] => effective_scales
  | factor :: rest =>
      n5_effective_scales
        (effective_scales
           ++ [zip_with (fun eff fac => eff * fac)
                        (default [] (last effective_scales)) (rev factor)])
        rest
  end.

(** The loop [for scale_id, factor in enumerate(effective_scales)] of
    [write_n5_metadata], from round [scale_id] on.  (The loop also updates
    a local [effective_scale] that nothing reads.) *)
Fixpoint n5_levels (group_key : string) (scale_id : Z)
    (effective_scales : list (list Z)) (f : gmap string (node F))
  : gmap string (node F) * result () :=
  match effective_scales with
  | [] => (f, Ok tt)
  | factor :: rest =>
      let ds_key := group_key ++ "/s" ++ PyStr.str scale_id in
      match getitem f ds_key with
      | Err e => (f, Err e)
      | Ok _ =>
          n5_levels group_key (scale_id + 1) rest
                    (set_attr ds_key "downsamplingFactors" (AFactor factor) f)
      end
  end.

(** The body of [with open_file(path) as f] in [write_n5_metadata]. *)
Definition n5_body (effective_scales : list (list Z)) (resolution : list F)
    (setup_id timepoint : Z) (f : gmap string (node F))
  : gmap string (node F) * result () :=
  let key := get_key false (Some timepoint) (Some setup_id) (Some 0) in
  match get_dataset f key with
  | Err e => (f, Err e)
  | Ok ds =>
  let dtype := a_dtype (ds_data ds) in
  let root_key := get_key false None (Some setup_id) None in
  match getitem f root_key with
  | Err e => (f, Err e)
  | Ok root =>
  if match attrs root !! "downsamplingFactors" with
     | Some v => negb (attr_eqb v (AFactors effective_scales))
     | None => false
     end
  then (f, Err (inconsistent setup_id)) else
  let f := set_attr root_key "downsamplingFactors" (AFactors effective_scales) f in
  if match attrs root !! "dataType" with
     | Some v => negb (attr_eqb v (AStr dtype))
     | None => false
     end
  then (f, Err (inconsistent setup_id)) else
  let f := set_attr root_key "dataType" (AStr dtype) f in
  let group_key := get_key false (Some timepoint) (Some setup_id) None in
  match getitem f group_key with
  | Err e => (f, Err e)
  | Ok _ =>
  let f := set_attr group_key "multiScale" (ABool true) f in
  let f := set_attr group_key "resolution" (AFloats (rev resolution)) f in
  n5_levels group_key 0 effective_scales f
  end end end.

Definition write_n5_metadata (w : world F) (path : string)
    (scale_factors : list (list Z)) (resolution : list F)
    (setup_id timepoint : Z) : world F * result () :=
  match scale_factors with
  | [] => (w, Err IndexError)
  | first :: rest =>
      let effective_scales := n5_effective_scales [first] rest in
      match n5_body effective_scales resolution setup_id timepoint
                    (open_append w path) with
      | (f, r) => (close w path f, r)
      end
  end.

End ContainerMetadata.

(** ** metadata.py: attributes *)

Section Attributes.

Context {F : Type} `{PyFloat F}.

(** The loop [for attribute in attrs_xml] of [validate_attributes], with
    its two accumulators. *)
Fixpoint validate_loop (attributes : dict (option Z))
    (this_attributes : option (dict Z)) (attrs_xml : list Element)
    (all_names_xml : list string) (attrs_out : dict Z)
  : result (list string * dict Z) :=
  match attrs_xml with
  | [] => Ok (all_names_xml, attrs_out)
  | attribute :: rest =>
      name ← Dict.item "name" (attrib attribute);
      if negb (Dict.contains name attributes)
      then Err (ValueError ("Expect attributes to contain " ++ name)) else
      let all_names_xml := (all_names_xml ++ [name])%list in
      xml_ids ← mapM id_of (children attribute);
      this_id ← Dict.item name attributes;
      this_id ← match this_id, this_attributes with
                | None, None => m ← Np.max xml_ids; Ok (m + 1)
                | None, Some recorded => Dict.item name recorded
                | Some i, Some recorded =>
                    r ← Dict.item name recorded;
                    if negb (Z.eqb i r)
                    then Err (ValueError ("Expect id " ++ PyStr.str r ++ " for attribute "
                                          ++ name ++ ", got " ++ PyStr.str i))
                    else Ok i
                | Some i, None => Ok i
                end;
      validate_loop attributes this_attributes rest all_names_xml
                    (Dict.set name this_id attrs_out)
  end.

Definition validate_attributes (w : world F) (xml_path : string)
    (attributes : dict (option Z)) (setup_id : Z) : result (dict Z) :=
  match xml_files w !! xml_path with
  | Some root =>
      seqdesc ← deref (find "SequenceDescription" root);
      setups ← deref (find "ViewSetups" seqdesc);
      found ← first_with_id setup_id (findall "ViewSetup" setups);
      this_attributes ← match found with
                        | Some viewset =>
                            a ← deref (find "attributes" viewset);
                            d ← tag_ids a;
                            Ok (Some d)
                        | None => Ok None
                        end;
      let attrs_xml := findall "Attributes" setups in
      '(all_names_xml, attrs_out) ←
         validate_loop attributes this_attributes attrs_xml [] [];
      let this_names := Dict.keys attributes in
      if existsb (fun k => negb (existsb (String.eqb k) all_names_xml)) this_names
      then Err (ValueError "Attributes contains unexpected names")
      else Ok attrs_out
  | None =>
      Ok (map (fun kv => (fst kv, default 0 (snd kv))) attributes)
  end.

(** The names of the attribute registries of a document. *)
Definition registered_names (setups : Element) : list string :=
  omap (fun a => Dict.get "name" (attrib a)) (findall "Attributes" setups).

End Attributes.

(** ** metadata.py: readers of the document *)

Section XmlReaders.

Context {F : Type} `{PyFloat F}.

(** [ET.parse(xml_path).getroot()]. *)
Definition parse_root (w : world F) (xml_path : string) : result Element :=
  match xml_files w !! xml_path with
  | Some root => Ok root
  | None => Err OSError
  end.

Definition get_attributes (w : world F) (xml_path : string) (setup_id : Z)
  : result (dict Z) :=
  root ← parse_root w xml_path;
  seqdesc ← deref (find "SequenceDescription" root);
  setups ← deref (find "ViewSetups" seqdesc);
  found ← first_with_id setup_id (findall "ViewSetup" setups);
  match found with
  | Some viewset =>
      match find "attributes" viewset with
      | Some attributes => tag_ids attributes
      | None => Err TypeError
      end
  | None => Err (ValueError ("Could not find setup " ++ PyStr.str setup_id))
  end.

(** The loop [for vs in vsetups: if vs.find('id').text == str(setup_id): ...]
    of [get_resolution]: the id is compared as text. *)
Fixpoint first_with_id_text (id_text : string) (vsetups : list Element)
  : result (option Element) :=
  match vsetups with
  | [] => Ok None
  | vs :: rest =>
      i ← deref (find "id" vs);
      if text_is i id_text then Ok (Some vs) else first_with_id_text id_text rest
  end.

Definition get_resolution (w : world F) (xml_path : string) (setup_id : Z)
  : result (list F) :=
  root ← parse_root w xml_path;
  seqdesc ← deref (find "SequenceDescription" root);
  viewsets ← deref (find "ViewSetups" seqdesc);
  found ← first_with_id_text (PyStr.str setup_id) (findall "ViewSetup" viewsets);
  match found with
  | Some vs =>
      vox ← deref (find "voxelSize" vs);
      size ← deref (find "size" vox);
      resolution ← split_text size;
      resolution ← mapM float resolution;
      Ok (rev resolution)
  | None => Err (ValueError ("Could not find setup " ++ PyStr.str setup_id))
  end.

Definition get_bdv_format (w : world F) (xml_path : string) : result string :=
  root ← parse_root w xml_path;
  seqdesc ← deref (find "SequenceDescription" root);
  imgload ← deref (find "ImageLoader" seqdesc);
  Dict.item "format" (attrib imgload).

(** [os.path.abspath(os.path.relpath(path))], which depends on the working
    directory of the process. *)
Variable abspath_relpath : string -> string.

(** [os.path.split(p)[0]] on POSIX: what precedes the last ['/'], without
    trailing slashes unless it consists of slashes only. *)
Fixpoint split_head (p : string) : string :=
  match p with
  | EmptyString => ""
  | String c p' =>
      if existsb (Ascii.eqb "/") (list_ascii_of_string p') then String c (split_head p')
      else if Ascii.eqb c "/" then "/" else ""
  end.

Fixpoint all_slashes (p : string) : bool :=
  match p with
  | EmptyString => true
  | String c p' => Ascii.eqb c "/" && all_slashes p'
  end.

Fixpoint rstrip_slashes (p : string) : string :=
  match p with
  | EmptyString => ""
  | String c p' => if all_slashes p then "" else String c (rstrip_slashes p')
  end.

Definition dirname (p : string) : string :=
  let head := split_head p in
  if all_slashes head then head else rstrip_slashes head.

(** [os.path.join(a, b)] on POSIX. *)
Definition path_join (a b : string) : string :=
  if String.eqb (String.substring 0 1 b) "/" then b
  else if String.eqb a "" || String.eqb (String.substring (String.length a - 1) 1 a) "/"
  then a ++ b
  else a ++ "/" ++ b.

(** The result is the text of the loader's path element, [None] when the
    element is empty. *)
Definition get_data_path (w : world F) (xml_path : string)
    (return_absolute_path : bool) : result (option string) :=
  et ← parse_root w xml_path;
  et ← deref (find "SequenceDescription" et);
  et ← deref (find "ImageLoader" et);
  node ← match find "hdf5" et with
         | Some node => Ok node
         | None =>
             match find "n5" et with
             | Some node => Ok node
             | None => Err (ValueError "Could not find valid data path in xml.")
             end
         end;
  let path := text node in
  if return_absolute_path then
    match path with
    | Some path => Ok (Some (abspath_relpath (path_join (dirname xml_path) path)))
    | None => Err TypeError
    end
  else Ok path.

(** *** Affine transformations *)

(** Keys of the dictionary that [get_affine] returns: the text of a [Name]
    element, which is [None] for an empty element. *)
Definition name_eqb (a b : option string) : bool :=
  match a, b with
  | Some x, Some y => String.eqb x y
  | None, None => true
  | _, _ => false
  end.

(** [affine[name] = trafo]. *)
Fixpoint set_trafo (name : option string) (trafo : list F)
    (affine : list (option string * list F)) : list (option string * list F) :=
  match affine with
  | [] => [(name, trafo)]
  | (name', trafo') :: rest =>
      if name_eqb name' name then (name', trafo) :: rest
      else (name', trafo') :: set_trafo name trafo rest
  end.

(** The loop [for vt in vreg.findall('ViewTransform')], with its counter. *)
Fixpoint read_transforms (vts : list Element) (ii : Z)
    (affine : list (option string * list F))
  : result (list (option string * list F)) :=
  match vts with
  | [] => Ok affine
  | vt :: rest =>
      let name := match find "Name" vt with
                  | None => Some ("affine" ++ PyStr.str ii)
                  | Some name => text name
                  end in
      a ← deref (find "affine" vt);
      trafo ← split_text a;
      trafo ← mapM float trafo;
      read_transforms rest (ii + 1) (set_trafo name trafo affine)
  end.

(** The loop [for vreg in vregs.findall('ViewRegistration')] up to the first
    registration that is not skipped. *)
Fixpoint find_registration (setup_id timepoint : Z) (vregs : list Element)
  : result (option Element) :=
  match vregs with
  | [] => Ok None
  | vreg :: rest =>
      setup ← Dict.item "setup" (attrib vreg);
      setup ← PyStr.int setup;
      tp ← Dict.item "timepoint" (attrib vreg);
      tp ← PyStr.int tp;
      if negb (Z.eqb setup setup_id) || negb (Z.eqb timepoint tp)
      then find_registration setup_id timepoint rest
      else Ok (Some vreg)
  end.

Definition get_affine (w : world F) (xml_path : string) (setup_id timepoint : Z)
  : result (list (option string * list F)) :=
  root ← parse_root w xml_path;
  vregs ← deref (find "ViewRegistrations" root);
  found ← find_registration setup_id timepoint (findall "ViewRegistration" vregs);
  match found with
  | Some vreg => read_transforms (findall "ViewTransform" vreg) 0 []
  | None => Err (ValueError ("Could not find setup " ++ PyStr.str setup_id
                             ++ " and timepoint " ++ PyStr.str timepoint))
  end.

(** *** [write_attribute_name] *)

(** The loop [for att_elem in this_attrs]: the children of the registry
    after the name was written, [None] when no entry has the id.  The name
    is held as the file returns it. *)
Fixpoint rename_entry (xml_name : string) (attribute_id : Z) (attribute_name : string)
    (entries : list Element) : result (option (list Element)) :=
  match entries with
  | [] => Ok None
  | att_elem :: rest =>
      if has_tag xml_name att_elem then
        i ← id_of att_elem;
        if Z.eqb i attribute_id then
          name ← deref (find "name" att_elem);
          Ok (Some (put "name" (write_text attribute_name name) att_elem :: rest))
        else
          r ← rename_entry xml_name attribute_id attribute_name rest;
          Ok (option_map (cons att_elem) r)
      else
        r ← rename_entry xml_name attribute_id attribute_name rest;
        Ok (option_map (cons att_elem) r)
  end.

(** The loop [for att in attrs], over the children of [ViewSetups]. *)
Fixpoint rename_registry (attribute : string) (attribute_id : Z)
    (attribute_name : string) (cs : list Element) : result (option (list Element)) :=
  match cs with
  | [] => Ok None
  | att :: rest =>
      if has_tag "Attributes" att then
        name ← Dict.item "name" (attrib att);
        written ← (if String.eqb name attribute
                   then rename_entry (PyStr.capitalize name) attribute_id attribute_name
                                     (children att)
                   else Ok None);
        match written with
        | Some entries => Ok (Some (set_children entries att :: rest))
        | None =>
            r ← rename_registry attribute attribute_id attribute_name rest;
            Ok (option_map (cons att) r)
        end
      else
        r ← rename_registry attribute attribute_id attribute_name rest;
        Ok (option_map (cons att) r)
  end.

(** Everything [write_attribute_name] does before [tree.write(xml_path)]. *)
Definition rename_xml (w : world F) (xml_path attribute : string) (attribute_id : Z)
    (attribute_name : string) : result Element :=
  root ← parse_root w xml_path;
  seqdesc ← deref (find "SequenceDescription" root);
  viewsets ← deref (find "ViewSetups" seqdesc);
  written ← rename_registry attribute attribute_id attribute_name (children viewsets);
  match written with
  | Some cs =>
      Ok (put "SequenceDescription"
              (put "ViewSetups" (set_children cs viewsets) seqdesc) root)
  | None => Err (ValueError ("Could not find " ++ attribute ++ ", id "
                             ++ PyStr.str attribute_id))
  end.

Definition write_attribute_name (w : world F) (xml_path attribute : string)
    (attribute_id : Z) (attribute_name : string) : world F * result () :=
  match rename_xml w xml_path attribute attribute_id attribute_name with
  | Ok root => (mkWorld (<[xml_path := root]> (xml_files w)) (containers w), Ok tt)
  | Err e => (w, Err e)
  end.

End XmlReaders.

(** ** converter.py *)

Module Converter.

(** [handle_setup_id(setup_id, h5_path)].  [existing] is [None] when
    [h5_path] does not exist and otherwise lists the member names of the
    group [t00000]; [answer] is what the user types at the prompt. *)
Definition handle_setup_id (setup_id : option Z) (existing : option (list string))
    (answer : string) : result Z :=
  setup_ids ← match existing with
              | Some keys =>
                  mapM (fun sid => PyStr.int (String.substring 1 (String.length sid - 1) sid))
                       keys
              | None => Ok [-1]
              end;
  setup_id ← match setup_id with
             | None => m ← Np.max setup_ids; Ok (m + 1)
             | Some setup_id =>
                 if existsb (Z.eqb setup_id) setup_ids
                 then if negb (String.eqb answer "y")
                      then Err (SystemExit 0) else Ok setup_id
                 else Ok setup_id
             end;
  if setup_id <? 100 then Ok setup_id
  else Err (AssertionError "Only up to 100 set-ups are supported").

(** *** Image data

    A volume is indexed by (z, y, x).  The element type matters to
    [copy_chunk] only through the accumulator of [data.sum()]: numpy sums
    signed integers in int64 and unsigned ones in uint64.  Floating point
    volumes are outside this model. *)

Inductive kind : Type := Signed | Unsigned.

Definition voxels : Type := Z -> Z -> Z -> Z.

(** A bounding box: a half-open range [lo, hi) per axis. *)
Record bbox : Type := mkBox {
  z0 : Z; z1 : Z; y0 : Z; y1 : Z; x0 : Z; x1 : Z
}.

Definition range (a b : Z) : list Z := seqZ a (b - a).

(** The coordinates of a box in row-major order. *)
Definition coords (bb : bbox) : list (Z * Z * Z) :=
  z ← range (z0 bb) (z1 bb);
  y ← range (y0 bb) (y1 bb);
  x ← range (x0 bb) (x1 bb);
  [(z, y, x)].

Definition inside (bb : bbox) (z y x : Z) : bool :=
  (z0 bb <=? z) && (z <? z1 bb) && (y0 bb <=? y) && (y <? y1 bb)
  && (x0 bb <=? x) && (x <? x1 bb).

(** [ds[bb]], flattened in row-major order. *)
Definition read (ds : voxels) (bb : bbox) : list Z :=
  map (fun c => match c with (z, y, x) => ds z y x end) (coords bb).

(** Position of (z, y, x) in the row-major order of the box. *)
Definition offset (bb : bbox) (z y x : Z) : nat :=
  Z.to_nat (((z - z0 bb) * (y1 bb - y0 bb) + (y - y0 bb)) * (x1 bb - x0 bb)
            + (x - x0 bb)).

(** [ds[bb] = block]. *)
Definition write (ds : voxels) (bb : bbox) (block : list Z) : voxels :=
  fun z y x =>
    if inside bb z y x then nth (offset bb z y x) block 0 else ds z y x.

(** [data.sum()]. *)
Definition sum (k : kind) (block : list Z) : Z :=
  let s := fold_left Z.add block 0 in
  match k with
  | Unsigned => s mod 2 ^ 64
  | Signed => (s + 2 ^ 63) mod 2 ^ 64 - 2 ^ 63
  end.

(** Modelled from the spec: [util.blocking] is not part of the sources.
    The boxes tile the volume in outer-to-inner axis order, each clipped to
    the volume at the high edge (§4.1). *)
Definition starts (n c : Z) : list Z :=
  map (fun i => i * c) (seqZ 0 ((n + c - 1) / c)).

Definition blocking (shape block_shape : Z * Z * Z) : list bbox :=
  match shape, block_shape with
  | (nz, ny, nx), (cz, cy, cx) =>
      z ← starts nz cz;
      y ← starts ny cy;
      x ← starts nx cx;
      [mkBox z (Z.min (z + cz) nz) y (Z.min (y + cy) ny) x (Z.min (x + cx) nx)]
  end.

Section Copy.

(** [dtypes.convert_to_bdv_dtype], which is not part of the sources: it maps
    a block to the value range of the output type or raises. *)
Variable convert_to_bdv_dtype : list Z -> result (list Z).

(** [copy_chunk(bb)]: the content of [ds_out] afterwards. *)
Definition copy_chunk (k : kind) (convert_dtype : bool) (ds_in ds_out : voxels)
    (bb : bbox) : result voxels :=
  let block := read ds_in bb in
  if sum k block =? 0 then Ok ds_out else
  block ← (if convert_dtype then convert_to_bdv_dtype block else Ok block);
  Ok (write ds_out bb block).

(** Whether [copy_chunk(bb)] assigns to [ds_out]. *)
Definition skipped (k : kind) (ds_in : voxels) (bb : bbox) : bool :=
  sum k (read ds_in bb) =? 0.

(** [copy_dataset]: [create_dataset] gives an array that reads as zeros,
    [chunks] is the chunk shape that h5py chose for it, and the loop runs
    [copy_chunk] over the grid. *)
Definition copy_dataset (k : kind) (convert_dtype : bool) (ds_in : voxels)
    (shape chunks : Z * Z * Z) : result voxels :=
  foldl (fun acc bb => ds_out ← acc; copy_chunk k convert_dtype ds_in ds_out bb)
        (Ok (fun _ _ _ => 0)) (blocking shape chunks).

End Copy.

(** *** The pyramid *)

Section Pyramid.

Context {F : Type} `{PyFloat F}.

(** [downsample.downsample(path, in_key, out_key, factor, mode)], which is
    not part of the sources: it stores the reduced level at [out_key]. *)
Variable downsample :
  world F -> string -> string -> string -> list Z -> string -> world F * result ().





End Pyramid.

End Converter.

(** ** converter.py: output paths *)

(** [p.rfind(c)]: the index of the last occurrence, -1 when there is none. *)
Fixpoint rfind_from (c : ascii) (p : string) (i last : Z) : Z :=
  match p with
  | EmptyString => last
  | String a p' => rfind_from c p' (i + 1) (if Ascii.eqb a c then i else last)
  end.

Definition rfind (c : ascii) (p : string) : Z := rfind_from c p 0 (-1).

(** [p[a:b]] for [0 <= a <= b]. *)
Definition slice (p : string) (a b : Z) : string :=
  String.substring (Z.to_nat a) (Z.to_nat (b - a)) p.

(** [os.path.splitext(p)] on POSIX: the extension starts at the last dot
    of the last path component, unless only dots precede it there. *)
Definition splitext (p : string) : string * string :=
  let sepIndex := rfind "/" p in
  let dotIndex := rfind "." p in
  if (sepIndex <? dotIndex)
     && existsb (fun c => negb (Ascii.eqb c "."))
                (list_ascii_of_string (slice p (sepIndex + 1) dotIndex))
  then (slice p 0 dotIndex, slice p dotIndex (Z.of_nat (String.length p)))
  else (p, "").

Definition HDF5_EXTENSIONS : list string := [".h5"; ".hdf"; ".hdf5"].
Definition XML_EXTENSIONS : list string := [".xml"].

(** [ext.lower()] is taken on ASCII text. *)
Definition normalize_output_path (output_path : string) : result (string * string) :=
  let '(base_path, ext) := splitext output_path in
  if String.eqb ext "" then Ok (output_path ++ ".h5", output_path ++ ".xml")
  else if existsb (String.eqb (PyStr.lower_all ext)) HDF5_EXTENSIONS
  then Ok (output_path, base_path ++ ".xml")
  else if existsb (String.eqb (PyStr.lower_all ext)) XML_EXTENSIONS
  then Ok (base_path ++ ".h5", output_path)
  else Err (ValueError ("File extension " ++ ext ++ " not supported")).

(** ** Vocabulary of the statements *)

(** [m] is the greatest element of [l]. *)
Definition is_max (m : Z) (l : list Z) : Prop :=
  In m l /\ forall i, In i l -> i <= m.

(** Axis-wise product of two factors. *)
Definition axis_mul (a b : list Z) : list Z := zip_with Z.mul a b.

(** The cumulative scale factor at pyramid level [k], in the words of the
    specification: the axis-wise product of [factors[0..k-1]], which is
    (1,1,1) at level 0. *)
Definition cumulative (factors : list (list Z)) (k : nat) : list Z :=
  fold_left axis_mul (take k factors) [1; 1; 1].

(** The array stored under [key] of the container at [path], if any. *)
Definition stored {F} (w : world F) (path key : string) : option ndarray :=
  f ← containers w !! path;
  n ← f !! key;
  ds ← array n;
  Some (ds_data ds).

(** The value of attribute [name] of the node [key] of the container at [path]. *)
Definition attr_at {F} (w : world F) (path key name : string) : option (attr_value F) :=
  f ← containers w !! path;
  n ← f !! key;
  attrs n !! name.

(** The ids that [handle_setup_id] reads off the member names. *)
Definition member_ids (keys : list string) : result (list Z) :=
  mapM (fun sid => PyStr.int (String.substring 1 (String.length sid - 1) sid)) keys.

(** A signed volume of shape (1,1,2) holding 1 and -1. *)
Definition cancelling : Converter.voxels :=
  fun z y x => if x =? 0 then 1 else if x =? 1 then -1 else 0.




(** The array that a container holds under [key], if any. *)
Definition record_in {F} (f : gmap string (node F)) (key : string) : option ndarray :=
  n ← f !! key; ds ← array n; Some (ds_data ds).

(** The two compare-or-write blocks of [write_h5_metadata], on the open
    container. *)
Definition h5_blocks {F} (setup_id : Z) (scales chunks : ndarray)
    (f : gmap string (node F)) : gmap string (node F) * result () :=
  match compare_or_write setup_id (key_res setup_id) scales f with
  | (f, Err e) => (f, Err e)
  | (f, Ok _) => compare_or_write setup_id (key_chunks setup_id) chunks f
  end.

(** *** A small world to run the writers on

    One HDF5 container with three levels of setup 0 at timepoint 0 and the
    base level at timepoints 2 and 5, and one N5 container with two levels.
    Resolutions are integral floats. *)

Definition example_cells (shape chunks : list Z) : node Z :=
  mkNode ∅ (Some (mkDataset (mkArray shape "uint8" []) (Some chunks))).

Definition example_h5 : gmap string (node Z) :=
  list_to_map
    [ ("t00000/s00/0/cells", example_cells [10; 20; 30] [4; 5; 6]);
      ("t00000/s00/1/cells", example_cells [5; 10; 15] [2; 5; 5]);
      ("t00000/s00/2/cells", example_cells [5; 5; 8] [5; 5; 8]);
      ("t00002/s00/0/cells", example_cells [10; 20; 30] [4; 5; 6]);
      ("t00005/s00/0/cells", example_cells [10; 20; 30] [4; 5; 6]) ].

Definition example_n5 : gmap string (node Z) :=
  list_to_map
    [ ("setup0", mkNode ∅ None);
      ("setup0/timepoint0", mkNode ∅ None);
      ("setup0/timepoint0/s0", example_cells [10; 20; 30] [4; 5; 6]);
      ("setup0/timepoint0/s1", example_cells [5; 10; 15] [2; 5; 5]) ].

Definition example_world : world Z :=
  mkWorld ∅ (list_to_map [("d.h5", example_h5); ("d.n5", example_n5)]).

(** The factors that [make_scales] returns for [downscale_factors=[2, [1,2,2]]]. *)
Definition example_factors : list factor :=
  [FSeq [1; 1; 1]; FSeq [2; 2; 2]; FSeq [1; 2; 2]].

(** [example_world] after [write_h5_metadata] for setup 0. *)
Definition example_h5_written : world Z :=
  (write_h5_metadata example_world "d.h5" example_factors 0 0).1.

(** The key of the array of level [i] below the timepoint group:
    [g['s%i' % scale_id]]. *)
Definition level_key (group_key : string) (i : Z) : string :=
  group_key ++ "/s" ++ PyStr.str i.

(** What [write_n5_metadata] computes for level [k]: the first factor as it
    was passed, multiplied axis-wise by each of the next [k] factors
    reversed. *)
Definition n5_factor_at (scale_factors : list (list Z)) (k : nat) : list Z :=
  match scale_factors with
  | [] => []
  | first :: rest => fold_left (fun eff fac => axis_mul eff (rev fac)) (take k rest) first
  end.

(** The factors that [write_n5_metadata] appends after [prev]. *)
Fixpoint n5_scales_after (prev : list Z) (factors : list (list Z)) : list (list Z) :=
  match factors with
  | [] => []
  | factor :: rest =>
      axis_mul prev (rev factor) :: n5_scales_after (axis_mul prev (rev factor)) rest
  end.

(** [example_world] after [write_n5_metadata] for setup 0 with the factors
    (1,1,1) and (1,2,2). *)
Definition example_n5_written : world Z :=
  (write_n5_metadata example_world "d.n5" [[1; 1; 1]; [1; 2; 2]] [1; 2; 3] 0 0).1.

(** The [ViewSetups] element of the document at [xml_path]. *)
Definition doc_setups {F} (w : world F) (xml_path : string) : option Element :=
  root ← xml_files w !! xml_path;
  seqdesc ← find "SequenceDescription" root;
  find "ViewSetups" seqdesc.

(** The attribute mapping that the document records for [setup_id]:
    [this_attributes] of [validate_attributes], [None] when the document
    has no [ViewSetup] with that id. *)
Definition recorded_attributes (setups : Element) (setup_id : Z)
  : result (option (dict Z)) :=
  found ← first_with_id setup_id (findall "ViewSetup" setups);
  match found with
  | Some viewset =>
      a ← deref (find "attributes" viewset);
      d ← tag_ids a;
      Ok (Some d)
  | None => Ok None
  end.

(** How [validate_attributes] resolves the id requested for attribute
    [name], given the record of the setup and the ids of the registry. *)
Definition resolved (requested : option Z) (recorded : option (dict Z))
    (xml_ids : list Z) (name : string) (v : Z) : Prop :=
  match requested, recorded with
  | None, None => is_max (v - 1) xml_ids
  | None, Some d => Dict.get name d = Some v
  | Some i, Some d => v = i /\ Dict.get name d = Some i
  | Some i, None => v = i
  end.

(** Registry [a] is the registry of [name], and [v] is the id resolved for
    it. *)
Definition entry_ok (attributes : dict (option Z)) (recorded : option (dict Z))
    (a : Element) (name : string) (v : Z) : Prop :=
  Dict.get "name" (attrib a) = Some name
  /\ exists ids requested,
       mapM id_of (children a) = Ok ids
       /\ Dict.get name attributes = Some requested
       /\ resolved requested recorded ids name v.

(** [example_world] after [write_xml_metadata] for setup 0 at timepoint 0
    with attribute [channel = 0]. *)
Definition example_xml_written : world Z :=
  (write_xml_metadata example_world "d.xml" "d.h5" "pixel" [1; 2; 3] true 0 0
                      None None [("channel", 0)]).1.

(** Python's [==] on floats is symmetric and transitive (NaN is equal to
    nothing). *)
Class FloatEq (F : Type) `{PyFloat F} : Prop := {
  feqb_sym : forall x y : F, feqb x y = feqb y x;
  feqb_trans : forall x y z : F, feqb x y = true -> feqb y z = true -> feqb x z = true
}.

#[global] Instance integral_eq : FloatEq Z.
Proof.
  split.
  - intros x y. apply Z.eqb_sym.
  - intros x y z Hxy Hyz. apply Z.eqb_eq in Hxy, Hyz. apply Z.eqb_eq. congruence.
Qed.

(** The [ViewRegistration] element that [write_xml_metadata] appends. *)
Definition registration_of {F} `{PyFloat F} (setup_id timepoint : Z)
    (resolution : list F) (affine : option (affine_arg F)) : option Element :=
  match match affine with
        | None => _write_default_affine (new "ViewRegistrations") setup_id timepoint resolution
        | Some a => Ok (_write_affine (new "ViewRegistrations") setup_id timepoint a)
        end with
  | Ok vregs => last (children vregs)
  | Err _ => None
  end.

(** Every attribute registry of [viewsets] already has the id that
    [attributes] gives for its name: [_update_attributes] finds nothing to
    add. *)
Definition registries_fixed (attributes : dict Z) (viewsets : Element) : Prop :=
  forall a, In a (children viewsets) -> has_tag "Attributes" a = true ->
            update_attrset attributes a = Ok a.

(** The document [root] holds setup [setup_id] with the given name, unit,
    resolution, shape and attributes, its timepoint range includes
    [timepoint], and [registration] is the last view registration. *)
Definition setup_written {F} `{PyFloat F} (root : Element) (setup_id timepoint : Z)
    (setup_name unit : string) (resolution : list F) (shape : list Z)
    (attributes : dict Z) (registration : Element) : Prop :=
  exists seqdesc viewsets tpoints vregs0 vs first last fi la dz dy dx nz ny nx,
    resolution = [dz; dy; dx] /\ shape = [nz; ny; nx]
    /\ find "SequenceDescription" root = Some seqdesc
    /\ find "ViewSetups" seqdesc = Some viewsets
    /\ find "Timepoints" seqdesc = Some tpoints
    /\ find "ViewRegistrations" root = Some (SubElement vregs0 registration)
    /\ registries_fixed attributes viewsets
    /\ first_with_id setup_id (findall "ViewSetup" viewsets) = Ok (Some vs)
    /\ _check_setup setup_name nx ny nz dx dy dz attributes unit vs = Ok tt
    /\ find "first" tpoints = Some first /\ text first = Some (PyStr.str fi)
    /\ fi <= timepoint
    /\ find "last" tpoints = Some last /\ text last = Some (PyStr.str la)
    /\ timepoint <= la.

(** [get_time_range] on a parsed document. *)
Definition root_time_range (root : Element) : result (Z * Z) :=
  seqdesc ← deref (find "SequenceDescription" root);
  tpoints ← deref (find "Timepoints" seqdesc);
  first ← deref (find "first" tpoints);
  first ← PyStr.int_text (text first);
  last ← deref (find "last" tpoints);
  last ← PyStr.int_text (text last);
  Ok (first, last).

(** The handles point into the tree of [h_root], and the timepoint range
    that [h_tpoints] holds is [fi, la]. *)
Definition handles_shape (h : handles) (fi la : Z) : Prop :=
  find "SequenceDescription" (h_root h) = Some (h_seqdesc h)
  /\ is_Some (find "ViewSetups" (h_seqdesc h))
  /\ tag (h_viewsets h) = "ViewSetups"
  /\ is_Some (find "Timepoints" (h_seqdesc h))
  /\ tag (h_tpoints h) = "Timepoints"
  /\ h_vregs h = find "ViewRegistrations" (h_root h)
  /\ exists first last,
       find "first" (h_tpoints h) = Some first /\ text first = Some (PyStr.str fi)
       /\ find "last" (h_tpoints h) = Some last /\ text last = Some (PyStr.str la).

(** What [write_xml_metadata] does with the registrations element. *)
Definition affine_step {F} `{PyFloat F} (vregs : Element) (setup_id timepoint : Z)
    (resolution : list F) (affine : option (affine_arg F)) : result Element :=
  match affine with
  | None => _write_default_affine vregs setup_id timepoint resolution
  | Some a => Ok (_write_affine vregs setup_id timepoint a)
  end.

(** The shape that [write_xml_metadata] reads from the container. *)
Definition shape_read {F} (w : world F) (data_path : string) (is_h5 : bool)
    (setup_id timepoint : Z) : result (list Z) :=
  f ← open_read w data_path;
  ds ← get_dataset f (get_key is_h5 (Some timepoint) (Some setup_id) (Some 0));
  Ok (a_shape (ds_data ds)).

(** [write_xml_metadata] for setup 0 of the example container, at
    timepoint [tp], with attribute [channel = 0]. *)
Definition example_write (w : world Z) (tp : Z) : world Z * result () :=
  write_xml_metadata w "d.xml" "d.h5" "pixel" [1; 2; 3] true 0 tp None None
                     [("channel", 0)].

(** [example_world] after the container metadata and the document of
    setup 0 were written. *)
Definition example_setup_written : world Z :=
  (example_write example_h5_written 0).1.

(** The transformations that [write_xml_metadata] records for its
    arguments, under the names that [get_affine] gives them: a list is one
    transformation named [affine0]; a dictionary is one transformation per
    entry; with no affine argument the registration is the scaling by the
    resolution, with [zero] for the float 0.0. *)
Definition affine_recorded {F} (zero : F) (resolution : list F)
    (affine : option (affine_arg F)) : list (option string * list F) :=
  match affine with
  | Some (AffineList trafo) => [(Some "affine0", trafo)]
  | Some (AffineDict trafos) => map (fun kv => (Some (fst kv), snd kv)) trafos
  | None =>
      match resolution with
      | [dz; dy; dx] =>
          [(Some "affine0",
            [dx; zero; zero; zero; zero; dy; zero; zero; zero; zero; dz; zero])]
      | _ => []
      end
  end.

(** A transformation of an affine argument has a parameter, so that its
    text in the file is not empty, and its floats are not NaN; a dictionary
    of transformations has one entry per name, and the names are plain
    text. *)
Definition affine_printable {F} `{PyFloat F} (affine : option (affine_arg F)) : Prop :=
  match affine with
  | Some (AffineList trafo) => trafo <> [] /\ Forall printable trafo
  | Some (AffineDict trafos) =>
      Dict.wf trafos
      /\ Forall (fun kv => PyStr.plain (fst kv) = true
                           /\ snd kv <> [] /\ Forall printable (snd kv)) trafos
  | None => True
  end.

(** *** A document with two setups

    The HDF5 container of [example_world] with a second setup, and the
    document after setup 0 and then setup 1 were written. *)

Definition example_world2 : world Z :=
  mkWorld ∅
    (list_to_map
       [("d.h5", <["t00000/s01/0/cells" := example_cells [4; 8; 8] [4; 8; 8]]> example_h5)]).

Definition example_first : world Z :=
  (write_xml_metadata example_world2 "d.xml" "d.h5" "pixel" [1; 2; 3] true 0 0
                      None None [("channel", 0)]).1.

Definition example_second_write (w : world Z) : world Z * result () :=
  write_xml_metadata w "d.xml" "d.h5" "micrometer" [2; 2; 2] true 1 0
                     (Some "second")
                     (Some (AffineList [1; 0; 0; 5; 0; 1; 0; 6; 0; 0; 1; 7]))
                     [("channel", 1)].

Definition example_second : world Z := (example_second_write example_first).1.

(** *** A setup with the empty string as its name

    [write_xml_metadata] for setup 0 of [example_h5_written] with
    [setup_name=''], and the document that it leaves. *)

Definition example_unnamed_write (w : world Z) (unit : string) : world Z * result () :=
  write_xml_metadata w "d.xml" "d.h5" unit [1; 2; 3] true 0 0 (Some "") None
                     [("channel", 0)].

Definition example_unnamed : world Z :=
  (example_unnamed_write example_h5_written "pixel").1.

(** The text of the [name] element of the last [Channel] entry of the
    first attribute registry of the document. *)
Definition example_entry_name (w : world Z) : option (option string) :=
  setups ← doc_setups w "d.xml";
  registry ← head (findall "Attributes" setups);
  entry ← last (findall "Channel" registry);
  name ← find "name" entry;
  Some (text name).

(** * Properties *)

(** ** The result monad *)

Lemma bind_Ok {A B} (r : result A) (k : A -> result B) (b : B) :
  r ≫= k = Ok b -> exists a, r = Ok a /\ k a = Ok b.
Proof. destruct r as [a|e]; cbn; [eauto | discriminate]. Qed.

Lemma bind_Err {A B} (r : result A) (k : A -> result B) (e : pyerror) :
  r = Err e -> r ≫= k = Err e.
Proof. intros ->. reflexivity. Qed.

Lemma deref_Ok {A} (o : option A) (a : A) : deref o = Ok a -> o = Some a.
Proof. destruct o; cbn; congruence. Qed.

(** Take a successful chain of raising steps apart, one step at a time. *)
Ltac inv_ok H :=
  repeat match type of H with
  | _ ≫= _ = Ok _ =>
      let a := fresh "a" in
      let Ha := fresh "Ha" in
      apply bind_Ok in H as (a & Ha & H)
  end.

Lemma mapM_app {A B} (f : A -> result B) (l1 l2 : list A) bs1 bs2 :
  mapM f l1 = Ok bs1 -> mapM f l2 = Ok bs2 ->
  mapM f (l1 ++ l2) = Ok (bs1 ++ bs2)%list.
Proof.
  revert bs1. induction l1 as [|a l1 IH]; cbn; intros bs1 H1 H2.
  - injection H1 as <-. exact H2.
  - destruct (f a) as [b|]; cbn in *; [|discriminate].
    destruct (mapM f l1) as [bs|]; cbn in *; [|discriminate].
    injection H1 as <-. rewrite (IH bs eq_refl H2). reflexivity.
Qed.

Lemma mapM_length {A B} (f : A -> result B) (l : list A) bs :
  mapM f l = Ok bs -> length bs = length l.
Proof.
  revert bs. induction l as [|a l IH]; cbn; intros bs Hm.
  - injection Hm as <-. reflexivity.
  - destruct (f a); cbn in Hm; [|discriminate].
    destruct (mapM f l); cbn in Hm; [|discriminate].
    injection Hm as <-. cbn. f_equal. eauto.
Qed.

Lemma mapM_ext_in {A B} (f g : A -> result B) (l : list A) :
  (forall a, In a l -> f a = g a) -> mapM f l = mapM g l.
Proof.
  induction l as [|a l IH]; cbn; intros Hfg; [reflexivity|].
  rewrite (Hfg a) by auto. rewrite IH by auto. reflexivity.
Qed.

Lemma list_eqb_eq {A} (eqb : A -> A -> bool) (l1 l2 : list A) :
  (forall a b, eqb a b = true <-> a = b) ->
  list_eqb eqb l1 l2 = true <-> l1 = l2.
Proof.
  intros Heq. revert l2. induction l1 as [|a l1 IH]; intros [|b l2]; cbn;
    try (split; [discriminate | congruence]); [tauto|].
  rewrite andb_true_iff, Heq, IH. split; [intros [-> ->]; reflexivity|].
  intros [= -> ->]. auto.
Qed.

Lemma list_eqb_Z (l1 l2 : list Z) : list_eqb Z.eqb l1 l2 = true <-> l1 = l2.
Proof. apply list_eqb_eq. intros. apply Z.eqb_eq. Qed.

Lemma list_eqb_ZZ (l1 l2 : list (list Z)) :
  list_eqb (list_eqb Z.eqb) l1 l2 = true <-> l1 = l2.
Proof. apply list_eqb_eq. intros. apply list_eqb_Z. Qed.

(** ** Printing and parsing integers *)

Module PyStrFacts.
Import PyStr.

Lemma int_of_string_of_int (d : Decimal.int) :
  exists d', NilZero.int_of_string (NilZero.string_of_int d) = Some d'
             /\ Z.of_int d' = Z.of_int d.
Proof.
  destruct (Decimal.int_eq_dec d (Decimal.Pos Decimal.Nil)) as [->|Hp].
  { eexists. split; reflexivity. }
  destruct (Decimal.int_eq_dec d (Decimal.Neg Decimal.Nil)) as [->|Hn].
  { eexists. split; reflexivity. }
  exists d. split; [apply NilZero.isi; assumption | reflexivity].
Qed.

(** [int(str(z)) == z]. *)
Lemma int_str (z : Z) : int (str z) = Ok z.
Proof.
  unfold int, str.
  destruct (int_of_string_of_int (Z.to_int z)) as (d' & -> & Hd).
  rewrite Hd, DecimalZ.of_to. reflexivity.
Qed.

End PyStrFacts.

(** ** [max] *)

Lemma fold_max_spec (l : list Z) (a : Z) :
  let m := fold_left Z.max l a in
  (m = a \/ In m l) /\ a <= m /\ forall i, In i l -> i <= m.
Proof.
  revert a. induction l as [|b l IH]; intros a; cbn.
  - split; [auto|]. split; [lia|]. intros i [].
  - destruct (IH (Z.max a b)) as (Hin & Hle & Hall).
    split; [|split].
    + destruct Hin as [Hm|Hm]; [|right; right; exact Hm].
      rewrite Hm.
      destruct (Z.max_spec a b) as [[_ ->]|[_ ->]];
        [right; left; reflexivity | left; reflexivity].
    + lia.
    + intros i [<-|Hi]; [lia | auto].
Qed.

Lemma max_Ok (l : list Z) (m : Z) : Np.max l = Ok m -> is_max m l.
Proof.
  destruct l as [|a l]; cbn; [discriminate|]. intros [= <-].
  destruct (fold_max_spec l a) as (Hin & Hle & Hall). split.
  - destruct Hin as [->|Hin]; [left; reflexivity | right; exact Hin].
  - intros i [<-|Hi]; auto.
Qed.

Lemma max_nonempty (l : list Z) : l <> [] -> exists m, Np.max l = Ok m.
Proof. destruct l; [congruence | cbn; eauto]. Qed.

(** ** converter.py: [handle_setup_id] *)

(** C10: with [setup_id=None], [handle_setup_id] returns 0 when the container
    file does not exist and otherwise the greatest existing setup id plus one
    (so with setups 0 and 5 it returns 6, not 1); whatever it returns is
    below 100, the assertion failing otherwise; an explicitly supplied id
    that is not taken is returned as it is whenever it is below 100, also
    when it is negative. *)
Theorem handle_setup_id_next_free :
  (forall answer, Converter.handle_setup_id None None answer = Ok 0)
  /\ (forall keys ids answer,
        member_ids keys = Ok ids -> ids <> [] ->
        exists m, is_max m ids
          /\ Converter.handle_setup_id None (Some keys) answer
             = if m + 1 <? 100 then Ok (m + 1)
               else Err (AssertionError "Only up to 100 set-ups are supported"))
  /\ Converter.handle_setup_id None (Some ["s00"; "s05"]) "" = Ok 6
  /\ (forall setup_id existing answer r,
        Converter.handle_setup_id setup_id existing answer = Ok r -> r < 100)
  /\ (forall s keys ids answer,
        member_ids keys = Ok ids -> ~ In s ids -> s < 100 ->
        Converter.handle_setup_id (Some s) (Some keys) answer = Ok s)
  /\ (forall s answer, s < 100 -> s <> -1 ->
        Converter.handle_setup_id (Some s) None answer = Ok s).
Proof.
  repeat split.
  - intros keys ids answer Hids Hne.
    destruct (max_nonempty ids Hne) as (m & Hm).
    exists m. split; [apply max_Ok; exact Hm|].
    unfold Converter.handle_setup_id. unfold member_ids in Hids.
    rewrite Hids. cbn. rewrite Hm. cbn. reflexivity.
  - intros setup_id existing answer r Hr.
    unfold Converter.handle_setup_id in Hr.
    inv_ok Hr. destruct (a0 <? 100) eqn:Hlt; [|discriminate].
    injection Hr as <-. lia.
  - intros s keys ids answer Hids Hnin Hlt.
    unfold Converter.handle_setup_id. unfold member_ids in Hids.
    rewrite Hids. cbn.
    replace (existsb (Z.eqb s) ids) with false.
    + cbn. destruct (s <? 100) eqn:E; [reflexivity | lia].
    + symmetry. apply not_true_is_false. intros Hex.
      apply existsb_exists in Hex as (x & Hx & Heq).
      apply Z.eqb_eq in Heq. subst x. contradiction.
  - intros s answer Hlt Hne. unfold Converter.handle_setup_id. cbn.
    destruct (s =? -1) eqn:E; [lia|]. cbn.
    destruct (s <? 100) eqn:E'; [reflexivity | lia].
Qed.

Lemma handle_setup_id_next_free_witness :
  Converter.handle_setup_id None (Some ["s00"; "s02"; "s01"]) "" = Ok 3
  /\ Converter.handle_setup_id (Some (-7)) (Some ["s00"]) "" = Ok (-7)
  /\ Converter.handle_setup_id None (Some ["s99"]) ""
     = Err (AssertionError "Only up to 100 set-ups are supported").
Proof.
  destruct handle_setup_id_next_free as (_ & Hnext & _ & _ & Hexp & _).
  split; [|split].
  - destruct (Hnext ["s00"; "s02"; "s01"] [0; 2; 1] "" eq_refl ltac:(discriminate))
      as (m & _ & _).
    reflexivity.
  - apply (Hexp (-7) ["s00"] [0] ""); [reflexivity | | lia].
    intros [H|[]]. discriminate H.
  - reflexivity.
Defined.

(** ** converter.py: [copy_chunk] *)

Lemma fold_add_shift (l : list Z) (a : Z) :
  fold_left Z.add l a = a + fold_left Z.add l 0.
Proof.
  revert a. induction l as [|b l IH]; intros a; cbn; [lia|].
  rewrite (IH (a + b)), (IH (0 + b)). lia.
Qed.

Lemma fold_add_nonneg (l : list Z) :
  (forall v, In v l -> 0 <= v) -> 0 <= fold_left Z.add l 0.
Proof.
  induction l as [|b l IH]; cbn; intros Hl; [lia|].
  rewrite fold_add_shift. specialize (Hl b (or_introl eq_refl)) as Hb.
  assert (0 <= fold_left Z.add l 0) by (apply IH; intros; apply Hl; right; assumption).
  lia.
Qed.

Lemma fold_add_zero (l : list Z) :
  (forall v, In v l -> 0 <= v) ->
  fold_left Z.add l 0 = 0 <-> forall v, In v l -> v = 0.
Proof.
  induction l as [|b l IH]; cbn; intros Hl.
  - split; [intros _ v [] | reflexivity].
  - rewrite fold_add_shift.
    assert (Hb : 0 <= b) by (apply Hl; left; reflexivity).
    assert (Hl' : forall v, In v l -> 0 <= v) by (intros; apply Hl; right; assumption).
    pose proof (fold_add_nonneg l Hl') as Hs. specialize (IH Hl').
    split.
    + intros Hsum v [<-|Hv]; [lia|]. apply IH; [lia | exact Hv].
    + intros Hz. rewrite (Hz b (or_introl eq_refl)).
      assert (fold_left Z.add l 0 = 0) by (apply IH; intros; apply Hz; right; assumption).
      lia.
Qed.

(** Where [copy_chunk] is right: on unsigned data whose sum fits the
    accumulator, a block is skipped exactly when all of it is zero. *)
Lemma skipped_unsigned_iff (ds_in : Converter.voxels) (bb : Converter.bbox) :
  (forall v, In v (Converter.read ds_in bb) -> 0 <= v) ->
  fold_left Z.add (Converter.read ds_in bb) 0 < 2 ^ 64 ->
  Converter.skipped Converter.Unsigned ds_in bb = true
  <-> forall v, In v (Converter.read ds_in bb) -> v = 0.
Proof.
  intros Hpos Hfit. unfold Converter.skipped, Converter.sum.
  pose proof (fold_add_nonneg _ Hpos) as Hs.
  rewrite Z.mod_small by lia. rewrite Z.eqb_eq. apply fold_add_zero. exact Hpos.
Qed.

Lemma skipped_unsigned_iff_witness :
  Converter.skipped Converter.Unsigned (fun _ _ _ => 0) (Converter.mkBox 0 1 0 1 0 2) = true
  <-> forall v, In v [0; 0] -> v = 0.
Proof.
  apply (skipped_unsigned_iff (fun _ _ _ => 0) (Converter.mkBox 0 1 0 1 0 2)).
  - cbn. intros v [<-|[<-|[]]]; lia.
  - vm_compute. reflexivity.
Defined.

(** C2, at the input on which the code departs from it: the grid of a
    (1,1,2) volume is one block; it holds 1 and -1, so not every element is
    zero, but [data.sum()] is 0 and [copy_chunk] skips it; the destination
    then reads back as zeros at the coordinates where the source has 1
    and -1. *)
Theorem copy_chunk_skips_cancelling_block :
  forall convert_to_bdv_dtype : list Z -> result (list Z),
    let bb := Converter.mkBox 0 1 0 1 0 2 in
    Converter.blocking (1, 1, 2) (1, 1, 2) = [bb]
    /\ Converter.read cancelling bb = [1; -1]
    /\ Converter.skipped Converter.Signed cancelling bb = true
    /\ exists ds_out,
         Converter.copy_dataset convert_to_bdv_dtype Converter.Signed false
                                cancelling (1, 1, 2) (1, 1, 2) = Ok ds_out
         /\ Converter.read ds_out bb = [0; 0].
Proof.
  intros convert bb. repeat split.
  eexists. split; reflexivity.
Qed.

(** ** Strings used as keys *)

Lemma append_cons (c : ascii) (s t : string) : String c s ++ t = String c (s ++ t).
Proof. reflexivity. Qed.

Lemma append_nil (t : string) : "" ++ t = t.
Proof. reflexivity. Qed.

(** Unfold the concatenations whose left operand is a literal. *)
Ltac str_simpl := repeat (rewrite ?append_cons, ?append_nil; cbn).
Ltac str_simpl_in H := repeat (rewrite ?append_cons, ?append_nil in H; cbn in H).

Lemma append_inj_l (p a b : string) : p ++ a = p ++ b -> a = b.
Proof.
  induction p as [|c p IH]; rewrite ?append_nil, ?append_cons; [auto|].
  intros [= Hp]. auto.
Qed.

Lemma length_append (s t : string) :
  String.length (s ++ t) = (String.length s + String.length t)%nat.
Proof.
  induction s as [|c s IHs]; rewrite ?append_nil, ?append_cons; cbn;
    [reflexivity | f_equal; exact IHs].
Qed.

Lemma append_inj_r (a b s : string) : a ++ s = b ++ s -> a = b.
Proof.
  intros Hab.
  assert (Hl : String.length a = String.length b).
  { apply (f_equal String.length) in Hab. rewrite !length_append in Hab. lia. }
  revert b Hab Hl. induction a as [|c a IHa]; intros [|d b] Hab Hl;
    cbn in Hl; try discriminate; [reflexivity|].
  rewrite !append_cons in Hab. injection Hab as -> Hab. injection Hl as Hl.
  f_equal. eauto.
Qed.

Lemma append_same_length (a b s t : string) :
  String.length s = String.length t -> a ++ s = b ++ t -> s = t.
Proof.
  intros Hst Hab.
  assert (Hl : String.length a = String.length b).
  { apply (f_equal String.length) in Hab. rewrite !length_append in Hab. lia. }
  revert b Hab Hl. induction a as [|c a IHa]; intros [|d b] Hab Hl;
    cbn in Hl; try discriminate.
  - exact Hab.
  - rewrite !append_cons in Hab. injection Hab as _ Hab. injection Hl as Hl. eauto.
Qed.

Lemma append_assoc (a b c : string) : (a ++ b) ++ c = a ++ (b ++ c).
Proof.
  induction a as [|x a IH]; rewrite ?append_nil, ?append_cons; [reflexivity|].
  f_equal. exact IH.
Qed.

Lemma key_res_ne_key_chunks (s1 s2 : Z) : key_res s1 <> key_chunks s2.
Proof.
  unfold key_res, key_chunks. intros Heq.
  rewrite !append_cons, !append_nil in Heq. injection Heq as Heq.
  change "/resolutions" with ("/" ++ "resolutions") in Heq.
  change "/subdivisions" with ("/s" ++ "ubdivisions") in Heq.
  rewrite <- !append_assoc in Heq.
  apply append_same_length in Heq; [discriminate | reflexivity].
Qed.

Lemma cells_ne_key_res (t s l s' : Z) :
  get_key true (Some t) (Some s) (Some l) <> key_res s'.
Proof.
  unfold get_key, key_res. rewrite !append_cons, !append_nil. discriminate.
Qed.

Lemma cells_ne_key_chunks (t s l s' : Z) :
  get_key true (Some t) (Some s) (Some l) <> key_chunks s'.
Proof.
  unfold get_key, key_chunks. rewrite !append_cons, !append_nil. discriminate.
Qed.

(** ** metadata.py: [write_h5_metadata] *)

Section H5Facts.

Context {F : Type} `{PyFloat F}.


Lemma array_equal_refl (a : ndarray) : Np.array_equal a a = true.
Proof.
  unfold Np.array_equal. apply andb_true_iff. split.
  - apply list_eqb_Z. reflexivity.
  - apply list_eqb_ZZ. reflexivity.
Qed.

Lemma array_equal_rows (a b : ndarray) :
  Np.array_equal a b = true -> a_shape a = a_shape b /\ a_rows a = a_rows b.
Proof.
  unfold Np.array_equal. rewrite andb_true_iff, list_eqb_Z, list_eqb_ZZ. tauto.
Qed.




(** The block [if key in f: ... else: f.create_dataset(...)] leaves every
    node that exists as it is. *)
Lemma compare_or_write_preserves sid key a (f f' : gmap string (node F)) r :
  compare_or_write sid key a f = (f', r) ->
  forall k n, f !! k = Some n -> f' !! k = Some n.
Proof.
  unfold compare_or_write. intros Hc k n Hk.
  destruct (f !! key) as [m|] eqn:Hkey.
  - destruct (array m); [destruct (negb _)|]; injection Hc as <- _; exact Hk.
  - injection Hc as <- _. unfold create_dataset.
    rewrite lookup_insert_ne; [exact Hk|]. intros ->. congruence.
Qed.

Lemma compare_or_write_present sid key a (f : gmap string (node F)) n expected :
  f !! key = Some n -> array n = Some expected ->
  compare_or_write sid key a f
  = (f, if Np.array_equal (ds_data expected) a then Ok tt else Err (inconsistent sid)).
Proof.
  intros Hk Ha. unfold compare_or_write. rewrite Hk, Ha.
  destruct (Np.array_equal _ _); reflexivity.
Qed.

Lemma compare_or_write_absent sid key a (f : gmap string (node F)) :
  f !! key = None ->
  compare_or_write sid key a f = (create_dataset key a f, Ok tt).
Proof. intros Hk. unfold compare_or_write. rewrite Hk. reflexivity. Qed.

(** After the block succeeded, the record holds the computed rows. *)
Lemma compare_or_write_Ok sid key a (f f' : gmap string (node F)) :
  compare_or_write sid key a f = (f', Ok tt) ->
  exists n ds, f' !! key = Some n /\ array n = Some ds
               /\ a_rows (ds_data ds) = a_rows a
               /\ a_shape (ds_data ds) = a_shape a
               /\ (f !! key = None -> ds_data ds = a)
               /\ forall k, k <> key -> f' !! k = f !! k.
Proof.
  unfold compare_or_write. intros Hc.
  destruct (f !! key) as [m|] eqn:Hkey.
  - destruct (array m) as [e|] eqn:He; [|discriminate].
    destruct (Np.array_equal (ds_data e) a) eqn:Heq; cbn in Hc; [|discriminate].
    injection Hc as <-. apply array_equal_rows in Heq as [Hs Hr].
    exists m, e. repeat split; auto. discriminate.
  - injection Hc as <-. unfold create_dataset.
    eexists _, _. rewrite lookup_insert_eq. repeat split.
    intros k Hk. rewrite lookup_insert_ne; [reflexivity | congruence].
Qed.

End H5Facts.

Section H5Theorems.

Context {F : Type} `{PyFloat F}.







End H5Theorems.

Section H5Consistency.

Context {F : Type} `{PyFloat F}.

Lemma stored_record_in (w : world F) path key :
  stored w path key = record_in (open_append w path) key.
Proof.
  unfold stored, record_in, open_append.
  destruct (containers w !! path); cbn; [reflexivity|].
  rewrite lookup_empty. reflexivity.
Qed.

Lemma stored_close_record_in (w : world F) path f key :
  stored (close w path f) path key = record_in f key.
Proof. unfold stored, record_in, close. cbn. rewrite lookup_insert_eq. reflexivity. Qed.

Lemma record_in_create key a (f : gmap string (node F)) :
  record_in (create_dataset key a f) key = Some a.
Proof. unfold record_in, create_dataset. rewrite lookup_insert_eq. reflexivity. Qed.

Lemma record_in_create_ne key key' a (f : gmap string (node F)) :
  key <> key' -> record_in (create_dataset key a f) key' = record_in f key'.
Proof. intros Hne. unfold record_in, create_dataset. rewrite lookup_insert_ne by exact Hne. reflexivity. Qed.

Lemma record_in_create_keep key key' a (f : gmap string (node F)) p :
  f !! key = None -> record_in f key' = Some p ->
  record_in (create_dataset key a f) key' = Some p.
Proof.
  intros Hn Hp. rewrite record_in_create_ne; [exact Hp|].
  intros ->. unfold record_in in Hp. rewrite Hn in Hp. discriminate.
Qed.

Lemma write_h5_metadata_blocks (w : world F) path sfs sid tp scales chunks :
  h5_arrays w path sfs sid tp = Ok (scales, chunks) ->
  write_h5_metadata w path sfs sid tp
  = (close w path (h5_blocks sid scales chunks (open_append w path)).1,
     (h5_blocks sid scales chunks (open_append w path)).2).
Proof.
  intros Ha. unfold write_h5_metadata, h5_blocks. rewrite Ha.
  destruct (compare_or_write sid (key_res sid) scales _) as [f1 [[]|e]]; [|reflexivity].
  destruct (compare_or_write sid (key_chunks sid) chunks f1); reflexivity.
Qed.

Lemma h5_blocks_spec sid scales chunks (f0 : gmap string (node F)) :
  (forall key n, key = key_res sid \/ key = key_chunks sid ->
                 f0 !! key = Some n -> is_Some (array n)) ->
  exists f2 r,
    h5_blocks sid scales chunks f0 = (f2, r)
    /\ (r = Err (inconsistent sid)
        <-> (exists p, record_in f0 (key_res sid) = Some p
                       /\ Np.array_equal p scales = false)
            \/ (exists p, record_in f0 (key_chunks sid) = Some p
                          /\ Np.array_equal p chunks = false))
    /\ (r = Ok tt \/ r = Err (inconsistent sid))
    /\ (forall key a, record_in f0 key = Some a -> record_in f2 key = Some a)
    /\ (record_in f0 (key_res sid) = None -> record_in f2 (key_res sid) = Some scales)
    /\ (record_in f0 (key_chunks sid) = None ->
        (forall p, record_in f0 (key_res sid) = Some p -> Np.array_equal p scales = true) ->
        record_in f2 (key_chunks sid) = Some chunks /\ r = Ok tt).
Proof.
  intros Harr. unfold h5_blocks.
  pose proof (key_res_ne_key_chunks sid sid) as Hne.
  destruct (f0 !! key_res sid) as [n1|] eqn:H1.
  - destruct (Harr _ n1 (or_introl eq_refl) H1) as [e1 He1].
    assert (R1 : record_in f0 (key_res sid) = Some (ds_data e1)).
    { unfold record_in. rewrite H1. cbn. rewrite He1. reflexivity. }
    rewrite (compare_or_write_present _ _ _ _ _ _ H1 He1). rewrite R1.
    destruct (Np.array_equal (ds_data e1) scales) eqn:Heq1.
    + destruct (f0 !! key_chunks sid) as [n2|] eqn:H2.
      * destruct (Harr _ n2 (or_intror eq_refl) H2) as [e2 He2].
        assert (R2 : record_in f0 (key_chunks sid) = Some (ds_data e2)).
        { unfold record_in. rewrite H2. cbn. rewrite He2. reflexivity. }
        rewrite (compare_or_write_present _ _ _ _ _ _ H2 He2). rewrite R2.
        eexists _, _. split; [reflexivity|].
        destruct (Np.array_equal (ds_data e2) chunks) eqn:Heq2.
        -- split; [|split; [|split; [|split]]]; auto; try discriminate.
           split; [discriminate|].
           intros [(p & [= <-] & Hp)|(p & [= <-] & Hp)]; congruence.
        -- split; [|split; [|split; [|split]]]; auto; try discriminate.
           split; [|reflexivity]. intros _. right. eauto.
      * assert (R2 : record_in f0 (key_chunks sid) = None).
        { unfold record_in. rewrite H2. reflexivity. }
        rewrite (compare_or_write_absent _ _ _ _ H2). rewrite R2.
        eexists _, _. split; [reflexivity|].
        split; [|split; [|split; [|split]]]; auto; try discriminate.
        -- split; [discriminate|].
           intros [(p & [= <-] & Hp)|(p & [=] & Hp)]; congruence.
        -- intros key a. apply record_in_create_keep. exact H2.
        -- intros _ _. split; [apply record_in_create | reflexivity].
    + eexists _, _. split; [reflexivity|].
      split; [|split; [|split; [|split]]]; auto; try discriminate.
      * split; [|reflexivity]. intros _. left. eauto.
      * intros _ Hp. specialize (Hp _ eq_refl). congruence.
  - assert (R1 : record_in f0 (key_res sid) = None).
    { unfold record_in. rewrite H1. reflexivity. }
    rewrite (compare_or_write_absent _ _ _ _ H1). rewrite R1.
    assert (H2' : create_dataset (key_res sid) scales f0 !! key_chunks sid
                  = f0 !! key_chunks sid).
    { unfold create_dataset. apply lookup_insert_ne. exact Hne. }
    destruct (f0 !! key_chunks sid) as [n2|] eqn:H2.
    + destruct (Harr _ n2 (or_intror eq_refl) H2) as [e2 He2].
      assert (R2 : record_in f0 (key_chunks sid) = Some (ds_data e2)).
      { unfold record_in. rewrite H2. cbn. rewrite He2. reflexivity. }
      rewrite (compare_or_write_present _ _ _ _ _ _ H2' He2). rewrite R2.
      eexists _, _. split; [reflexivity|].
      destruct (Np.array_equal (ds_data e2) chunks) eqn:Heq2.
      * split; [|split; [|split; [|split]]]; auto; try discriminate.
        -- split; [discriminate|].
           intros [(p & [=] & Hp)|(p & [= <-] & Hp)]; congruence.
        -- intros key a. apply record_in_create_keep. exact H1.
        -- intros _. apply record_in_create.
      * split; [|split; [|split; [|split]]]; auto; try discriminate.
        -- split; [|reflexivity]. intros _. right. eauto.
        -- intros key a. apply record_in_create_keep. exact H1.
        -- intros _. apply record_in_create.
    + assert (R2 : record_in f0 (key_chunks sid) = None).
      { unfold record_in. rewrite H2. reflexivity. }
      rewrite (compare_or_write_absent _ _ _ _ H2'). rewrite R2.
      eexists _, _. split; [reflexivity|].
      split; [|split; [|split; [|split]]]; auto; try discriminate.
      * split; [discriminate|]. intros [(p & [=] & Hp)|(p & [=] & Hp)].
      * intros key a Hk. apply record_in_create_keep; [exact H2'|].
        apply record_in_create_keep; [exact H1 | exact Hk].
      * intros _. rewrite record_in_create_ne by (intros E; symmetry in E; contradiction).
        apply record_in_create.
      * intros _ _. split; [apply record_in_create | reflexivity].
Qed.


(** C6: once [write_h5_metadata] has computed its two arrays, it raises the
    consistency error exactly when a record that exists differs from the
    array computed for it; no record that exists is changed, whatever the
    outcome; a [resolutions] record that is absent is written, and so is a
    [subdivisions] record that is absent unless the error was raised for
    [resolutions] before. *)
Theorem write_h5_metadata_compare_or_write (w : world F) (path : string)
    (scale_factors : list factor) (setup_id timepoint : Z) (scales chunks : ndarray) :
  h5_arrays w path scale_factors setup_id timepoint = Ok (scales, chunks) ->
  (forall key n, key = key_res setup_id \/ key = key_chunks setup_id ->
                 open_append w path !! key = Some n -> is_Some (array n)) ->
  exists w' r,
    write_h5_metadata w path scale_factors setup_id timepoint = (w', r)
    /\ (r = Err (inconsistent setup_id)
        <-> (exists p, stored w path (key_res setup_id) = Some p
                       /\ Np.array_equal p scales = false)
            \/ (exists p, stored w path (key_chunks setup_id) = Some p
                          /\ Np.array_equal p chunks = false))
    /\ (r = Ok tt \/ r = Err (inconsistent setup_id))
    /\ (forall key a, stored w path key = Some a -> stored w' path key = Some a)
    /\ (stored w path (key_res setup_id) = None ->
        stored w' path (key_res setup_id) = Some scales)
    /\ (stored w path (key_chunks setup_id) = None ->
        (forall p, stored w path (key_res setup_id) = Some p ->
                   Np.array_equal p scales = true) ->
        stored w' path (key_chunks setup_id) = Some chunks /\ r = Ok tt).
Proof.
  intros Ha Harr. rewrite (write_h5_metadata_blocks _ _ _ _ _ _ _ Ha).
  destruct (h5_blocks_spec setup_id scales chunks _ Harr)
    as (f2 & r & Hb & Hiff & Hor & Hkeep & Hres & Hsub).
  rewrite Hb. cbn [fst snd]. exists (close w path f2), r.
  rewrite !stored_close_record_in, !stored_record_in.
  split; [reflexivity|]. split; [exact Hiff|]. split; [exact Hor|].
  split; [|split; assumption].
  intros key a. rewrite stored_close_record_in, stored_record_in. apply Hkeep.
Qed.

End H5Consistency.


Lemma write_h5_metadata_compare_or_write_witness :
  exists w' r,
    write_h5_metadata example_h5_written "d.h5"
                      [FSeq [1; 1; 1]; FSeq [2; 2; 2]; FSeq [1; 2; 3]] 0 0 = (w', r)
    /\ r = Err (inconsistent 0)
    /\ stored w' "d.h5" (key_res 0) = stored example_h5_written "d.h5" (key_res 0).
Proof.
  destruct (write_h5_metadata_compare_or_write example_h5_written "d.h5"
              [FSeq [1; 1; 1]; FSeq [2; 2; 2]; FSeq [1; 2; 3]] 0 0
              (mkArray [3; 3] "float32" [[1; 1; 1]; [2; 2; 2]; [6; 4; 2]])
              (mkArray [3; 3] "int64" [[6; 5; 4]; [5; 5; 2]; [8; 5; 5]])
              eq_refl)
    as (w' & r & Hw & Hiff & _ & Hkeep & _).
  - intros key n [-> | ->] Hn; vm_compute in Hn; injection Hn as <-; eexists; reflexivity.
  - exists w', r. split; [exact Hw|]. split.
    + apply Hiff. left. eexists. split; reflexivity.
    + apply Hkeep. reflexivity.
Defined.

(** ** metadata.py: [write_n5_metadata] *)

Lemma str_inj (a b : Z) : PyStr.str a = PyStr.str b -> a = b.
Proof.
  intros Hab. pose proof (PyStrFacts.int_str a) as Ha.
  rewrite Hab, PyStrFacts.int_str in Ha. congruence.
Qed.

Lemma append_length_ne (a x : string) : x <> "" -> a <> a ++ x.
Proof.
  intros Hx Heq. apply (f_equal String.length) in Heq.
  rewrite length_append in Heq. destruct x; [congruence | cbn in Heq; lia].
Qed.

Lemma level_key_inj (g : string) (i j : Z) : level_key g i = level_key g j -> i = j.
Proof.
  unfold level_key. intros Heq. apply append_inj_l in Heq.
  apply (append_inj_l "/s") in Heq. apply str_inj. exact Heq.
Qed.

Lemma level_key_longer (g : string) (i : Z) :
  (String.length g < String.length (level_key g i))%nat.
Proof. unfold level_key. rewrite !length_append. cbn. lia. Qed.

Lemma n5_group_longer (s t : Z) :
  (String.length (get_key false None (Some s) None)
   < String.length (get_key false (Some t) (Some s) None))%nat.
Proof. unfold get_key. rewrite !length_append. cbn. lia. Qed.

Section N5Facts.

Context {F : Type} `{PyFloat F}.

Lemma set_attr_eq key name v (f : gmap string (node F)) n :
  f !! key = Some n ->
  set_attr key name v f !! key = Some (mkNode (<[name := v]> (attrs n)) (array n)).
Proof. intros Hn. unfold set_attr. rewrite Hn. apply lookup_insert_eq. Qed.

Lemma set_attr_ne key key' name v (f : gmap string (node F)) :
  key <> key' -> set_attr key name v f !! key' = f !! key'.
Proof.
  intros Hne. unfold set_attr. destruct (f !! key); [|reflexivity].
  apply lookup_insert_ne. exact Hne.
Qed.

Lemma n5_effective_scales_after (acc : list (list Z)) (prev : list Z) factors :
  last acc = Some prev ->
  n5_effective_scales acc factors = (acc ++ n5_scales_after prev factors)%list.
Proof.
  revert acc prev. induction factors as [|fac factors IH]; intros acc prev Hl; cbn.
  - rewrite app_nil_r. reflexivity.
  - rewrite Hl. cbn [default].
    rewrite (IH _ (axis_mul prev (rev fac))) by apply last_snoc.
    rewrite <- app_assoc. reflexivity.
Qed.

Lemma n5_scales_after_lookup (prev : list Z) factors (k : nat) :
  (k < length factors)%nat ->
  n5_scales_after prev factors !! k
  = Some (fold_left (fun eff fac => axis_mul eff (rev fac)) (take (S k) factors) prev).
Proof.
  revert prev k. induction factors as [|fac factors IH]; intros prev k Hk; cbn in Hk; [lia|].
  destruct k as [|k]; cbn.
  - rewrite take_0. reflexivity.
  - apply IH. lia.
Qed.

Lemma n5_scales_after_length (prev : list Z) factors :
  length (n5_scales_after prev factors) = length factors.
Proof. revert prev. induction factors; intros; cbn; [reflexivity | f_equal; auto]. Qed.

(** The list [effective_scales] of [write_n5_metadata], level by level. *)
Lemma n5_effective_scales_lookup (first : list Z) rest (k : nat) :
  (k < S (length rest))%nat ->
  n5_effective_scales [first] rest !! k = Some (n5_factor_at (first :: rest) k).
Proof.
  intros Hk. rewrite (n5_effective_scales_after [first] first) by reflexivity.
  destruct k as [|k]; cbn; [rewrite take_0; reflexivity|].
  apply n5_scales_after_lookup. lia.
Qed.

Lemma n5_effective_scales_length (first : list Z) rest :
  length (n5_effective_scales [first] rest) = S (length rest).
Proof.
  rewrite (n5_effective_scales_after [first] first) by reflexivity.
  cbn. rewrite n5_scales_after_length. reflexivity.
Qed.

Lemma rev_axis_mul (a b : list Z) :
  length a = length b -> rev (axis_mul a b) = axis_mul (rev a) (rev b).
Proof.
  revert b. induction a as [|x a IH]; intros [|y b] Hl; cbn in Hl; try discriminate;
    [reflexivity|].
  injection Hl as Hl. cbn. rewrite IH by exact Hl. unfold axis_mul.
  rewrite zip_with_app by (rewrite !length_rev; exact Hl). reflexivity.
Qed.

Lemma axis_mul_length (a b : list Z) :
  length a = length b -> length (axis_mul a b) = length a.
Proof. intros Hl. unfold axis_mul. rewrite length_zip_with. lia. Qed.

(** When all factors have as many axes as the first, multiplying by the
    reversed factors gives the reversed product. *)
Lemma fold_axis_mul_rev (factors : list (list Z)) (first : list Z) :
  Forall (fun fac => length fac = length first) factors ->
  fold_left (fun eff fac => axis_mul eff (rev fac)) factors (rev first)
  = rev (fold_left axis_mul factors first).
Proof.
  revert first. induction factors as [|fac factors IH]; intros first Hall; cbn;
    [reflexivity|].
  inversion Hall as [|? ? Hfac Hrest]; subst.
  rewrite <- rev_axis_mul by (symmetry; exact Hfac).
  apply IH. rewrite axis_mul_length by (symmetry; exact Hfac).
  exact Hrest.
Qed.

(** The loop over the levels changes no node but those of its levels. *)
Lemma n5_levels_frame (g : string) effs :
  forall (scale : Z) (f f' : gmap string (node F)) r,
    n5_levels g scale effs f = (f', r) ->
    forall key, (forall j, key <> level_key g j) -> f' !! key = f !! key.
Proof.
  induction effs as [|factor effs IH]; intros scale f f' r Hl key Hkey; cbn in Hl.
  - injection Hl as <- _. reflexivity.
  - fold (level_key g scale) in Hl.
    destruct (getitem f (level_key g scale)); [|injection Hl as <- _; reflexivity].
    rewrite (IH _ _ _ _ Hl key Hkey).
    apply set_attr_ne. intros E. exact (Hkey scale (eq_sym E)).
Qed.

Lemma n5_levels_other (g : string) effs :
  forall (scale : Z) (f f' : gmap string (node F)) r,
    n5_levels g scale effs f = (f', r) ->
    forall j, j < scale -> f' !! level_key g j = f !! level_key g j.
Proof.
  induction effs as [|factor effs IH]; intros scale f f' r Hl j Hj; cbn in Hl.
  - injection Hl as <- _. reflexivity.
  - fold (level_key g scale) in Hl.
    destruct (getitem f (level_key g scale)); [|injection Hl as <- _; reflexivity].
    rewrite (IH _ _ _ _ Hl j) by lia.
    apply set_attr_ne. intros E. apply level_key_inj in E. lia.
Qed.

(** After the loop succeeded, level [scale + k] carries factor [k]. *)
Lemma n5_levels_Ok (g : string) effs :
  forall (scale : Z) (f f' : gmap string (node F)),
    n5_levels g scale effs f = (f', Ok tt) ->
    forall (k : nat) factor, effs !! k = Some factor ->
      exists n, f' !! level_key g (scale + Z.of_nat k) = Some n
                /\ attrs n !! "downsamplingFactors" = Some (AFactor factor).
Proof.
  induction effs as [|fac effs IH]; intros scale f f' Hl k factor Hk; cbn in Hl;
    [discriminate|].
  fold (level_key g scale) in Hl.
  destruct (getitem f (level_key g scale)) as [n0|] eqn:Hg; [|discriminate].
  unfold getitem in Hg. destruct (f !! level_key g scale) as [n1|] eqn:Hn1; [|discriminate].
  destruct k as [|k]; cbn in Hk.
  - injection Hk as ->. rewrite Z.add_0_r.
    rewrite (n5_levels_other _ _ _ _ _ _ Hl scale) by lia.
    rewrite (set_attr_eq _ _ _ _ _ Hn1). eexists. split; [reflexivity|].
    cbn. apply lookup_insert_eq.
  - destruct (IH _ _ _ Hl k factor Hk) as (n & Hn & Ha).
    exists n. split; [|exact Ha].
    replace (scale + Z.of_nat (S k)) with (scale + 1 + Z.of_nat k) by lia. exact Hn.
Qed.

End N5Facts.

Section N5Theorems.

Context {F : Type} `{PyFloat F}.

Lemma attr_at_close (w : world F) path (f : gmap string (node F)) key name :
  attr_at (close w path f) path key name = n ← f !! key; attrs n !! name.
Proof. unfold attr_at, close. cbn. rewrite lookup_insert_eq. reflexivity. Qed.

(** C5, as the code has it: after [write_n5_metadata] succeeded, the setup
    root carries the list of all level factors as [downsamplingFactors] and
    the element type of level 0 as [dataType]; the timepoint group carries
    [multiScale = true] and the resolution in reversed axis order; the group
    of level [k] carries the factor of level [k] as [downsamplingFactors].
    The factor of level 0 is the first factor as it was passed; the factor
    of level [k] is that of level [k-1] multiplied axis-wise by the reversed
    [k]-th factor.  When the first factor reads the same in both axis
    orders, as (1,1,1) does, and all factors have the same number of axes,
    the factor of level [k] is the axis-reversed product of the first [k+1]
    factors. *)
Theorem write_n5_metadata_attributes (w w' : world F) (path : string)
    (scale_factors : list (list Z)) (resolution : list F) (setup_id timepoint : Z) :
  write_n5_metadata w path scale_factors resolution setup_id timepoint = (w', Ok tt) ->
  let root_key := get_key false None (Some setup_id) None in
  let group_key := get_key false (Some timepoint) (Some setup_id) None in
  exists first rest ds,
    scale_factors = first :: rest
    /\ get_dataset (open_append w path)
                   (get_key false (Some timepoint) (Some setup_id) (Some 0)) = Ok ds
    /\ attr_at w' path root_key "downsamplingFactors"
       = Some (AFactors (map (n5_factor_at scale_factors) (seq 0 (length scale_factors))))
    /\ attr_at w' path root_key "dataType" = Some (AStr (a_dtype (ds_data ds)))
    /\ attr_at w' path group_key "multiScale" = Some (ABool true)
    /\ attr_at w' path group_key "resolution" = Some (AFloats (rev resolution))
    /\ (forall k, (k < length scale_factors)%nat ->
          attr_at w' path (level_key group_key (Z.of_nat k)) "downsamplingFactors"
          = Some (AFactor (n5_factor_at scale_factors k)))
    /\ n5_factor_at scale_factors 0 = first
    /\ (forall k, (S k < length scale_factors)%nat ->
          exists factor, scale_factors !! S k = Some factor
            /\ n5_factor_at scale_factors (S k)
               = axis_mul (n5_factor_at scale_factors k) (rev factor))
    /\ (first = rev first ->
        length first = 3%nat ->
        Forall (fun fac => length fac = 3%nat) rest ->
        forall k, (k < length scale_factors)%nat ->
          n5_factor_at scale_factors k = rev (cumulative scale_factors (S k))).
Proof.
  intros Hw root_key group_key. unfold write_n5_metadata in Hw.
  destruct scale_factors as [|first rest]; [discriminate|].
  destruct (n5_body _ _ _ _ _) as [f' r] eqn:Hb. injection Hw as <- ->.
  unfold n5_body in Hb. fold root_key in Hb. fold group_key in Hb.
  set (f0 := open_append w path) in *.
  set (effs := n5_effective_scales [first] rest) in *.
  destruct (get_dataset f0 _) as [ds|] eqn:Hds; [|discriminate].
  destruct (getitem f0 root_key) as [root|] eqn:Hroot; [|discriminate].
  destruct (match attrs root !! "downsamplingFactors" with
            | Some v => negb (attr_eqb v (AFactors effs)) | None => false end);
    [discriminate|].
  destruct (match attrs root !! "dataType" with
            | Some v => negb (attr_eqb v (AStr (a_dtype (ds_data ds)))) | None => false end);
    [discriminate|].
  set (f1 := set_attr root_key "downsamplingFactors" (AFactors effs) f0) in *.
  set (f2 := set_attr root_key "dataType" (AStr (a_dtype (ds_data ds))) f1) in *.
  destruct (getitem f2 group_key) as [grp|] eqn:Hgrp; [|discriminate].
  set (f3 := set_attr group_key "multiScale" (ABool true) f2) in *.
  set (f4 := set_attr group_key "resolution" (AFloats (rev resolution)) f3) in *.
  assert (Hrg : root_key <> group_key).
  { intros E. pose proof (n5_group_longer setup_id timepoint) as Hlt.
    fold root_key group_key in Hlt. rewrite E in Hlt. lia. }
  assert (Hrl : forall j, root_key <> level_key group_key j).
  { intros j E. pose proof (n5_group_longer setup_id timepoint) as Hlt.
    pose proof (level_key_longer group_key j) as Hlt'.
    fold root_key group_key in Hlt. rewrite <- E in Hlt'. lia. }
  assert (Hgl : forall j, group_key <> level_key group_key j).
  { intros j E. pose proof (level_key_longer group_key j) as Hlt'.
    rewrite <- E in Hlt'. lia. }
  unfold getitem in Hroot. destruct (f0 !! root_key) as [root0|] eqn:Hr0; [|discriminate].
  injection Hroot as ->.
  unfold getitem in Hgrp. destruct (f2 !! group_key) as [grp0|] eqn:Hg2; [|discriminate].
  injection Hgrp as ->.
  assert (Hroot' : f' !! root_key
                   = Some (mkNode (<["dataType" := AStr (a_dtype (ds_data ds))]>
                                     (<["downsamplingFactors" := AFactors effs]> (attrs root)))
                                  (array root))).
  { rewrite (n5_levels_frame _ _ _ _ _ _ Hb root_key Hrl).
    unfold f4, f3. rewrite !set_attr_ne by (intros E; symmetry in E; contradiction).
    unfold f2. rewrite (set_attr_eq _ _ _ _ (mkNode (<["downsamplingFactors" := AFactors effs]> (attrs root)) (array root)));
      [reflexivity|].
    unfold f1. apply set_attr_eq. exact Hr0. }
  assert (Hgrp' : f' !! group_key
                  = Some (mkNode (<["resolution" := AFloats (rev resolution)]>
                                    (<["multiScale" := ABool true]> (attrs grp)))
                                 (array grp))).
  { rewrite (n5_levels_frame _ _ _ _ _ _ Hb group_key Hgl).
    unfold f4. rewrite (set_attr_eq _ _ _ _ (mkNode (<["multiScale" := ABool true]> (attrs grp)) (array grp)));
      [reflexivity|].
    unfold f3. apply set_attr_eq. exact Hg2. }
  assert (Heffs : effs = map (n5_factor_at (first :: rest)) (seq 0 (length (first :: rest)))).
  { apply list_eq. intros k. unfold effs.
    destruct (decide (k < S (length rest))%nat) as [Hk|Hk].
    - rewrite n5_effective_scales_lookup by exact Hk.
      rewrite list_lookup_fmap. cbn [length].
      rewrite (lookup_seq_lt 0 (S (length rest)) k) by exact Hk. reflexivity.
    - rewrite !lookup_ge_None_2; [reflexivity | |].
      + rewrite length_map, length_seq. cbn. lia.
      + rewrite n5_effective_scales_length. lia. }
  exists first, rest, ds. rewrite !attr_at_close, Hroot', Hgrp'. cbn [mbind option_bind attrs].
  split; [reflexivity|]. split; [reflexivity|].
  split; [|split; [|split; [|split; [|split; [|split; [|split]]]]]].
  - cbn. rewrite lookup_insert_ne by discriminate. rewrite lookup_insert_eq, Heffs. reflexivity.
  - cbn. apply lookup_insert_eq.
  - cbn. rewrite lookup_insert_ne by discriminate. apply lookup_insert_eq.
  - cbn. apply lookup_insert_eq.
  - intros k Hk.
    destruct (n5_levels_Ok _ _ _ _ _ Hb k (n5_factor_at (first :: rest) k)) as (n & Hn & Ha).
    { unfold effs. apply n5_effective_scales_lookup. exact Hk. }
    rewrite attr_at_close. rewrite Z.add_0_l in Hn. rewrite Hn. exact Ha.
  - reflexivity.
  - intros k Hk. cbn in Hk.
    destruct (lookup_lt_is_Some_2 rest k ltac:(lia)) as [factor Hf].
    exists factor. split; [exact Hf|].
    cbn [n5_factor_at]. rewrite (take_S_r _ _ _ Hf), fold_left_app. reflexivity.
  - intros Hpal Hlen Hall k Hk. cbn [n5_factor_at]. unfold cumulative.
    rewrite firstn_cons. cbn [fold_left].
    assert (Hone : axis_mul [1; 1; 1] first = first).
    { destruct first as [|a [|b [|c [|]]]]; try discriminate Hlen.
      unfold axis_mul. cbn. f_equal; [lia|]. f_equal; [lia|]. f_equal. lia. }
    rewrite Hone. rewrite Hpal at 1.
    apply fold_axis_mul_rev.
    apply Forall_take. eapply Forall_impl; [exact Hall|].
    intros fac Hfac. cbn in Hfac. congruence.
Qed.

End N5Theorems.

Lemma write_n5_metadata_attributes_witness :
  attr_at example_n5_written "d.n5" "setup0/timepoint0" "resolution"
  = Some (AFloats [3; 2; 1])
  /\ attr_at example_n5_written "d.n5" "setup0/timepoint0/s1" "downsamplingFactors"
     = Some (AFactor [2; 2; 1])
  /\ n5_factor_at [[1; 1; 1]; [1; 2; 2]] 1 = rev (cumulative [[1; 1; 1]; [1; 2; 2]] 2).
Proof.
  destruct (write_n5_metadata_attributes example_world example_n5_written "d.n5"
              [[1; 1; 1]; [1; 2; 2]] [1; 2; 3] 0 0 eq_refl)
    as (first & rest & ds & Hsf & _ & _ & _ & _ & Hres & Hlev & _ & _ & Hrev).
  injection Hsf as <- <-.
  split; [exact Hres|]. split.
  - exact (Hlev 1%nat ltac:(cbn; lia)).
  - apply Hrev; [reflexivity | reflexivity | | cbn; lia].
    repeat constructor.
Defined.

(** C5 does not hold as stated.  With the factors (1,1,1) and (1,2,2) the
    group of level 1 carries (2,2,1), which is not the axis-wise product
    (1,2,2) of the two factors as they were passed.  With the factors
    (1,2,4) and (1,2,2) it carries (2,4,4), which is neither the product
    (1,4,8) nor that product in reversed axis order, (8,4,1). *)
Lemma write_n5_metadata_not_product :
  (let out := write_n5_metadata example_world "d.n5" [[1; 1; 1]; [1; 2; 2]] [1; 2; 3] 0 0 in
   out.2 = Ok tt
   /\ attr_at out.1 "d.n5" "setup0/timepoint0/s1" "downsamplingFactors"
      = Some (AFactor [2; 2; 1])
   /\ cumulative [[1; 1; 1]; [1; 2; 2]] 2 = [1; 2; 2])
  /\ (let out := write_n5_metadata example_world "d.n5" [[1; 2; 4]; [1; 2; 2]] [1; 2; 3] 0 0 in
      out.2 = Ok tt
      /\ attr_at out.1 "d.n5" "setup0/timepoint0/s1" "downsamplingFactors"
         = Some (AFactor [2; 4; 4])
      /\ cumulative [[1; 2; 4]; [1; 2; 2]] 2 = [1; 4; 8]
      /\ rev (cumulative [[1; 2; 4]; [1; 2; 2]] 2) = [8; 4; 1]).
Proof. repeat split. Qed.

(** ** Dictionaries *)

Module DictFacts.

Lemma get_set_eq {V} (k : string) (v : V) (d : dict V) :
  Dict.get k (Dict.set k v d) = Some v.
Proof.
  induction d as [|[k' v'] d IH]; cbn.
  - rewrite String.eqb_refl. reflexivity.
  - destruct (String.eqb k' k) eqn:E; cbn.
    + rewrite String.eqb_refl. reflexivity.
    + rewrite E. exact IH.
Qed.

Lemma get_set_ne {V} (k k' : string) (v : V) (d : dict V) :
  k <> k' -> Dict.get k' (Dict.set k v d) = Dict.get k' d.
Proof.
  intros Hne. induction d as [|[k0 v0] d IH]; cbn.
  - apply String.eqb_neq in Hne. rewrite Hne. reflexivity.
  - destruct (String.eqb k0 k) eqn:E; cbn.
    + apply String.eqb_eq in E. subst k0.
      apply String.eqb_neq in Hne. rewrite Hne. reflexivity.
    + rewrite IH. reflexivity.
Qed.

Lemma get_In_keys {V} (k : string) (d : dict V) :
  In k (Dict.keys d) <-> exists v, Dict.get k d = Some v.
Proof.
  induction d as [|[k' v'] d IH]; cbn.
  - split; [intros [] | intros [v Hv]; discriminate].
  - destruct (String.eqb k' k) eqn:E.
    + apply String.eqb_eq in E. split; eauto.
    + apply String.eqb_neq in E. rewrite IH. split; [intros [?|?]; [contradiction | assumption] | auto].
Qed.

Lemma contains_In {V} (k : string) (d : dict V) :
  Dict.contains k d = true <-> In k (Dict.keys d).
Proof.
  rewrite get_In_keys. unfold Dict.contains.
  destruct (Dict.get k d); split; eauto; try discriminate.
  intros [v Hv]. discriminate.
Qed.

Lemma item_Ok {V} (k : string) (d : dict V) (v : V) :
  Dict.item k d = Ok v <-> Dict.get k d = Some v.
Proof. unfold Dict.item. destruct (Dict.get k d); split; congruence. Qed.

Lemma get_map {V W} (f : V -> W) (k : string) (d : dict V) :
  Dict.get k (map (fun kv => (fst kv, f (snd kv))) d) = f <$> Dict.get k d.
Proof.
  induction d as [|[k' v'] d IH]; cbn; [reflexivity|].
  destruct (String.eqb k' k); [reflexivity | exact IH].
Qed.

Lemma keys_map {V W} (f : V -> W) (d : dict V) :
  Dict.keys (map (fun kv => (fst kv, f (snd kv))) d) = Dict.keys d.
Proof. unfold Dict.keys. rewrite map_map. reflexivity. Qed.

End DictFacts.

(** ** metadata.py: [validate_attributes] *)

Section AttributeFacts.

Context {F : Type} `{PyFloat F}.

(** What a successful run of the loop of [validate_attributes] has done. *)
Lemma validate_loop_Ok attributes recorded (attrs_xml : list Element) :
  forall names0 out0 names out,
    validate_loop attributes recorded attrs_xml names0 out0 = Ok (names, out) ->
    names = (names0 ++ omap (fun a => Dict.get "name" (attrib a)) attrs_xml)%list
    /\ (forall a, In a attrs_xml -> exists name v, entry_ok attributes recorded a name v)
    /\ (forall name v, Dict.get name out = Some v ->
          Dict.get name out0 = Some v
          \/ exists a, In a attrs_xml /\ entry_ok attributes recorded a name v).
Proof.
  induction attrs_xml as [|a rest IH]; intros names0 out0 names out Hl; cbn in Hl.
  - injection Hl as <- <-. rewrite app_nil_r.
    split; [reflexivity|]. split; [intros a []|]. auto.
  - apply bind_Ok in Hl as (name & Hname & Hl). apply DictFacts.item_Ok in Hname.
    destruct (Dict.contains name attributes) eqn:Hc; cbn in Hl; [|discriminate].
    apply bind_Ok in Hl as (ids & Hids & Hl).
    apply bind_Ok in Hl as (req & Hreq & Hl). apply DictFacts.item_Ok in Hreq.
    apply bind_Ok in Hl as (v0 & Hv0 & Hl).
    assert (Hentry : entry_ok attributes recorded a name v0).
    { split; [exact Hname|]. exists ids, req. split; [exact Hids|]. split; [exact Hreq|].
      unfold resolved. destruct req as [i|], recorded as [d|].
      - apply bind_Ok in Hv0 as (r & Hr & Hv0). apply DictFacts.item_Ok in Hr.
        destruct (Z.eqb i r) eqn:E; cbn in Hv0; [|discriminate].
        apply Z.eqb_eq in E. injection Hv0 as <-. subst r. auto.
      - injection Hv0 as <-. reflexivity.
      - apply DictFacts.item_Ok in Hv0. exact Hv0.
      - apply bind_Ok in Hv0 as (m & Hm & Hv0). injection Hv0 as <-.
        apply max_Ok in Hm. replace (m + 1 - 1) with m by lia. exact Hm. }
    apply IH in Hl as (Hnames & Hall & Hout).
    split; [|split].
    + rewrite Hnames. cbn. rewrite Hname. rewrite <- app_assoc. reflexivity.
    + intros a' [<-|Ha']; [eauto | auto].
    + intros name' v Hget. destruct (Hout name' v Hget) as [Hset|(a' & Ha' & He)].
      * destruct (String.eqb_spec name name') as [<-|Hne].
        -- rewrite DictFacts.get_set_eq in Hset. injection Hset as <-.
           right. exists a. split; [left; reflexivity | exact Hentry].
        -- rewrite DictFacts.get_set_ne in Hset by exact Hne. left. exact Hset.
      * right. exists a'. split; [right; exact Ha' | exact He].
Qed.

(** [validate_attributes] on an existing document, taken apart. *)
Lemma validate_attributes_Ok (w : world F) xml_path attributes setup_id setups out :
  doc_setups w xml_path = Some setups ->
  validate_attributes w xml_path attributes setup_id = Ok out ->
  exists recorded names,
    recorded_attributes setups setup_id = Ok recorded
    /\ validate_loop attributes recorded (findall "Attributes" setups) [] []
       = Ok (names, out)
    /\ forall k, In k (Dict.keys attributes) -> In k names.
Proof.
  unfold doc_setups, validate_attributes. intros Hd Hv.
  destruct (xml_files w !! xml_path) as [root|]; [|discriminate]. cbn in Hd.
  destruct (find "SequenceDescription" root) as [seqdesc|]; [|discriminate]. cbn in Hd, Hv.
  rewrite Hd in Hv. cbn in Hv.
  apply bind_Ok in Hv as (found & Hfound & Hv).
  apply bind_Ok in Hv as (recorded & Hrec & Hv).
  apply bind_Ok in Hv as ([names out'] & Hloop & Hv).
  destruct (existsb _ (Dict.keys attributes)) eqn:Hex; [discriminate|].
  injection Hv as <-. exists recorded, names.
  split; [|split; [exact Hloop|]].
  - unfold recorded_attributes. rewrite Hfound. cbn. exact Hrec.
  - intros k Hk. destruct (existsb (String.eqb k) names) eqn:Hin.
    + apply existsb_exists in Hin as (x & Hx & Hkx). apply String.eqb_eq in Hkx.
      subst x. exact Hx.
    + exfalso. apply not_true_iff_false in Hex. apply Hex.
      apply existsb_exists. exists k. split; [exact Hk|]. rewrite Hin. reflexivity.
Qed.

End AttributeFacts.

Section AttributeTheorems.

Context {F : Type} `{PyFloat F}.

Lemma In_omap_name (name : string) (l : list Element) :
  In name (omap (fun a => Dict.get "name" (attrib a)) l) ->
  exists a, In a l /\ Dict.get "name" (attrib a) = Some name.
Proof.
  intros Hin. apply list_elem_of_In in Hin. apply list_elem_of_omap in Hin as (a & Ha & Hn).
  exists a. split; [apply list_elem_of_In; exact Ha | exact Hn].
Qed.

(** C8: with no document, [validate_attributes] resolves every unset id to
    0 and keeps the others.  With a document, each id it returns for a name
    comes from the registry of that name: an unset id becomes the greatest
    id of the registry plus one when the setup has no attribute record, and
    the recorded id when it has one; an id that was given is kept, and it
    agrees with the record when there is one.  A given id that differs from
    the recorded one makes the call fail. *)
Theorem validate_attributes_resolves (w : world F) (xml_path : string)
    (attributes : dict (option Z)) (setup_id : Z) :
  (xml_files w !! xml_path = None ->
   exists out,
     validate_attributes w xml_path attributes setup_id = Ok out
     /\ Dict.keys out = Dict.keys attributes
     /\ forall name requested,
          Dict.get name attributes = Some requested ->
          Dict.get name out = Some (default 0 requested))
  /\ (forall setups out,
        doc_setups w xml_path = Some setups ->
        validate_attributes w xml_path attributes setup_id = Ok out ->
        exists recorded,
          recorded_attributes setups setup_id = Ok recorded
          /\ forall name v,
               Dict.get name out = Some v ->
               exists registry ids requested,
                 In registry (findall "Attributes" setups)
                 /\ Dict.get "name" (attrib registry) = Some name
                 /\ mapM id_of (children registry) = Ok ids
                 /\ Dict.get name attributes = Some requested
                 /\ resolved requested recorded ids name v)
  /\ (forall setups recorded name i j,
        doc_setups w xml_path = Some setups ->
        recorded_attributes setups setup_id = Ok (Some recorded) ->
        Dict.get name attributes = Some (Some i) ->
        Dict.get name recorded = Some j ->
        i <> j ->
        is_Err (validate_attributes w xml_path attributes setup_id)).
Proof.
  split; [|split].
  - intros Hnone. unfold validate_attributes. rewrite Hnone.
    eexists. split; [reflexivity|]. split.
    + apply (DictFacts.keys_map (default 0)).
    + intros name requested Hget.
      rewrite (DictFacts.get_map (default 0)), Hget. reflexivity.
  - intros setups out Hd Hv.
    destruct (validate_attributes_Ok _ _ _ _ _ _ Hd Hv) as (recorded & names & Hrec & Hloop & _).
    exists recorded. split; [exact Hrec|].
    intros name v Hget.
    apply validate_loop_Ok in Hloop as (_ & _ & Hout).
    destruct (Hout name v Hget) as [Habs|(a & Ha & Hname & ids & req & Hids & Hreq & Hres)];
      [discriminate|].
    exists a, ids, req. repeat (split; [assumption|]). exact Hres.
  - intros setups recorded name i j Hd Hrec Hreq Hj Hij.
    destruct (validate_attributes w xml_path attributes setup_id) as [out|e] eqn:Hv;
      [|eexists; reflexivity].
    exfalso.
    destruct (validate_attributes_Ok _ _ _ _ _ _ Hd Hv) as (recorded' & names & Hrec' & Hloop & Hkeys).
    rewrite Hrec in Hrec'. injection Hrec' as <-.
    apply validate_loop_Ok in Hloop as (Hnames & Hall & _). cbn in Hnames. subst names.
    assert (Hin : In name (Dict.keys attributes)) by (apply DictFacts.get_In_keys; eauto).
    apply Hkeys, In_omap_name in Hin as (a & Ha & Hname).
    destruct (Hall a Ha) as (name' & v & Hname' & ids & req & _ & Hreq' & Hres).
    rewrite Hname in Hname'. injection Hname' as <-.
    rewrite Hreq in Hreq'. injection Hreq' as <-.
    cbn in Hres. destruct Hres as [_ Hres]. congruence.
Qed.

(** C9: on an existing document [validate_attributes] only succeeds when
    the requested names are exactly the names registered in the document: it
    fails when a registered name is missing from the request, and it fails
    when the request has a name that is not registered. *)
Theorem validate_attributes_names (w : world F) (xml_path : string)
    (attributes : dict (option Z)) (setup_id : Z) (setups : Element) :
  doc_setups w xml_path = Some setups ->
  (forall name, In name (registered_names setups) ->
                Dict.contains name attributes = false ->
                is_Err (validate_attributes w xml_path attributes setup_id))
  /\ (forall name, In name (Dict.keys attributes) ->
                   ~ In name (registered_names setups) ->
                   is_Err (validate_attributes w xml_path attributes setup_id))
  /\ (forall out, validate_attributes w xml_path attributes setup_id = Ok out ->
                  forall name, In name (Dict.keys attributes)
                               <-> In name (registered_names setups)).
Proof.
  intros Hd.
  assert (Hok : forall out, validate_attributes w xml_path attributes setup_id = Ok out ->
                  forall name, In name (Dict.keys attributes)
                               <-> In name (registered_names setups)).
  { intros out Hv name.
    destruct (validate_attributes_Ok _ _ _ _ _ _ Hd Hv) as (recorded & names & _ & Hloop & Hkeys).
    apply validate_loop_Ok in Hloop as (Hnames & Hall & _). cbn in Hnames. subst names.
    unfold registered_names. split; [apply Hkeys|].
    intros Hin. apply In_omap_name in Hin as (a & Ha & Hname).
    destruct (Hall a Ha) as (name' & v & Hname' & ids & req & _ & Hreq & _).
    rewrite Hname in Hname'. injection Hname' as <-.
    apply DictFacts.get_In_keys. eauto. }
  split; [|split; [|exact Hok]].
  - intros name Hreg Hc.
    destruct (validate_attributes w xml_path attributes setup_id) as [out|e] eqn:Hv;
      [|eexists; reflexivity].
    exfalso. apply (Hok out eq_refl) in Hreg. apply DictFacts.contains_In in Hreg. congruence.
  - intros name Hin Hnreg.
    destruct (validate_attributes w xml_path attributes setup_id) as [out|e] eqn:Hv;
      [|eexists; reflexivity].
    exfalso. apply Hnreg. apply (Hok out eq_refl). exact Hin.
Qed.

End AttributeTheorems.

Lemma validate_attributes_resolves_witness :
  validate_attributes example_world "d.xml" [("channel", None)] 0 = Ok [("channel", 0)]
  /\ validate_attributes example_xml_written "d.xml" [("channel", None)] 1
     = Ok [("channel", 1)]
  /\ validate_attributes example_xml_written "d.xml" [("channel", None)] 0
     = Ok [("channel", 0)]
  /\ is_Err (validate_attributes example_xml_written "d.xml" [("channel", Some 3)] 0).
Proof.
  destruct (validate_attributes_resolves example_xml_written "d.xml"
              [("channel", Some 3)] 0) as (_ & _ & Hconflict).
  destruct (validate_attributes_resolves example_world "d.xml"
              [("channel", None)] 0) as (Hnew & _ & _).
  destruct (Hnew eq_refl) as (out & Hout & _).
  split; [reflexivity|]. split; [reflexivity|]. split; [reflexivity|].
  eapply (Hconflict _ [("channel", 0)] "channel" 3 0);
    [reflexivity | reflexivity | reflexivity | reflexivity | lia].
Defined.

Lemma validate_attributes_names_witness :
  is_Err (validate_attributes example_xml_written "d.xml" [("tile", None)] 1)
  /\ is_Err (validate_attributes example_xml_written "d.xml"
                                 [("channel", None); ("tile", None)] 1).
Proof.
  destruct (validate_attributes_names example_xml_written "d.xml" [("tile", None)] 1 _ eq_refl)
    as (Hmissing & _ & _).
  destruct (validate_attributes_names example_xml_written "d.xml"
              [("channel", None); ("tile", None)] 1 _ eq_refl)
    as (_ & Hexcess & _).
  split.
  - apply (Hmissing "channel"); [left; reflexivity | reflexivity].
  - apply (Hexcess "tile"); [right; left; reflexivity|].
    intros [Heq|[]]. discriminate Heq.
Defined.

(** ** Printing: tokens *)

Module TokenFacts.
Import PyStr.

Lemma uint_ws_free (d : Decimal.uint) : ws_free (NilEmpty.string_of_uint d) = true.
Proof. induction d; cbn; auto. Qed.

Lemma uint_nonempty (d : Decimal.uint) : NilZero.string_of_uint d <> "".
Proof. destruct d; cbn; discriminate. Qed.

Lemma uint0_ws_free (d : Decimal.uint) : ws_free (NilZero.string_of_uint d) = true.
Proof. destruct d; try reflexivity; apply (uint_ws_free (_ d)). Qed.

(** [str(z)] is one field for [split]. *)
Lemma token_str (z : Z) : token (str z).
Proof.
  unfold token, str. destruct (Z.to_int z) as [d|d]; cbn [NilZero.string_of_int].
  - split; [apply uint_nonempty | apply uint0_ws_free].
  - split; [discriminate|]. cbn. apply uint0_ws_free.
Qed.

Lemma fields_ws_free (a : string) : ws_free a = true -> fields a = [a].
Proof.
  induction a as [|c a IH]; cbn; [reflexivity|].
  intros Hc. apply andb_true_iff in Hc as [Hc Ha]. apply negb_true_iff in Hc.
  rewrite Hc, (IH Ha). reflexivity.
Qed.

Lemma fields_app_space (a rest : string) :
  ws_free a = true -> fields (a ++ String " " rest) = a :: fields rest.
Proof.
  induction a as [|c a IH]; rewrite ?append_nil, ?append_cons; cbn; [reflexivity|].
  intros Hc. apply andb_true_iff in Hc as [Hc Ha]. apply negb_true_iff in Hc.
  rewrite Hc, (IH Ha). reflexivity.
Qed.

Lemma nonempty_token (a : string) : token a -> nonempty a = true.
Proof. intros [Hne _]. destruct a; [congruence | reflexivity]. Qed.

(** ['{} {} {}'.format(a, b, c).split()] gives back the three fields. *)
Lemma split_three (a b c : string) :
  token a -> token b -> token c ->
  split (a ++ " " ++ b ++ " " ++ c) = [a; b; c].
Proof.
  intros Ha Hb Hc. unfold split.
  change (" " ++ b ++ " " ++ c) with (String " " (b ++ " " ++ c)).
  rewrite fields_app_space by apply Ha.
  change (" " ++ c) with (String " " c).
  rewrite fields_app_space by apply Hb.
  rewrite fields_ws_free by apply Hc.
  cbn. rewrite !nonempty_token by assumption. reflexivity.
Qed.

End TokenFacts.

(** ** Text written to a file and read back *)

Module TextFacts.
Import PyStr ET.

Lemma newlines_cr_free (s : string) : cr_free s = true -> newlines s = s.
Proof.
  induction s as [|c s IH]; cbn; [reflexivity|].
  intros Hc. apply andb_true_iff in Hc as [Hc Hs]. apply negb_true_iff in Hc.
  rewrite Hc, (IH Hs). reflexivity.
Qed.

Lemma control_cr (c : ascii) : is_control c = false -> Ascii.eqb c "013" = false.
Proof.
  destruct (Ascii.eqb c "013") eqn:Hc; [|reflexivity].
  apply Ascii.eqb_eq in Hc. subst c. discriminate.
Qed.

Lemma control_free_cr_free (s : string) : control_free s = true -> cr_free s = true.
Proof.
  induction s as [|c s IH]; cbn; [reflexivity|].
  intros Hc. apply andb_true_iff in Hc as [Hc Hs]. apply negb_true_iff in Hc.
  rewrite (control_cr _ Hc), (IH Hs). reflexivity.
Qed.

Lemma space_cr (c : ascii) : is_space c = false -> Ascii.eqb c "013" = false.
Proof.
  destruct (Ascii.eqb c "013") eqn:Hc; [|reflexivity].
  apply Ascii.eqb_eq in Hc. subst c. discriminate.
Qed.

Lemma ws_free_cr_free (s : string) : ws_free s = true -> cr_free s = true.
Proof.
  induction s as [|c s IH]; cbn [ws_free cr_free]; [reflexivity|].
  intros Hc. apply andb_true_iff in Hc as [Hc Hs]. apply negb_true_iff in Hc.
  rewrite (space_cr _ Hc), (IH Hs). reflexivity.
Qed.

Lemma cr_free_app (a b : string) : cr_free (a ++ b) = cr_free a && cr_free b.
Proof.
  induction a as [|c a IH]; rewrite ?append_nil, ?append_cons; cbn [cr_free];
    [reflexivity|].
  rewrite IH. apply andb_assoc.
Qed.

Lemma app_nonempty (a b : string) : a <> "" -> (a ++ b)%string <> "".
Proof. destruct a; [congruence|]. rewrite append_cons. discriminate. Qed.

(** The fields of an affine transformation, joined by blanks, are a text
    without carriage return, and not empty when there is a field. *)
Lemma join_tokens (l : list string) :
  Forall token l -> cr_free (join " " l) = true /\ (l <> [] -> join " " l <> "").
Proof.
  induction 1 as [|a l [Hne Hws] Hl [IHc IHn]]; [split; [reflexivity | congruence]|].
  destruct l as [|b l].
  - split; [apply ws_free_cr_free, Hws | intros _; exact Hne].
  - change (join " " (a :: b :: l)) with (a ++ String " " (join " " (b :: l)))%string.
    split.
    + rewrite cr_free_app. cbn [cr_free]. rewrite IHc, (ws_free_cr_free _ Hws). reflexivity.
    + intros _. apply app_nonempty, Hne.
Qed.

Lemma written_text_cr_free (s : string) :
  s <> "" -> cr_free s = true -> written_text s = Some s.
Proof.
  intros Hne Hc. unfold written_text.
  destruct (String.eqb_spec s ""); [congruence|].
  rewrite (newlines_cr_free _ Hc). reflexivity.
Qed.

Lemma plain_nonempty (s : string) : plain s = true -> s <> "".
Proof. destruct s; [discriminate | discriminate]. Qed.

(** Plain text is read back as it was written. *)
Lemma written_text_plain (s : string) : plain s = true -> written_text s = Some s.
Proof.
  intros Hp. apply written_text_cr_free; [apply plain_nonempty, Hp|].
  apply andb_true_iff in Hp as [_ Hp]. apply control_free_cr_free, Hp.
Qed.

Lemma text_leaf_plain (t s : string) : plain s = true -> text_leaf t s = leaf t s.
Proof. intros Hp. unfold text_leaf, leaf. rewrite (written_text_plain _ Hp). reflexivity. Qed.

Lemma write_text_plain (s : string) (e : Element) :
  plain s = true -> write_text s e = set_text s e.
Proof. intros Hp. unfold write_text, set_text. rewrite (written_text_plain _ Hp). reflexivity. Qed.

(** The empty string is read back as no text. *)
Lemma written_text_empty : written_text "" = None.
Proof. reflexivity. Qed.

Lemma uint_control_free (d : Decimal.uint) :
  control_free (NilEmpty.string_of_uint d) = true.
Proof. induction d; cbn; auto. Qed.

Lemma str_control_free (z : Z) : control_free (str z) = true.
Proof.
  unfold str. destruct (Z.to_int z) as [d|d]; cbn [NilZero.string_of_int].
  - destruct d; try reflexivity; apply (uint_control_free (_ d)).
  - cbn. destruct d; try reflexivity; apply (uint_control_free (_ d)).
Qed.

(** The name that a setup gets when the caller gives none is plain. *)
Lemma default_name_plain (setup_id : Z) (setup_name : option string) :
  (forall name, setup_name = Some name -> plain name = true) ->
  plain (default ("Setup" ++ str setup_id) setup_name) = true.
Proof.
  intros Hname. destruct setup_name as [name|]; cbn [default]; [auto|].
  unfold plain. rewrite !append_cons, append_nil. cbn. apply str_control_free.
Qed.

End TextFacts.

(** ** Element trees *)

Module ETFacts.

Lemma eta (e : Element) : mkElement (tag e) (attrib e) (text e) (children e) = e.
Proof. destruct e. reflexivity. Qed.

Lemma has_tag_eq (t : string) (e : Element) : has_tag t e = true <-> tag e = t.
Proof. unfold has_tag. apply String.eqb_eq. Qed.

Lemma find_tag (t : string) (e c : Element) : find t e = Some c -> tag c = t.
Proof.
  unfold find. intros Hf. apply find_some in Hf as [_ Ht]. apply has_tag_eq. exact Ht.
Qed.

Lemma replace_first_same (t : string) (c : Element) (l : list Element) :
  List.find (has_tag t) l = Some c -> replace_first t c l = l.
Proof.
  induction l as [|x l IH]; cbn; [discriminate|].
  destruct (has_tag t x); [intros [= ->]; reflexivity|].
  intros Hf. rewrite (IH Hf). reflexivity.
Qed.

(** Putting back the element that [find] returned changes nothing. *)
Lemma put_same (t : string) (c e : Element) : find t e = Some c -> put t c e = e.
Proof.
  unfold find, put. intros Hf. rewrite (replace_first_same _ _ _ Hf). apply eta.
Qed.

Lemma find_replace_eq (t : string) (c c0 : Element) (l : list Element) :
  List.find (has_tag t) l = Some c0 -> tag c = t ->
  List.find (has_tag t) (replace_first t c l) = Some c.
Proof.
  intros Hf Ht. apply has_tag_eq in Ht.
  induction l as [|x l IH]; cbn in *; [discriminate|].
  destruct (has_tag t x) eqn:Hx; cbn.
  - rewrite Ht. reflexivity.
  - rewrite Hx. apply IH. exact Hf.
Qed.

Lemma find_put_eq (t : string) (c c0 e : Element) :
  find t e = Some c0 -> tag c = t -> find t (put t c e) = Some c.
Proof. unfold find, put. cbn. apply find_replace_eq. Qed.

Lemma has_tag_ne (t t' : string) (c : Element) :
  t <> t' -> has_tag t' c = true -> has_tag t c = false.
Proof.
  intros Hne Ht. apply has_tag_eq in Ht. unfold has_tag. rewrite Ht.
  apply String.eqb_neq. auto.
Qed.

Lemma find_replace_ne (t t' : string) (c : Element) (l : list Element) :
  t <> t' -> tag c = t' ->
  List.find (has_tag t) (replace_first t' c l) = List.find (has_tag t) l.
Proof.
  intros Hne Ht. apply has_tag_eq in Ht.
  induction l as [|x l IH]; cbn; [reflexivity|].
  destruct (has_tag t' x) eqn:Hx; cbn.
  - rewrite (has_tag_ne t t' c Hne Ht), (has_tag_ne t t' x Hne Hx). reflexivity.
  - rewrite IH. reflexivity.
Qed.

(** Changing the child with tag [t'] does not change what [find] returns
    for another tag. *)
Lemma find_put_ne (t t' : string) (c e : Element) :
  t <> t' -> tag c = t' -> find t (put t' c e) = find t e.
Proof. unfold find, put. cbn. apply find_replace_ne. Qed.

Lemma findall_SubElement (t : string) (e c : Element) :
  findall t (SubElement e c)
  = (findall t e ++ (if has_tag t c then [c] else []))%list.
Proof. unfold findall, SubElement. cbn. rewrite List.filter_app. reflexivity. Qed.

Lemma find_SubElement_Some (t : string) (e c x : Element) :
  find t e = Some x -> find t (SubElement e c) = Some x.
Proof.
  unfold find, SubElement. cbn. generalize (children e).
  induction l as [|y l IH]; cbn; [discriminate|].
  destruct (has_tag t y); [auto | exact IH].
Qed.

End ETFacts.

(** ** Dictionaries: equality *)

Module DictEq.

Lemma get_None_keys {V} (k : string) (d : dict V) :
  Dict.get k d = None <-> ~ In k (Dict.keys d).
Proof.
  rewrite DictFacts.get_In_keys. destruct (Dict.get k d) as [v|].
  - split; [discriminate | intros Hn; exfalso; apply Hn; eauto].
  - split; [intros _ [v Hv]; discriminate | reflexivity].
Qed.

Lemma get_In {V} (k : string) (v : V) (d : dict V) :
  Dict.get k d = Some v -> In (k, v) d.
Proof.
  induction d as [|[k' v'] d IH]; cbn; [discriminate|].
  destruct (String.eqb_spec k' k) as [->|Hne]; [intros [= ->]; auto | auto].
Qed.

(** In a dictionary an entry is what [get] returns for its key. *)
Lemma In_get {V} (k : string) (v : V) (d : dict V) :
  Dict.wf d -> In (k, v) d -> Dict.get k d = Some v.
Proof.
  unfold Dict.wf, Dict.keys. induction d as [|[k' v'] d IH]; cbn; [intros _ []|].
  intros Hnd Hin. inversion Hnd as [|? ? Hnin Hnd']; subst.
  destruct (String.eqb_spec k' k) as [->|Hne].
  - destruct Hin as [[= ->]|Hin]; [reflexivity|].
    exfalso. apply Hnin. apply list_elem_of_In. apply (in_map fst) in Hin. exact Hin.
  - destruct Hin as [[= -> ->]|Hin]; [congruence | auto].
Qed.

Lemma set_fresh {V} (k : string) (v : V) (d : dict V) :
  ~ In k (Dict.keys d) -> Dict.set k v d = (d ++ [(k, v)])%list.
Proof.
  induction d as [|[k' v'] d IH]; cbn; [reflexivity|].
  intros Hn. destruct (String.eqb_spec k' k) as [->|Hne]; [tauto|].
  rewrite IH by tauto. reflexivity.
Qed.

Lemma fold_set_fresh {V} (items acc : dict V) :
  NoDup (Dict.keys (acc ++ items)%list) ->
  fold_left (fun d kv => Dict.set (fst kv) (snd kv) d) items acc = (acc ++ items)%list.
Proof.
  revert acc. induction items as [|[k v] items IH]; intros acc Hnd; cbn.
  - rewrite app_nil_r. reflexivity.
  - assert (Hacc : (acc ++ (k, v) :: items = (acc ++ [(k, v)]) ++ items)%list)
      by (rewrite <- app_assoc; reflexivity).
    rewrite Hacc in Hnd |- *. rewrite set_fresh.
    + apply IH. exact Hnd.
    + unfold Dict.keys in *. rewrite <- app_assoc, map_app in Hnd. cbn in Hnd.
      apply NoDup_app in Hnd as (_ & Hdisj & _).
      intros Hin. apply list_elem_of_In in Hin. apply (Hdisj k Hin). left.
Qed.

(** A dictionary comprehension over the items of a dictionary gives the
    dictionary back. *)
Lemma of_items_wf {V} (d : dict V) : Dict.wf d -> Dict.of_items d = d.
Proof. intros Hd. unfold Dict.of_items. apply (fold_set_fresh d []). exact Hd. Qed.

Lemma keys_set {V} (k : string) (v : V) (d : dict V) :
  Dict.keys (Dict.set k v d)
  = if Dict.contains k d then Dict.keys d else (Dict.keys d ++ [k])%list.
Proof.
  unfold Dict.contains, Dict.keys. induction d as [|[k' v'] d IH]; cbn; [reflexivity|].
  destruct (String.eqb_spec k' k) as [->|Hne]; cbn; [reflexivity|].
  rewrite IH. destruct (Dict.get k d); reflexivity.
Qed.

Lemma set_wf {V} (k : string) (v : V) (d : dict V) : Dict.wf d -> Dict.wf (Dict.set k v d).
Proof.
  unfold Dict.wf. intros Hd. rewrite keys_set.
  destruct (Dict.contains k d) eqn:Hc; [exact Hd|].
  apply NoDup_app. split; [exact Hd|]. split; [|apply NoDup_singleton].
  intros x Hx Hxk. apply list_elem_of_singleton in Hxk. subst x.
  apply list_elem_of_In, DictFacts.contains_In in Hx. congruence.
Qed.

Lemma of_items_is_wf {V} (items : list (string * V)) : Dict.wf (Dict.of_items items).
Proof.
  unfold Dict.of_items.
  assert (Hgen : forall acc : dict V, Dict.wf acc ->
            Dict.wf (fold_left (fun d kv => Dict.set (fst kv) (snd kv) d) items acc)).
  { induction items as [|kv items IH]; intros acc Hacc; cbn; [exact Hacc|].
    apply IH. apply set_wf. exact Hacc. }
  apply Hgen. apply NoDup_nil_2.
Qed.

(** [==] on dictionaries of integers is equality of the mappings. *)
Lemma eqb_ext (d1 d2 : dict Z) :
  Dict.wf d1 -> Dict.wf d2 ->
  Dict.eqb Z.eqb d1 d2 = true <-> forall k, Dict.get k d1 = Dict.get k d2.
Proof.
  intros H1 H2. unfold Dict.eqb. rewrite andb_true_iff, Nat.eqb_eq, forallb_forall.
  split.
  - intros [Hlen Hall] k.
    assert (Hsub : incl (Dict.keys d1) (Dict.keys d2)).
    { intros x Hx. apply DictFacts.get_In_keys in Hx as [v Hv].
      apply get_In in Hv. specialize (Hall _ Hv). cbn in Hall.
      apply DictFacts.get_In_keys. destruct (Dict.get x d2); [eauto | discriminate]. }
    destruct (Dict.get k d1) as [v|] eqn:Hk.
    + apply get_In in Hk. specialize (Hall _ Hk). cbn in Hall.
      destruct (Dict.get k d2) as [v'|]; [|discriminate].
      apply Z.eqb_eq in Hall. congruence.
    + symmetry. apply get_None_keys. intros Hin. apply get_None_keys in Hk. apply Hk.
      assert (Hinc : incl (Dict.keys d2) (Dict.keys d1)).
      { apply NoDup_length_incl; [apply NoDup_ListNoDup; exact H1 | | exact Hsub].
        unfold Dict.keys. rewrite !length_map. lia. }
      exact (Hinc k Hin).
  - intros Hext. split.
    + assert (Hle : forall a b : dict Z, Dict.wf a ->
                (forall k, Dict.get k a = Dict.get k b) -> (length a <= length b)%nat).
      { intros a b Ha Hab. rewrite <- (length_map fst a), <- (length_map fst b).
        apply NoDup_incl_length; [apply NoDup_ListNoDup; exact Ha|].
        intros x Hx. apply DictFacts.get_In_keys in Hx as [v Hv].
        apply DictFacts.get_In_keys. exists v. rewrite <- Hab. exact Hv. }
      apply Nat.le_antisymm; [apply Hle; assumption|].
      apply Hle; [assumption|]. intros k. symmetry. apply Hext.
    + intros [k v] Hin. cbn. apply (In_get _ _ _ H1) in Hin.
      rewrite <- Hext, Hin. apply Z.eqb_refl.
Qed.

Lemma eqb_refl (d : dict Z) : Dict.wf d -> Dict.eqb Z.eqb d d = true.
Proof. intros Hd. apply eqb_ext; auto. Qed.

(** A dictionary equal to [d1] differs from what [d1] differs from. *)
Lemma eqb_neq_trans (d0 d1 d2 : dict Z) :
  Dict.wf d0 -> Dict.wf d1 -> Dict.wf d2 ->
  Dict.eqb Z.eqb d0 d1 = true -> Dict.eqb Z.eqb d1 d2 = false ->
  Dict.eqb Z.eqb d0 d2 = false.
Proof.
  intros H0 H1 H2 H01 H12. apply not_true_iff_false. intros H02.
  apply not_true_iff_false in H12. apply H12.
  apply eqb_ext; [assumption..|]. intros k.
  apply (eqb_ext _ _ H0 H1) with (k := k) in H01.
  apply (eqb_ext _ _ H0 H2) with (k := k) in H02. congruence.
Qed.

End DictEq.

(** ** metadata.py: the XML document *)

Section XmlFacts.

Context {F : Type} `{PyFloat F}.

Lemma mapM_id {A} (f : A -> result A) (l : list A) :
  (forall a, In a l -> f a = Ok a) -> mapM f l = Ok l.
Proof.
  induction l as [|a l IH]; cbn; intros Hf; [reflexivity|].
  rewrite (Hf a) by auto. cbn. rewrite IH by auto. reflexivity.
Qed.

Lemma mapM_Ok_all {A B} (f : A -> result B) (l : list A) :
  (forall a, In a l -> exists b, f a = Ok b) -> exists bs, mapM f l = Ok bs.
Proof.
  induction l as [|a l IH]; cbn; intros Hf; [eauto|].
  destruct (Hf a) as [b Hb]; [auto|]. destruct IH as [bs Hbs]; [auto|].
  rewrite Hb, Hbs. cbn. eauto.
Qed.

Lemma mapM_Forall2 {A B} (f : A -> result B) (l : list A) (bs : list B) :
  mapM f l = Ok bs -> Forall2 (fun a b => f a = Ok b) l bs.
Proof.
  revert bs. induction l as [|a l IH]; cbn; intros bs Hm.
  - injection Hm as <-. constructor.
  - apply bind_Ok in Hm as (b & Hb & Hm). apply bind_Ok in Hm as (bs' & Hbs & Hm).
    injection Hm as <-. constructor; auto.
Qed.

Lemma id_of_attr_setup (xml_name : string) (i : Z) : id_of (attr_setup xml_name i) = Ok i.
Proof. unfold id_of, attr_setup. cbn. apply PyStrFacts.int_str. Qed.

Lemma first_with_id_app_None (sid : Z) (l1 l2 : list Element) :
  first_with_id sid l1 = Ok None ->
  first_with_id sid (l1 ++ l2) = first_with_id sid l2.
Proof.
  induction l1 as [|vs l1 IH]; cbn; [reflexivity|].
  destruct (id_of vs) as [i|]; cbn; [|discriminate].
  destruct (Z.eqb i sid); [discriminate | exact IH].
Qed.

Lemma first_with_id_app_Some (sid : Z) (l1 l2 : list Element) vs :
  first_with_id sid l1 = Ok (Some vs) ->
  first_with_id sid (l1 ++ l2) = Ok (Some vs).
Proof.
  induction l1 as [|x l1 IH]; cbn; [discriminate|].
  destruct (id_of x) as [i|]; cbn; [|discriminate].
  destruct (Z.eqb i sid); [auto | exact IH].
Qed.

(** What [update_attrset] returns has the id already. *)
Lemma update_attrset_idem (attributes : dict Z) (a a' : Element) :
  update_attrset attributes a = Ok a' -> update_attrset attributes a' = Ok a'.
Proof.
  unfold update_attrset. intros Hu.
  apply bind_Ok in Hu as (name & Hname & Hu).
  destruct (Dict.get name attributes) as [this_id|] eqn:Hget; [|discriminate].
  apply bind_Ok in Hu as (ids & Hids & Hu).
  destruct (existsb (Z.eqb this_id) ids) eqn:Hex; injection Hu as <-.
  - rewrite Hname. cbn. rewrite Hget, Hids. cbn. rewrite Hex. reflexivity.
  - cbn [attrib SubElement]. rewrite Hname. cbn [mbind result_bind]. rewrite Hget.
    rewrite ETFacts.findall_SubElement.
    assert (Ht : has_tag (PyStr.capitalize name) (attr_setup (PyStr.capitalize name) this_id) = true).
    { apply ETFacts.has_tag_eq. reflexivity. }
    rewrite Ht.
    rewrite (mapM_app _ _ _ ids [this_id] Hids)
      by (cbn [mapM]; rewrite id_of_attr_setup; reflexivity).
    cbn [mbind result_bind]. rewrite existsb_app. cbn. rewrite Z.eqb_refl, orb_true_r.
    reflexivity.
Qed.

Lemma update_attrset_tag (attributes : dict Z) (a a' : Element) :
  update_attrset attributes a = Ok a' -> tag a' = tag a.
Proof.
  unfold update_attrset. intros Hu.
  apply bind_Ok in Hu as (name & Hname & Hu).
  destruct (Dict.get name attributes); [|discriminate].
  apply bind_Ok in Hu as (ids & Hids & Hu).
  destruct (existsb _ ids); injection Hu as <-; reflexivity.
Qed.

(** A registry that is fixed for [attributes] can be updated for any
    mapping that has its name. *)
Lemma update_attrset_other (attributes attributes' : dict Z) (a : Element) :
  update_attrset attributes a = Ok a ->
  (forall name, Dict.get "name" (attrib a) = Some name ->
                In name (Dict.keys attributes')) ->
  exists a', update_attrset attributes' a = Ok a'.
Proof.
  unfold update_attrset. intros Hu Hsub.
  apply bind_Ok in Hu as (name & Hname & Hu). rewrite Hname. cbn.
  destruct (Dict.get name attributes) as [this_id|] eqn:Hget; [|discriminate].
  apply bind_Ok in Hu as (ids & Hids & Hu).
  assert (Hin : In name (Dict.keys attributes')).
  { apply Hsub. apply DictFacts.item_Ok. exact Hname. }
  apply DictFacts.get_In_keys in Hin as [id' Hid']. rewrite Hid', Hids. cbn.
  destruct (existsb (Z.eqb id') ids); eauto.
Qed.

(** The name of a registry that is fixed for [attributes] is a key of
    [attributes]. *)
Lemma update_attrset_name (attributes : dict Z) (a a' : Element) (name : string) :
  update_attrset attributes a = Ok a' ->
  Dict.get "name" (attrib a) = Some name -> In name (Dict.keys attributes).
Proof.
  unfold update_attrset. intros Hu Hn.
  apply bind_Ok in Hu as (name' & Hname & Hu).
  apply DictFacts.item_Ok in Hname. rewrite Hn in Hname. injection Hname as <-.
  destruct (Dict.get name attributes) as [this_id|] eqn:Hget; [|discriminate].
  apply DictFacts.get_In_keys. eauto.
Qed.

Lemma registered_names_In (viewsets : Element) (name : string) :
  In name (registered_names viewsets)
  <-> exists a, In a (children viewsets) /\ has_tag "Attributes" a = true
                /\ Dict.get "name" (attrib a) = Some name.
Proof.
  unfold registered_names, findall. rewrite <- list_elem_of_In, list_elem_of_omap.
  split.
  - intros (a & Ha & Hn). apply list_elem_of_In, filter_In in Ha as [Ha Ht]. eauto.
  - intros (a & Ha & Ht & Hn). exists a. split; [|exact Hn].
    apply list_elem_of_In, filter_In. auto.
Qed.

(** [_update_attributes] changes the attribute registries only. *)
Lemma update_children_spec (attributes : dict Z) (l l' : list Element) :
  mapM (fun c => if has_tag "Attributes" c
                 then update_attrset attributes c else Ok c) l = Ok l' ->
  List.filter (has_tag "ViewSetup") l' = List.filter (has_tag "ViewSetup") l
  /\ forall a, In a l' -> has_tag "Attributes" a = true ->
               update_attrset attributes a = Ok a.
Proof.
  revert l'. induction l as [|c l IH]; cbn; intros l' Hm.
  - injection Hm as <-. split; [reflexivity | intros a []].
  - apply bind_Ok in Hm as (c' & Hc & Hm). apply bind_Ok in Hm as (l0 & Hl & Hm).
    injection Hm as <-. destruct (IH _ Hl) as [Hf Hfix]. cbn.
    destruct (has_tag "Attributes" c) eqn:Htag.
    + pose proof (update_attrset_tag _ _ _ Hc) as Ht.
      apply ETFacts.has_tag_eq in Htag.
      assert (Hc' : has_tag "ViewSetup" c' = false)
        by (unfold has_tag; rewrite Ht, Htag; reflexivity).
      assert (Hc0 : has_tag "ViewSetup" c = false)
        by (unfold has_tag; rewrite Htag; reflexivity).
      rewrite Hc', Hc0. split; [exact Hf|].
      intros a [<-|Ha] Ha'; [eapply update_attrset_idem; exact Hc | auto].
    + injection Hc as <-. rewrite Hf. split; [reflexivity|].
      intros a [<-|Ha] Ha'; [congruence | auto].
Qed.

Lemma update_attributes_spec (viewsets viewsets' : Element) (attributes : dict Z) :
  _update_attributes viewsets attributes = Ok viewsets' ->
  tag viewsets' = tag viewsets
  /\ findall "ViewSetup" viewsets' = findall "ViewSetup" viewsets
  /\ registries_fixed attributes viewsets'.
Proof.
  unfold _update_attributes. intros Hu. apply bind_Ok in Hu as (cs & Hcs & Hu).
  injection Hu as <-. apply update_children_spec in Hcs as [Hf Hfix].
  split; [reflexivity|]. split; [exact Hf | exact Hfix].
Qed.

Lemma update_attributes_fixed (viewsets : Element) (attributes : dict Z) :
  registries_fixed attributes viewsets ->
  _update_attributes viewsets attributes = Ok viewsets.
Proof.
  intros Hfix. unfold _update_attributes. rewrite mapM_id.
  - cbn. unfold set_children. rewrite ETFacts.eta. reflexivity.
  - intros a Ha. destruct (has_tag "Attributes" a) eqn:Ht; [auto | reflexivity].
Qed.

(** The names of registries that are fixed for [attributes] are keys of
    [attributes]. *)
Lemma registries_fixed_names (viewsets : Element) (attributes : dict Z) (name : string) :
  registries_fixed attributes viewsets ->
  In name (registered_names viewsets) -> In name (Dict.keys attributes).
Proof.
  intros Hfix Hin. apply registered_names_In in Hin as (a & Ha & Ht & Hn).
  eapply update_attrset_name; [apply Hfix; eassumption | exact Hn].
Qed.

(** Registries that are fixed for one mapping can be updated for any
    mapping that has every registered name. *)
Lemma update_attributes_other (viewsets : Element) (attributes attributes' : dict Z) :
  registries_fixed attributes viewsets ->
  (forall name, In name (registered_names viewsets) -> In name (Dict.keys attributes')) ->
  exists viewsets',
    _update_attributes viewsets attributes' = Ok viewsets'
    /\ findall "ViewSetup" viewsets' = findall "ViewSetup" viewsets.
Proof.
  intros Hfix Hsub. unfold _update_attributes.
  destruct (mapM_Ok_all
              (fun c => if has_tag "Attributes" c
                        then update_attrset attributes' c else Ok c)
              (children viewsets)) as [cs Hcs].
  { intros a Ha. destruct (has_tag "Attributes" a) eqn:Ht; [|eauto].
    eapply update_attrset_other; [apply Hfix; assumption|].
    intros name Hn. apply Hsub, registered_names_In. eauto. }
  rewrite Hcs. cbn. eexists. split; [reflexivity|].
  apply update_children_spec in Hcs as [Hf _]. exact Hf.
Qed.

Lemma registries_fixed_SubElement (attributes : dict Z) (viewsets c : Element) :
  registries_fixed attributes viewsets -> has_tag "Attributes" c = false ->
  registries_fixed attributes (SubElement viewsets c).
Proof.
  intros Hfix Hc a Ha Ht. cbn in Ha. apply in_app_or in Ha as [Ha|[<-|[]]];
    [auto | congruence].
Qed.

End XmlFacts.

Section XmlWritten.

Context {F : Type} `{PyFloat F}.

Lemma mapM_leaves (d : dict Z) :
  mapM (fun att => i ← PyStr.int_text (text att); Ok (tag att, i))
       (map (fun kv => leaf (fst kv) (PyStr.str (snd kv))) d) = Ok d.
Proof.
  induction d as [|[k v] d IH]; cbn [map mapM]; [reflexivity|].
  cbn [leaf text tag fst snd PyStr.int_text]. rewrite PyStrFacts.int_str.
  cbn [mbind result_bind]. rewrite IH. reflexivity.
Qed.

Lemma list_eqb_feqb_refl (l : list F) :
  Forall printable l -> list_eqb feqb l l = true.
Proof.
  induction 1 as [|x l Hx Hl IH]; cbn; [reflexivity|].
  destruct Hx as (_ & _ & ->). exact IH.
Qed.

Lemma text_is_leaf (t s : string) : text_is (leaf t s) s = true.
Proof. unfold text_is. cbn. apply String.eqb_refl. Qed.

Lemma split_text_leaf3 (t a b c : string) :
  PyStr.token a -> PyStr.token b -> PyStr.token c ->
  split_text (leaf t (format3 a b c)) = Ok [a; b; c].
Proof.
  intros Ha Hb Hc. unfold split_text, format3. cbn [text leaf deref mbind result_bind].
  rewrite TokenFacts.split_three by assumption. reflexivity.
Qed.

Lemma mapM_float3 (dx dy dz : F) :
  printable dx -> printable dy -> printable dz ->
  mapM float [fstr dx; fstr dy; fstr dz] = Ok [dx; dy; dz].
Proof.
  intros (_ & Hx & _) (_ & Hy & _) (_ & Hz & _). cbn [mapM]. unfold float.
  rewrite Hx, Hy, Hz. reflexivity.
Qed.

Lemma mapM_int3 (nx ny nz : Z) :
  mapM PyStr.int [PyStr.str nx; PyStr.str ny; PyStr.str nz] = Ok [nx; ny; nz].
Proof. cbn [mapM]. rewrite !PyStrFacts.int_str. reflexivity. Qed.

Lemma tag_ids_leaves (t : string) (a : dict string) (txt : option string) (d : dict Z) :
  Dict.wf d ->
  tag_ids (mkElement t a txt (map (fun kv => leaf (fst kv) (PyStr.str (snd kv))) d)) = Ok d.
Proof.
  intros Hwf. unfold tag_ids. cbn [children]. rewrite mapM_leaves.
  cbn [mbind result_bind]. rewrite DictEq.of_items_wf by exact Hwf. reflexivity.
Qed.

(** The [ViewSetup] element that the writer creates passes its own check. *)
Lemma check_new_view_setup (setup_id : Z) (setup_name unit : string) (nx ny nz : Z)
    (dx dy dz : F) (attributes : dict Z) :
  Dict.wf attributes -> printable dx -> printable dy -> printable dz ->
  PyStr.plain setup_name = true -> PyStr.plain unit = true ->
  _check_setup setup_name nx ny nz dx dy dz attributes unit
    (new_view_setup setup_id setup_name nx ny nz dx dy dz attributes unit) = Ok tt.
Proof.
  intros Hwf Hx Hy Hz Hname Hunit. unfold _check_setup.
  change (find "name" (new_view_setup _ _ _ _ _ _ _ _ _ _))
    with (Some (text_leaf "name" setup_name)).
  change (find "size" (new_view_setup _ _ _ _ _ _ _ _ _ _))
    with (Some (leaf "size" (format3 (PyStr.str nx) (PyStr.str ny) (PyStr.str nz)))).
  change (find "voxelSize" (new_view_setup _ _ _ _ _ _ _ _ _ _))
    with (Some (mkElement "voxelSize" [] None
                  [text_leaf "unit" unit;
                   leaf "size" (format3 (fstr dx) (fstr dy) (fstr dz))])).
  rewrite (TextFacts.text_leaf_plain _ _ Hname), (TextFacts.text_leaf_plain _ _ Hunit).
  change (find "attributes" (new_view_setup _ _ _ _ _ _ _ _ _ _))
    with (Some (mkElement "attributes" [] None
                  (map (fun kv => leaf (fst kv) (PyStr.str (snd kv))) attributes))).
  cbn [deref mbind result_bind].
  rewrite text_is_leaf. cbn [negb].
  rewrite split_text_leaf3 by apply TokenFacts.token_str.
  cbn [mbind result_bind]. rewrite mapM_int3. cbn [mbind result_bind].
  rewrite (proj2 (list_eqb_Z _ _) eq_refl). cbn [negb].
  change (find "unit" _) with (Some (leaf "unit" unit)).
  change (find "size" _)
    with (Some (leaf "size" (format3 (fstr dx) (fstr dy) (fstr dz)))).
  cbn [deref mbind result_bind].
  rewrite text_is_leaf. cbn [negb].
  rewrite split_text_leaf3 by (apply Hx || apply Hy || apply Hz).
  cbn [mbind result_bind]. rewrite mapM_float3 by assumption. cbn [mbind result_bind].
  rewrite list_eqb_feqb_refl
    by (repeat (apply List.Forall_cons; [assumption|]); apply List.Forall_nil). cbn [negb].
  rewrite tag_ids_leaves by exact Hwf. cbn [mbind result_bind].
  rewrite DictEq.eqb_refl by exact Hwf. reflexivity.
Qed.

Lemma id_of_new_view_setup (setup_id : Z) (setup_name unit : string) (nx ny nz : Z)
    (dx dy dz : F) (attributes : dict Z) :
  id_of (new_view_setup setup_id setup_name nx ny nz dx dy dz attributes unit)
  = Ok setup_id.
Proof. unfold id_of, new_view_setup. cbn. apply PyStrFacts.int_str. Qed.

End XmlWritten.

Section XmlHandles.

Context {F : Type} `{PyFloat F}.

Lemma affine_step_spec (vregs vregs' : Element) (sid tp : Z) (res : list F)
    (aff : option (affine_arg F)) :
  affine_step vregs sid tp res aff = Ok vregs' <->
  exists reg, registration_of sid tp res aff = Some reg /\ vregs' = SubElement vregs reg.
Proof.
  unfold affine_step, registration_of. destruct aff as [a|].
  - unfold _write_affine. cbn. split.
    + intros [= <-]. eexists. split; reflexivity.
    + intros (reg & [= <-] & ->). reflexivity.
  - unfold _write_default_affine. destruct (unpack3 res) as [[[dz dy] dx]|]; cbn.
    + split.
      * intros [= <-]. eexists. split; reflexivity.
      * intros (reg & [= <-] & ->). reflexivity.
    + split; [discriminate | intros (reg & Hr & _); discriminate].
Qed.

Lemma set_text_same (s : string) (e : Element) : text e = Some s -> set_text s e = e.
Proof. destruct e. cbn. intros ->. reflexivity. Qed.

Lemma tag_put (t : string) (c e : Element) : tag (put t c e) = tag e.
Proof. reflexivity. Qed.

(** Where the sub-elements are in the assembled tree. *)
Lemma assemble_finds (h : handles) (fi la : Z) (viewsets vregs vregs' : Element) :
  handles_shape h fi la ->
  tag viewsets = "ViewSetups" ->
  h_vregs h = Some vregs ->
  tag vregs' = "ViewRegistrations" ->
  exists seqdesc',
    find "SequenceDescription" (assemble h viewsets vregs') = Some seqdesc'
    /\ find "ViewSetups" seqdesc' = Some viewsets
    /\ find "Timepoints" seqdesc' = Some (h_tpoints h)
    /\ find "ViewRegistrations" (assemble h viewsets vregs') = Some vregs'.
Proof.
  intros (Hsd & [v0 Hvs] & Htv & [t0 Htp] & Htt & Hvr & _) Hv Hr Hr'.
  unfold assemble.
  set (sd1 := put "ViewSetups" viewsets (h_seqdesc h)).
  set (sd2 := put "Timepoints" (h_tpoints h) sd1).
  assert (Hsd2 : tag sd2 = "SequenceDescription").
  { unfold sd2, sd1. rewrite !tag_put. eapply ETFacts.find_tag. exact Hsd. }
  exists sd2. split; [|split; [|split]].
  - rewrite ETFacts.find_put_ne by (discriminate || exact Hr').
    eapply ETFacts.find_put_eq; [exact Hsd | exact Hsd2].
  - unfold sd2. rewrite ETFacts.find_put_ne by (discriminate || exact Htt).
    unfold sd1. eapply ETFacts.find_put_eq; [exact Hvs | exact Hv].
  - unfold sd2. eapply ETFacts.find_put_eq; [|exact Htt].
    unfold sd1. rewrite ETFacts.find_put_ne by (discriminate || exact Hv). exact Htp.
  - eapply ETFacts.find_put_eq; [|exact Hr'].
    rewrite ETFacts.find_put_ne by (discriminate || exact Hsd2).
    rewrite <- Hvr. exact Hr.
Qed.

Lemma root_time_range_assemble (h : handles) (fi la : Z) (viewsets vregs vregs' : Element) :
  handles_shape h fi la ->
  tag viewsets = "ViewSetups" ->
  h_vregs h = Some vregs ->
  tag vregs' = "ViewRegistrations" ->
  root_time_range (assemble h viewsets vregs') = Ok (fi, la).
Proof.
  intros Hh Hv Hr Hr'.
  destruct (assemble_finds h fi la viewsets vregs vregs' Hh Hv Hr Hr')
    as (sd' & Hsd & _ & Htp & _).
  destruct Hh as (_ & _ & _ & _ & _ & _ & first & last & Hf & Hft & Hl & Hlt).
  unfold root_time_range. rewrite Hsd. cbn. rewrite Htp. cbn. rewrite Hf. cbn.
  rewrite Hft. cbn. rewrite PyStrFacts.int_str. cbn. rewrite Hl. cbn. rewrite Hlt. cbn.
  rewrite PyStrFacts.int_str. reflexivity.
Qed.

(** The handles after loading an existing document. *)
Lemma load_document_shape (root : Element) (tp : Z) (attributes : dict Z) (h : handles) :
  load_document root tp attributes = Ok h ->
  exists f0 l0,
    root_time_range root = Ok (f0, l0)
    /\ handles_shape h (Z.min f0 tp) (Z.max l0 tp)
    /\ registries_fixed attributes (h_viewsets h)
    /\ h_root h = root.
Proof.
  unfold load_document. intros Hl.
  apply bind_Ok in Hl as (seqdesc & Hsd & Hl). apply deref_Ok in Hsd.
  apply bind_Ok in Hl as (viewsets0 & Hvs & Hl). apply deref_Ok in Hvs.
  apply bind_Ok in Hl as (viewsets & Hup & Hl).
  apply bind_Ok in Hl as (tpoints & Htp & Hl). apply deref_Ok in Htp.
  apply bind_Ok in Hl as (first & Hf & Hl). apply deref_Ok in Hf.
  apply bind_Ok in Hl as (fi & Hfi & Hl).
  apply bind_Ok in Hl as (last & Hla & Hl). apply deref_Ok in Hla.
  apply bind_Ok in Hl as (la & Hlai & Hl).
  injection Hl as <-.
  rewrite ETFacts.find_put_ne in Hla by (discriminate || (cbn; eapply ETFacts.find_tag; exact Hf)).
  apply update_attributes_spec in Hup as (Htag & _ & Hfix).
  exists fi, la. split; [|split; [|split; [exact Hfix | reflexivity]]].
  - unfold root_time_range. rewrite Hsd. cbn. rewrite Htp. cbn. rewrite Hf. cbn.
    rewrite Hfi. cbn. rewrite Hla. cbn. rewrite Hlai. reflexivity.
  - unfold handles_shape. cbn [h_root h_seqdesc h_viewsets h_tpoints h_vregs].
    split; [exact Hsd|]. split; [eauto|].
    split; [rewrite Htag; eapply ETFacts.find_tag; exact Hvs|].
    split; [eauto|]. split; [rewrite !tag_put; eapply ETFacts.find_tag; exact Htp|].
    split; [reflexivity|].
    exists (set_text (PyStr.str (Z.min fi tp)) first), (set_text (PyStr.str (Z.max la tp)) last).
    split; [|split; [reflexivity|split; [|reflexivity]]].
    + rewrite ETFacts.find_put_ne by (discriminate || (cbn; eapply ETFacts.find_tag; exact Hla)).
      eapply ETFacts.find_put_eq; [exact Hf|]. cbn. eapply ETFacts.find_tag. exact Hf.
    + eapply ETFacts.find_put_eq.
      * rewrite ETFacts.find_put_ne by (discriminate || (cbn; eapply ETFacts.find_tag; exact Hf)).
        exact Hla.
      * cbn. eapply ETFacts.find_tag. exact Hla.
Qed.

Lemma initialize_attributes_children (viewsets : Element) (attributes : dict Z) :
  _initialize_attributes viewsets attributes
  = mkElement (tag viewsets) (attrib viewsets) (text viewsets)
      (children viewsets
       ++ map (fun kv => mkElement "Attributes" [("name", fst kv)] None
                           [attr_setup (PyStr.capitalize (fst kv)) (snd kv)])
              attributes).
Proof.
  unfold _initialize_attributes. revert viewsets.
  induction attributes as [|kv attributes IH]; intros viewsets; cbn.
  - rewrite app_nil_r. symmetry. apply ETFacts.eta.
  - rewrite IH. cbn. rewrite <- app_assoc. reflexivity.
Qed.

Lemma update_new_registry (attributes : dict Z) (k : string) (v : Z) :
  Dict.wf attributes -> In (k, v) attributes ->
  update_attrset attributes
    (mkElement "Attributes" [("name", k)] None [attr_setup (PyStr.capitalize k) v])
  = Ok (mkElement "Attributes" [("name", k)] None [attr_setup (PyStr.capitalize k) v]).
Proof.
  intros Hwf Hin. unfold update_attrset. cbn [attrib].
  change (Dict.item "name" [("name", k)]) with (Ok k). cbn [mbind result_bind].
  rewrite (DictEq.In_get _ _ _ Hwf Hin).
  unfold findall. cbn [children List.filter].
  assert (Ht : has_tag (PyStr.capitalize k) (attr_setup (PyStr.capitalize k) v) = true)
    by (apply ETFacts.has_tag_eq; reflexivity).
  rewrite Ht. cbn [mapM]. rewrite id_of_attr_setup. cbn [mbind result_bind existsb].
  rewrite Z.eqb_refl. reflexivity.
Qed.

(** The handles of a new document. *)
Lemma new_document_shape (data_path : string) (is_h5 : bool) (tp : Z) (attributes : dict Z) :
  Dict.wf attributes ->
  handles_shape (new_document data_path is_h5 tp attributes) tp tp
  /\ registries_fixed attributes (h_viewsets (new_document data_path is_h5 tp attributes))
  /\ findall "ViewSetup" (h_viewsets (new_document data_path is_h5 tp attributes)) = []
  /\ h_vregs (new_document data_path is_h5 tp attributes) = Some (new "ViewRegistrations").
Proof.
  intros Hwf. unfold new_document. cbn [h_root h_seqdesc h_viewsets h_tpoints h_vregs].
  rewrite initialize_attributes_children. cbn [new tag attrib text children app].
  split; [|split; [|split]].
  - unfold handles_shape. cbn [h_root h_seqdesc h_viewsets h_tpoints h_vregs tag].
    split; [reflexivity|]. split; [eexists; reflexivity|]. split; [reflexivity|].
    split; [eexists; reflexivity|]. split; [reflexivity|]. split; [reflexivity|].
    eexists _, _. repeat split; reflexivity.
  - intros a Ha _. cbn [children] in Ha. apply in_map_iff in Ha as ([k v] & <- & Hkv).
    apply update_new_registry; assumption.
  - clear Hwf. unfold findall. cbn [children].
    induction attributes as [|kv l IH]; [reflexivity | cbn; exact IH].
  - reflexivity.
Qed.

Lemma new_document_handles (data_path : string) (is_h5 : bool) (tp : Z) (attributes : dict Z) :
  handles_shape (new_document data_path is_h5 tp attributes) tp tp.
Proof.
  unfold new_document, handles_shape.
  cbn [h_root h_seqdesc h_viewsets h_tpoints h_vregs].
  rewrite initialize_attributes_children. cbn [new tag attrib text children app].
  split; [reflexivity|]. split; [eexists; reflexivity|]. split; [reflexivity|].
  split; [eexists; reflexivity|]. split; [reflexivity|]. split; [reflexivity|].
  eexists _, _. repeat split; reflexivity.
Qed.

End XmlHandles.

Section XmlWrites.

Context {F : Type} `{PyFloat F}.

Lemma unpack3_Ok {A} (l : list A) (a b c : A) :
  unpack3 l = Ok (a, b, c) -> l = [a; b; c].
Proof.
  destruct l as [|x [|y [|z [|]]]]; cbn; try discriminate.
  intros [= -> -> ->]. reflexivity.
Qed.

(** After [_require_view_setup] succeeded, the setup is in the element and
    passes the check. *)
Lemma require_view_setup_written (vs0 vs1 : Element) (sid : Z) (name unit : string)
    (res : list F) (shape : list Z) (attributes : dict Z) :
  Dict.wf attributes -> Forall printable res ->
  PyStr.plain name = true -> PyStr.plain unit = true ->
  registries_fixed attributes vs0 ->
  _require_view_setup vs0 sid name res shape attributes unit = Ok vs1 ->
  tag vs1 = tag vs0
  /\ registries_fixed attributes vs1
  /\ exists dz dy dx nz ny nx vs,
       res = [dz; dy; dx] /\ shape = [nz; ny; nx]
       /\ first_with_id sid (findall "ViewSetup" vs1) = Ok (Some vs)
       /\ _check_setup name nx ny nz dx dy dz attributes unit vs = Ok tt.
Proof.
  intros Hwf Hpr Hname Hunit Hfix. unfold _require_view_setup. intros Hr.
  apply bind_Ok in Hr as ([[dz dy] dx] & Hres & Hr). apply unpack3_Ok in Hres.
  apply bind_Ok in Hr as ([[nz ny] nx] & Hsh & Hr). apply unpack3_Ok in Hsh.
  apply bind_Ok in Hr as (found & Hfound & Hr).
  destruct found as [vs|].
  - apply bind_Ok in Hr as ([] & Hcheck & Hr). injection Hr as <-.
    split; [reflexivity|]. split; [exact Hfix|].
    exists dz, dy, dx, nz, ny, nx, vs. auto.
  - injection Hr as <-. split; [reflexivity|]. split.
    + apply registries_fixed_SubElement; [exact Hfix | reflexivity].
    + subst res. inversion Hpr as [|? ? Hz Hpr1]; subst.
      inversion Hpr1 as [|? ? Hy Hpr2]; subst. inversion Hpr2 as [|? ? Hx _]; subst.
      eexists dz, dy, dx, nz, ny, nx, _. split; [reflexivity|]. split; [reflexivity|].
      split.
      * rewrite ETFacts.findall_SubElement.
        rewrite (first_with_id_app_None _ _ _ Hfound).
        change (has_tag "ViewSetup" (new_view_setup _ _ _ _ _ _ _ _ _ _)) with true.
        cbn [first_with_id]. rewrite id_of_new_view_setup. cbn [mbind result_bind].
        rewrite Z.eqb_refl. reflexivity.
      * apply check_new_view_setup; assumption.
Qed.

Lemma require_view_setup_tag (vs0 vs1 : Element) (sid : Z) (name unit : string)
    (res : list F) (shape : list Z) (attributes : dict Z) :
  _require_view_setup vs0 sid name res shape attributes unit = Ok vs1 ->
  tag vs1 = tag vs0.
Proof.
  unfold _require_view_setup. intros Hr.
  apply bind_Ok in Hr as ([[dz dy] dx] & _ & Hr).
  apply bind_Ok in Hr as ([[nz ny] nx] & _ & Hr).
  apply bind_Ok in Hr as (found & _ & Hr).
  destruct found as [vs|].
  - apply bind_Ok in Hr as ([] & _ & Hr). injection Hr as <-. reflexivity.
  - injection Hr as <-. reflexivity.
Qed.

(** [build_xml] restated with the step for the registrations named. *)
Lemma build_xml_unfold (w : world F) xml_path data_path unit (res : list F) is_h5
    sid tp name aff attributes :
  build_xml w xml_path data_path unit res is_h5 sid tp name aff attributes
  = (f ← open_read w data_path;
     ds ← get_dataset f (get_key is_h5 (Some tp) (Some sid) (Some 0));
     h ← match xml_files w !! xml_path with
         | Some root => load_document root tp attributes
         | None => Ok (new_document data_path is_h5 tp attributes)
         end;
     viewsets ← _require_view_setup (h_viewsets h) sid
                  (default ("Setup" ++ PyStr.str sid) name) res
                  (a_shape (ds_data ds)) attributes unit;
     vregs ← match h_vregs h with Some v => Ok v | None => Err TypeError end;
     vregs ← affine_step vregs sid tp res aff;
     Ok (assemble h viewsets vregs)).
Proof. reflexivity. Qed.

End XmlWrites.

Section XmlFirstWrite.

Context {F : Type} `{PyFloat F}.

(** The handles that [write_xml_metadata] starts from, in both branches. *)
Lemma handles_of_document (w : world F) xml_path data_path is_h5 tp attributes h :
  match xml_files w !! xml_path with
  | Some root => load_document root tp attributes
  | None => Ok (new_document data_path is_h5 tp attributes)
  end = Ok h ->
  exists fi la,
    handles_shape h fi la /\ fi <= tp /\ tp <= la
    /\ (Dict.wf attributes -> registries_fixed attributes (h_viewsets h))
    /\ match xml_files w !! xml_path with
       | Some root0 =>
           exists f0 l0, root_time_range root0 = Ok (f0, l0)
                         /\ fi = Z.min f0 tp /\ la = Z.max l0 tp
       | None => fi = tp /\ la = tp
       end.
Proof.
  destruct (xml_files w !! xml_path) as [root0|]; intros Hh.
  - apply load_document_shape in Hh as (f0 & l0 & Hr & Hs & Hfix & _).
    exists (Z.min f0 tp), (Z.max l0 tp).
    split; [exact Hs|]. split; [lia|]. split; [lia|]. split; [auto|]. eauto.
  - injection Hh as <-. exists tp, tp.
    split; [apply new_document_handles|]. split; [lia|]. split; [lia|].
    split; [|auto]. intros Hwf. apply new_document_shape. exact Hwf.
Qed.

(** The timepoint range of the document that [write_xml_metadata] writes. *)
Lemma build_xml_time_range (w : world F) xml_path data_path unit (res : list F) is_h5
    sid tp name aff attributes root :
  build_xml w xml_path data_path unit res is_h5 sid tp name aff attributes = Ok root ->
  exists fi la,
    root_time_range root = Ok (fi, la)
    /\ match xml_files w !! xml_path with
       | Some root0 =>
           exists f0 l0, root_time_range root0 = Ok (f0, l0)
                         /\ fi = Z.min f0 tp /\ la = Z.max l0 tp
       | None => fi = tp /\ la = tp
       end.
Proof.
  rewrite build_xml_unfold. intros Hb.
  apply bind_Ok in Hb as (f & _ & Hb). apply bind_Ok in Hb as (ds & _ & Hb).
  apply bind_Ok in Hb as (h & Hh & Hb). apply bind_Ok in Hb as (viewsets & Hreq & Hb).
  apply bind_Ok in Hb as (vregs & Hv & Hb). apply bind_Ok in Hb as (vregs' & Haff & Hb).
  injection Hb as <-.
  apply handles_of_document in Hh as (fi & la & Hs & _ & _ & _ & Hrange).
  exists fi, la. split; [|exact Hrange].
  destruct (h_vregs h) as [v|] eqn:Hhv; [|discriminate]. injection Hv as ->.
  apply affine_step_spec in Haff as (reg & _ & ->).
  eapply root_time_range_assemble; [exact Hs | | exact Hhv |].
  - rewrite (require_view_setup_tag _ _ _ _ _ _ _ _ Hreq). apply Hs.
  - cbn. eapply ETFacts.find_tag. destruct Hs as (_ & _ & _ & _ & _ & Hvr & _).
    rewrite <- Hvr. exact Hhv.
Qed.

(** What a successful [write_xml_metadata] leaves in the document. *)
Lemma build_xml_written (w : world F) xml_path data_path unit (res : list F) is_h5
    sid tp name aff attributes root :
  Dict.wf attributes -> Forall printable res ->
  PyStr.plain (default ("Setup" ++ PyStr.str sid) name) = true ->
  PyStr.plain unit = true ->
  build_xml w xml_path data_path unit res is_h5 sid tp name aff attributes = Ok root ->
  exists shape reg,
    shape_read w data_path is_h5 sid tp = Ok shape
    /\ registration_of sid tp res aff = Some reg
    /\ setup_written root sid tp (default ("Setup" ++ PyStr.str sid) name) unit res
                     shape attributes reg.
Proof.
  intros Hwf Hpr Hname Hunit. rewrite build_xml_unfold. intros Hb.
  apply bind_Ok in Hb as (f & Hf & Hb). apply bind_Ok in Hb as (ds & Hds & Hb).
  apply bind_Ok in Hb as (h & Hh & Hb). apply bind_Ok in Hb as (viewsets & Hreq & Hb).
  apply bind_Ok in Hb as (vregs & Hv & Hb). apply bind_Ok in Hb as (vregs' & Haff & Hb).
  injection Hb as <-.
  apply handles_of_document in Hh as (fi & la & Hs & Hfi & Hla & Hfix & _).
  specialize (Hfix Hwf).
  destruct (h_vregs h) as [v|] eqn:Hhv; [|discriminate]. injection Hv as ->.
  apply affine_step_spec in Haff as (reg & Hreg & ->).
  apply (require_view_setup_written _ _ _ _ _ _ _ _ Hwf Hpr Hname Hunit Hfix) in Hreq
    as (Htag & Hfix' & dz & dy & dx & nz & ny & nx & vs & Hres & Hshape & Hfound & Hcheck).
  assert (Htv : tag viewsets = "ViewSetups") by (rewrite Htag; apply Hs).
  assert (Htr : tag (SubElement vregs reg) = "ViewRegistrations").
  { cbn. eapply ETFacts.find_tag. destruct Hs as (_ & _ & _ & _ & _ & Hvr & _).
    rewrite <- Hvr. exact Hhv. }
  destruct (assemble_finds h fi la viewsets vregs _ Hs Htv Hhv Htr)
    as (sd' & Hsd & Hvs & Htp & Hvr).
  destruct Hs as (_ & _ & _ & _ & _ & _ & first & last & Hfirst & Hft & Hlast & Hlt).
  exists (a_shape (ds_data ds)), reg.
  split; [unfold shape_read; rewrite Hf; cbn; rewrite Hds; reflexivity|].
  split; [exact Hreg|].
  exists sd', viewsets, (h_tpoints h), vregs, vs, first, last, fi, la, dz, dy, dx, nz, ny, nx.
  repeat (split; [assumption|]). assumption.
Qed.

End XmlFirstWrite.

Section XmlSecondWrite.

Context {F : Type} `{PyFloat F}.

(** Loading a document that a write left behind: nothing is added to the
    registries that the attributes were checked against, and the timepoint
    range already includes the timepoint. *)
Lemma load_document_again (root seqdesc viewsets tpoints first last : Element)
    (fi la tp : Z) (attributes attributes' : dict Z) :
  find "SequenceDescription" root = Some seqdesc ->
  find "ViewSetups" seqdesc = Some viewsets ->
  find "Timepoints" seqdesc = Some tpoints ->
  find "first" tpoints = Some first -> text first = Some (PyStr.str fi) -> fi <= tp ->
  find "last" tpoints = Some last -> text last = Some (PyStr.str la) -> tp <= la ->
  registries_fixed attributes viewsets ->
  (forall name, In name (registered_names viewsets) -> In name (Dict.keys attributes')) ->
  exists viewsets',
    _update_attributes viewsets attributes' = Ok viewsets'
    /\ findall "ViewSetup" viewsets' = findall "ViewSetup" viewsets
    /\ load_document root tp attributes'
       = Ok (mkHandles root seqdesc viewsets' tpoints (find "ViewRegistrations" root)).
Proof.
  intros Hsd Hvs Htp Hf Hft Hfi Hl Hlt Hla Hfix Hsub.
  destruct (update_attributes_other _ _ _ Hfix Hsub) as (viewsets' & Hup & Hall).
  exists viewsets'. split; [exact Hup|]. split; [exact Hall|].
  unfold load_document. rewrite Hsd. cbn [deref mbind result_bind].
  rewrite Hvs. cbn [deref mbind result_bind]. rewrite Hup. cbn [mbind result_bind].
  rewrite Htp. cbn [deref mbind result_bind]. rewrite Hf. cbn [deref mbind result_bind].
  rewrite Hft. cbn [PyStr.int_text]. rewrite PyStrFacts.int_str. cbn [mbind result_bind].
  rewrite Z.min_l by exact Hfi. rewrite (set_text_same _ _ Hft).
  rewrite (ETFacts.put_same _ _ _ Hf). rewrite Hl. cbn [deref mbind result_bind].
  rewrite Hlt. cbn [PyStr.int_text]. rewrite PyStrFacts.int_str. cbn [mbind result_bind].
  rewrite Z.max_l by lia. rewrite (set_text_same _ _ Hlt).
  rewrite (ETFacts.put_same _ _ _ Hl). reflexivity.
Qed.

(** When the setup is in the element, [_require_view_setup] is its check. *)
Lemma require_view_setup_found (v vs : Element) (sid : Z) (name unit : string)
    (dz dy dx : F) (nz ny nx : Z) (attributes : dict Z) :
  first_with_id sid (findall "ViewSetup" v) = Ok (Some vs) ->
  _require_view_setup v sid name [dz; dy; dx] [nz; ny; nx] attributes unit
  = (_ ← _check_setup name nx ny nz dx dy dz attributes unit vs; Ok v).
Proof.
  intros Hfound. unfold _require_view_setup. cbn [unpack3 mbind result_bind].
  rewrite Hfound. reflexivity.
Qed.

(** Writing the same setup again appends the same registration again and
    changes nothing else. *)
Lemma build_xml_again (w' : world F) xml_path data_path unit (res : list F) is_h5
    sid tp name aff attributes root shape reg :
  setup_written root sid tp (default ("Setup" ++ PyStr.str sid) name) unit res
                shape attributes reg ->
  registration_of sid tp res aff = Some reg ->
  xml_files w' !! xml_path = Some root ->
  shape_read w' data_path is_h5 sid tp = Ok shape ->
  exists vregs,
    find "ViewRegistrations" root = Some vregs
    /\ last (children vregs) = Some reg
    /\ build_xml w' xml_path data_path unit res is_h5 sid tp name aff attributes
       = Ok (put "ViewRegistrations" (SubElement vregs reg) root).
Proof.
  intros (seqdesc & viewsets & tpoints & vregs0 & vs & first & last' & fi & la
          & dz & dy & dx & nz & ny & nx & -> & -> & Hsd & Hvs & Htp & Hvr & Hfix
          & Hfound & Hcheck & Hf & Hft & Hfi & Hl & Hlt & Hla) Hreg Hroot Hshape.
  exists (SubElement vregs0 reg). split; [exact Hvr|].
  split; [cbn; apply last_snoc|].
  rewrite build_xml_unfold. unfold shape_read in Hshape.
  apply bind_Ok in Hshape as (f & Hopen & Hshape).
  apply bind_Ok in Hshape as (ds & Hds & Hshape). injection Hshape as Hshape.
  rewrite Hopen. cbn [mbind result_bind]. rewrite Hds. cbn [mbind result_bind].
  rewrite Hroot.
  destruct (load_document_again root seqdesc viewsets tpoints first last' fi la tp
              attributes attributes Hsd Hvs Htp Hf Hft Hfi Hl Hlt Hla Hfix
              (fun name => registries_fixed_names _ _ name Hfix))
    as (viewsets' & Hup & _ & Hload).
  rewrite (update_attributes_fixed _ _ Hfix) in Hup. injection Hup as <-.
  rewrite Hload. cbn [mbind result_bind h_viewsets h_vregs]. rewrite Hshape.
  rewrite (require_view_setup_found _ _ _ _ _ _ _ _ _ _ _ _ Hfound), Hcheck.
  cbn [mbind result_bind]. rewrite Hvr. cbn [mbind result_bind].
  rewrite (proj2 (affine_step_spec _ _ _ _ _ _) (ex_intro _ reg (conj Hreg eq_refl))).
  cbn [mbind result_bind]. unfold assemble. cbn [h_root h_seqdesc h_tpoints].
  rewrite (ETFacts.put_same _ _ _ Hvs), (ETFacts.put_same _ _ _ Htp),
    (ETFacts.put_same _ _ _ Hsd). reflexivity.
Qed.

End XmlSecondWrite.

Section Rewrite.

Context {F : Type} `{PyFloat F}.

Lemma array_equal_intro (a b : ndarray) :
  a_shape a = a_shape b -> a_rows a = a_rows b -> Np.array_equal a b = true.
Proof.
  intros Hs Hr. unfold Np.array_equal. rewrite Hs, Hr.
  rewrite (proj2 (list_eqb_Z _ _) eq_refl), (proj2 (list_eqb_ZZ _ _) eq_refl). reflexivity.
Qed.

(** The loop of [write_h5_metadata] gives the same result in a world that
    still has every node of the container. *)
Lemma h5_levels_stable (w w2 : world F) path sid tp (f2 : gmap string (node F))
    (sfs : list factor) :
  containers w2 !! path = Some f2 ->
  (forall key n, open_append w path !! key = Some n -> f2 !! key = Some n) ->
  forall scale eff scales chunks r,
    h5_levels w path sid tp scale eff sfs scales chunks = Ok r ->
    h5_levels w2 path sid tp scale eff sfs scales chunks = Ok r.
Proof.
  intros H2 Hkeep. induction sfs as [|sf sfs IH]; intros scale eff scales chunks r Hl;
    cbn [h5_levels] in *; [exact Hl|].
  apply bind_Ok in Hl as (f & Hf & Hl). apply bind_Ok in Hl as (ds & Hds & Hl).
  apply bind_Ok in Hl as (chunk & Hc & Hl).
  unfold open_read in Hf |- *. rewrite H2. cbn [mbind result_bind].
  assert (Hds2 : get_dataset f2 (get_key true (Some tp) (Some sid) (Some scale)) = Ok ds).
  { unfold get_dataset, getitem in Hds |- *.
    destruct (f !! _) as [n|] eqn:Hn; [|discriminate].
    rewrite (Hkeep _ n); [exact Hds|].
    unfold open_append. destruct (containers w !! path); [|discriminate].
    injection Hf as ->. exact Hn. }
  rewrite Hds2. cbn [mbind result_bind]. rewrite Hc. cbn [mbind result_bind].
  apply IH. exact Hl.
Qed.

Lemma world_close_same (w : world F) path (f : gmap string (node F)) :
  containers w !! path = Some f -> close w path f = w.
Proof.
  intros Hf. destruct w as [x c]. unfold close. cbn in *. f_equal.
  apply insert_id. exact Hf.
Qed.

(** [write_h5_metadata] with the same arguments again changes nothing. *)
Lemma write_h5_metadata_again (w w1 w2 : world F) path sfs sid tp :
  write_h5_metadata w path sfs sid tp = (w1, Ok tt) ->
  containers w2 = containers w1 ->
  write_h5_metadata w2 path sfs sid tp = (w2, Ok tt).
Proof.
  intros Hw Hc.
  destruct (h5_arrays w path sfs sid tp) as [[scales chunks]|e] eqn:Ha;
    [|unfold write_h5_metadata in Hw; rewrite Ha in Hw; discriminate].
  rewrite (write_h5_metadata_blocks _ _ _ _ _ _ _ Ha) in Hw.
  destruct (h5_blocks sid scales chunks (open_append w path)) as [f2 r] eqn:Hb.
  cbn [fst snd] in Hw. injection Hw as <- ->.
  unfold h5_blocks in Hb.
  destruct (compare_or_write sid (key_res sid) scales _) as [f1 [[]|e1]] eqn:H1;
    [|discriminate].
  pose proof (compare_or_write_preserves _ _ _ _ _ _ H1) as Hp1.
  pose proof (compare_or_write_preserves _ _ _ _ _ _ Hb) as Hp2.
  apply compare_or_write_Ok in H1 as (n1 & d1 & Hn1 & Hd1 & Hr1 & Hs1 & _ & _).
  apply compare_or_write_Ok in Hb as (n2 & d2 & Hn2 & Hd2 & Hr2 & Hs2 & _ & _).
  assert (H2 : containers w2 !! path = Some f2).
  { rewrite Hc. unfold close. cbn. apply lookup_insert_eq. }
  assert (Ha2 : h5_arrays w2 path sfs sid tp = Ok (scales, chunks)).
  { unfold h5_arrays in Ha |- *.
    apply bind_Ok in Ha as ([Sc Ch] & Hl & Ha).
    rewrite (h5_levels_stable w w2 path sid tp f2 sfs H2 (fun k n Hk => Hp2 _ _ (Hp1 _ _ Hk))
               _ _ _ _ _ Hl).
    exact Ha. }
  rewrite (write_h5_metadata_blocks _ _ _ _ _ _ _ Ha2).
  assert (Hopen : open_append w2 path = f2) by (unfold open_append; rewrite H2; reflexivity).
  rewrite Hopen. unfold h5_blocks.
  rewrite (compare_or_write_present _ _ _ _ _ _ (Hp2 _ _ Hn1) Hd1).
  rewrite (array_equal_intro _ _ Hs1 Hr1).
  rewrite (compare_or_write_present _ _ _ _ _ _ Hn2 Hd2).
  rewrite (array_equal_intro _ _ Hs2 Hr2). cbn [fst snd].
  rewrite (world_close_same _ _ _ H2). reflexivity.
Qed.

Lemma shape_read_containers (w w' : world F) data_path is_h5 sid tp :
  containers w' = containers w ->
  shape_read w' data_path is_h5 sid tp = shape_read w data_path is_h5 sid tp.
Proof. intros Hc. unfold shape_read, open_read. rewrite Hc. reflexivity. Qed.

Lemma write_xml_metadata_Ok (w w' : world F) xml_path data_path unit (res : list F)
    is_h5 sid tp name aff attributes :
  write_xml_metadata w xml_path data_path unit res is_h5 sid tp name aff attributes
  = (w', Ok tt) ->
  exists root,
    build_xml w xml_path data_path unit res is_h5 sid tp name aff attributes = Ok root
    /\ w' = mkWorld (<[xml_path := root]> (xml_files w)) (containers w).
Proof.
  unfold write_xml_metadata.
  destruct (build_xml _ _ _ _ _ _ _ _ _ _ _) as [root|e]; intros Hw;
    [|discriminate]. injection Hw as <-. eauto.
Qed.

(** C1, as the code has it: when the metadata of a setup was written, with
    a name (if one is given) and a unit that are plain text and a
    resolution without NaN, a second [write_h5_metadata] with the same
    arguments leaves the container as it is, and a second
    [write_xml_metadata] with the same arguments succeeds and appends to
    [ViewRegistrations] one more copy of the registration that the first
    call appended; the rest of the document, the [SequenceDescription] with
    its view setups, attribute registries and timepoint range, stays as it
    is. *)
Theorem rewrite_same_setup (w w1 w2 : world F) (xml_path data_path unit : string)
    (resolution : list F) (setup_id timepoint : Z) (setup_name : option string)
    (affine : option (affine_arg F)) (attributes : dict Z)
    (scale_factors : list factor) :
  Dict.wf attributes -> Forall printable resolution ->
  (forall name, setup_name = Some name -> PyStr.plain name = true) ->
  PyStr.plain unit = true ->
  write_h5_metadata w data_path scale_factors setup_id timepoint = (w1, Ok tt) ->
  write_xml_metadata w1 xml_path data_path unit resolution true setup_id timepoint
                     setup_name affine attributes = (w2, Ok tt) ->
  exists root vregs registration,
    xml_files w2 !! xml_path = Some root
    /\ find "ViewRegistrations" root = Some vregs
    /\ last (children vregs) = Some registration
    /\ write_h5_metadata w2 data_path scale_factors setup_id timepoint = (w2, Ok tt)
    /\ write_xml_metadata w2 xml_path data_path unit resolution true setup_id timepoint
                          setup_name affine attributes
       = (mkWorld (<[xml_path := put "ViewRegistrations"
                                     (SubElement vregs registration) root]>
                     (xml_files w2))
                  (containers w2), Ok tt)
    /\ find "SequenceDescription"
            (put "ViewRegistrations" (SubElement vregs registration) root)
       = find "SequenceDescription" root.
Proof.
  intros Hwf Hpr Hname Hunit Hh5 Hxml.
  apply write_xml_metadata_Ok in Hxml as (root & Hb & ->).
  destruct (build_xml_written _ _ _ _ _ _ _ _ _ _ _ _ Hwf Hpr
              (TextFacts.default_name_plain _ _ Hname) Hunit Hb)
    as (shape & reg & Hshape & Hreg & Hwritten).
  set (w2 := mkWorld (<[xml_path := root]> (xml_files w1)) (containers w1)).
  assert (Hroot : xml_files w2 !! xml_path = Some root) by apply lookup_insert_eq.
  assert (Hshape2 : shape_read w2 data_path true setup_id timepoint = Ok shape).
  { rewrite <- Hshape. apply shape_read_containers. reflexivity. }
  destruct (build_xml_again w2 xml_path data_path unit resolution true setup_id timepoint
              setup_name affine attributes root shape reg Hwritten Hreg Hroot Hshape2)
    as (vregs & Hvr & Hlast & Hagain).
  exists root, vregs, reg.
  split; [exact Hroot|]. split; [exact Hvr|]. split; [exact Hlast|].
  split; [|split].
  - eapply write_h5_metadata_again; [exact Hh5 | reflexivity].
  - unfold write_xml_metadata. rewrite Hagain. reflexivity.
  - apply ETFacts.find_put_ne; [discriminate|]. cbn.
    eapply ETFacts.find_tag. exact Hvr.
Qed.

End Rewrite.

(** Integral floats print as one field, parse back and equal themselves. *)
Lemma printable_example : Forall printable [1; 2; 3].
Proof.
  repeat (apply List.Forall_cons;
          [split; [split; [discriminate | reflexivity] | split; reflexivity]|]).
  apply List.Forall_nil.
Qed.

Lemma wf_example : Dict.wf [("channel", 0)].
Proof. apply NoDup_singleton. Qed.

Lemma rewrite_same_setup_witness :
  exists root vregs registration,
    xml_files example_setup_written !! "d.xml" = Some root
    /\ find "ViewRegistrations" root = Some vregs
    /\ last (children vregs) = Some registration
    /\ write_h5_metadata example_setup_written "d.h5" example_factors 0 0
       = (example_setup_written, Ok tt)
    /\ (example_write example_setup_written 0).2 = Ok tt.
Proof.
  assert (Hname : forall name, @None string = Some name -> PyStr.plain name = true)
    by (intros name Hn; discriminate Hn).
  destruct (rewrite_same_setup example_world example_h5_written example_setup_written
              "d.xml" "d.h5" "pixel" [1; 2; 3] 0 0 None None [("channel", 0)]
              example_factors wf_example printable_example Hname
              eq_refl eq_refl eq_refl)
    as (root & vregs & reg & Hroot & Hvr & Hlast & Hh5 & Hxml & _).
  exists root, vregs, reg.
  split; [exact Hroot|]. split; [exact Hvr|]. split; [exact Hlast|].
  split; [exact Hh5|].
  unfold example_write. rewrite Hxml. reflexivity.
Defined.

(** C1 does not hold as stated: the document after the second identical
    write differs from the document after the first. *)
Lemma rewrite_same_setup_changes_document :
  (example_write example_h5_written 0).2 = Ok tt
  /\ (example_write example_setup_written 0).2 = Ok tt
  /\ xml_files (example_write example_setup_written 0).1 !! "d.xml"
     <> xml_files example_setup_written !! "d.xml".
Proof.
  split; [reflexivity|]. split; [reflexivity|].
  intros Heq. vm_compute in Heq. discriminate Heq.
Qed.

(** The name of the setup has to be plain text for the second write to
    succeed: with [setup_name=''] the file has a [name] element without
    text, and the second identical call finds [None != ''] and raises. *)
Lemma rewrite_empty_name_raises :
  (example_unnamed_write example_h5_written "pixel").2 = Ok tt
  /\ example_unnamed_write example_unnamed "pixel"
     = (example_unnamed, Err (ValueError "Incompatible setup name")).
Proof. split; reflexivity. Qed.

Section TimeRange.

Context {F : Type} `{PyFloat F}.

Lemma get_time_range_root (w : world F) xml_path root :
  xml_files w !! xml_path = Some root ->
  get_time_range w xml_path = root_time_range root.
Proof. intros Hr. unfold get_time_range. rewrite Hr. reflexivity. Qed.

(** The range after a successful write, from the range before. *)
Lemma write_xml_metadata_range (w w' : world F) xml_path data_path unit (res : list F)
    is_h5 sid tp name aff attributes :
  write_xml_metadata w xml_path data_path unit res is_h5 sid tp name aff attributes
  = (w', Ok tt) ->
  match xml_files w !! xml_path with
  | Some _ =>
      exists first last,
        get_time_range w xml_path = Ok (first, last)
        /\ get_time_range w' xml_path = Ok (Z.min first tp, Z.max last tp)
  | None => get_time_range w' xml_path = Ok (tp, tp)
  end.
Proof.
  intros Hw. apply write_xml_metadata_Ok in Hw as (root & Hb & ->).
  apply build_xml_time_range in Hb as (fi & la & Hr & Hcase).
  rewrite (get_time_range_root (mkWorld (<[xml_path := root]> (xml_files w)) (containers w))
             xml_path root) by apply lookup_insert_eq.
  destruct (xml_files w !! xml_path) as [root0|] eqn:H0.
  - destruct Hcase as (f0 & l0 & Hr0 & -> & ->).
    exists f0, l0. rewrite (get_time_range_root _ _ root0 H0). auto.
  - destruct Hcase as [-> ->]. exact Hr.
Qed.

End TimeRange.

(** C7: a successful [write_xml_metadata] on an existing document turns the
    range [first, last] into [min(first, timepoint), max(last, timepoint)],
    which includes the old range; on a new document the range is
    [timepoint, timepoint]; writing the timepoints 2, 0 and 5 to one
    document gives the range [0, 5]. *)
Theorem write_xml_metadata_time_range :
  (forall (F : Type) (HF : PyFloat F) (w w' : world F) (xml_path data_path unit : string)
          (resolution : list F) (is_h5 : bool) (setup_id timepoint : Z)
          (setup_name : option string) (affine : option (affine_arg F))
          (attributes : dict Z),
      write_xml_metadata w xml_path data_path unit resolution is_h5 setup_id timepoint
                         setup_name affine attributes = (w', Ok tt) ->
      match xml_files w !! xml_path with
      | Some _ =>
          exists first last,
            get_time_range w xml_path = Ok (first, last)
            /\ get_time_range w' xml_path
               = Ok (Z.min first timepoint, Z.max last timepoint)
            /\ Z.min first timepoint <= first /\ last <= Z.max last timepoint
      | None => get_time_range w' xml_path = Ok (timepoint, timepoint)
      end)
  /\ (let w2 := example_write example_world 2 in
      let w0 := example_write w2.1 0 in
      let w5 := example_write w0.1 5 in
      w2.2 = Ok tt /\ w0.2 = Ok tt /\ w5.2 = Ok tt
      /\ get_time_range w2.1 "d.xml" = Ok (2, 2)
      /\ get_time_range w0.1 "d.xml" = Ok (0, 2)
      /\ get_time_range w5.1 "d.xml" = Ok (0, 5)).
Proof.
  split.
  - intros F HF w w' xml_path data_path unit resolution is_h5 setup_id timepoint
           setup_name affine attributes Hw.
    pose proof (write_xml_metadata_range _ _ _ _ _ _ _ _ _ _ _ _ Hw) as Hr.
    destruct (xml_files w !! xml_path); [|exact Hr].
    destruct Hr as (first & last & H0 & H1). exists first, last.
    split; [exact H0|]. split; [exact H1|]. lia.
  - cbv zeta. repeat split; vm_compute; reflexivity.
Qed.

Lemma write_xml_metadata_time_range_witness :
  get_time_range (example_write example_setup_written 5).1 "d.xml" = Ok (0, 5).
Proof.
  destruct write_xml_metadata_time_range as [Hgen _].
  pose proof (Hgen Z _ example_setup_written (example_write example_setup_written 5).1
                "d.xml" "d.h5" "pixel" [1; 2; 3] true 0 5 None None [("channel", 0)]
                eq_refl) as Hr.
  change (xml_files example_setup_written !! "d.xml") with
    (Some (default (new "") (xml_files example_setup_written !! "d.xml"))) in Hr.
  cbv beta iota in Hr. destruct Hr as (first & last & H0 & H1 & _).
  vm_compute in H0. injection H0 as <- <-. exact H1.
Defined.

Section Mismatch.

Context {F : Type} `{FloatEq F}.

(** A [ViewSetup] element that passes the check fixes the outcome of the
    check for any other parameters: the comparisons are made in the order
    name, size, unit, voxel size, attributes. *)
Lemma check_setup_cases (name unit : string) (nx ny nz : Z) (dx dy dz : F)
    (attributes : dict Z) (vs : Element) :
  _check_setup name nx ny nz dx dy dz attributes unit vs = Ok tt ->
  exists nm shape_exp u res_exp view_attrs,
    text_is nm name = true
    /\ list_eqb Z.eqb shape_exp [nx; ny; nz] = true
    /\ text_is u unit = true
    /\ list_eqb feqb res_exp [dx; dy; dz] = true
    /\ Dict.eqb Z.eqb view_attrs attributes = true
    /\ Dict.wf view_attrs
    /\ forall name' unit' nx' ny' nz' dx' dy' dz' attributes',
         _check_setup name' nx' ny' nz' dx' dy' dz' attributes' unit' vs
         = if negb (text_is nm name') then Err (ValueError "Incompatible setup name")
           else if negb (list_eqb Z.eqb shape_exp [nx'; ny'; nz'])
           then Err (ValueError "Incompatible dataset size")
           else if negb (text_is u unit')
           then Err (ValueError "Incompatible unit of measurement")
           else if negb (list_eqb feqb res_exp [dx'; dy'; dz'])
           then Err (ValueError "Incompatible voxel size")
           else if negb (Dict.eqb Z.eqb view_attrs attributes')
           then Err (ValueError "Incompatible view attributes")
           else Ok tt.
Proof.
  unfold _check_setup. intros Hc.
  apply bind_Ok in Hc as (nm & Hnm & Hc).
  destruct (text_is nm name) eqn:Hname; cbn [negb] in Hc; [|discriminate].
  apply bind_Ok in Hc as (sz & Hsz & Hc).
  apply bind_Ok in Hc as (strs & Hstrs & Hc).
  apply bind_Ok in Hc as (shape_exp & Hshape & Hc).
  destruct (list_eqb Z.eqb shape_exp [nx; ny; nz]) eqn:Hsize; cbn [negb] in Hc; [|discriminate].
  apply bind_Ok in Hc as (vox & Hvox & Hc).
  apply bind_Ok in Hc as (u & Hu & Hc).
  destruct (text_is u unit) eqn:Hunit; cbn [negb] in Hc; [|discriminate].
  apply bind_Ok in Hc as (vsz & Hvsz & Hc).
  apply bind_Ok in Hc as (rstrs & Hrstrs & Hc).
  apply bind_Ok in Hc as (res_exp & Hres & Hc).
  destruct (list_eqb feqb res_exp [dx; dy; dz]) eqn:Hvoxel; cbn [negb] in Hc; [|discriminate].
  apply bind_Ok in Hc as (at' & Hat & Hc).
  apply bind_Ok in Hc as (view_attrs & Hview & Hc).
  destruct (Dict.eqb Z.eqb view_attrs attributes) eqn:Hattrs; cbn [negb] in Hc; [|discriminate].
  exists nm, shape_exp, u, res_exp, view_attrs.
  repeat (split; [assumption|]). split.
  - unfold tag_ids in Hview. apply bind_Ok in Hview as (items & _ & Hview).
    injection Hview as <-. apply DictEq.of_items_is_wf.
  - intros. rewrite Hnm. cbn [mbind result_bind].
    destruct (text_is nm name'); cbn [negb]; [|reflexivity].
    rewrite Hsz. cbn [mbind result_bind]. rewrite Hstrs. cbn [mbind result_bind].
    rewrite Hshape. cbn [mbind result_bind].
    destruct (list_eqb Z.eqb shape_exp [nx'; ny'; nz']); cbn [negb]; [|reflexivity].
    rewrite Hvox. cbn [mbind result_bind]. rewrite Hu. cbn [mbind result_bind].
    destruct (text_is u unit'); cbn [negb]; [|reflexivity].
    rewrite Hvsz. cbn [mbind result_bind]. rewrite Hrstrs. cbn [mbind result_bind].
    rewrite Hres. cbn [mbind result_bind].
    destruct (list_eqb feqb res_exp [dx'; dy'; dz']); cbn [negb]; [|reflexivity].
    rewrite Hat. cbn [mbind result_bind]. rewrite Hview. reflexivity.
Qed.

Lemma text_is_other (e : Element) (s s' : string) :
  text_is e s = true -> s' <> s -> text_is e s' = false.
Proof.
  unfold text_is. destruct (text e) as [t|]; [|discriminate].
  intros Ht Hne. apply String.eqb_eq in Ht. subst t. apply String.eqb_neq. auto.
Qed.

Lemma list_eqb_Z_other (l a b : list Z) :
  list_eqb Z.eqb l a = true -> b <> a -> list_eqb Z.eqb l b = false.
Proof.
  intros Ha Hne. apply list_eqb_Z in Ha. subst l. apply not_true_iff_false.
  intros Hb. apply list_eqb_Z in Hb. congruence.
Qed.

Lemma list_eqb_feqb_other (l a b : list F) :
  list_eqb feqb l a = true -> list_eqb feqb a b = false -> list_eqb feqb l b = false.
Proof.
  revert a b. induction l as [|x l IH]; intros [|y a] [|z b]; cbn; try congruence.
  rewrite andb_true_iff. intros [Hxy Hla] Hab.
  destruct (feqb x z) eqn:Hxz; [|reflexivity]. cbn.
  assert (Hyz : feqb y z = true).
  { apply (feqb_trans y x z); [rewrite feqb_sym; exact Hxy | exact Hxz]. }
  rewrite Hyz in Hab. cbn in Hab. eapply IH; eassumption.
Qed.

End Mismatch.

Section MismatchTheorem.

Context {F : Type} `{FloatEq F}.

(** On a document that holds the setup, [write_xml_metadata] with other
    parameters gets as far as the check of the setup, and fails as the
    check fails. *)
Lemma build_xml_mismatch (w' : world F) xml_path data_path is_h5 sid tp root
    (name0 unit0 : string) (res0 : list F) (shape0 : list Z) (attributes0 : dict Z) reg :
  setup_written root sid tp name0 unit0 res0 shape0 attributes0 reg ->
  xml_files w' !! xml_path = Some root ->
  exists dz dy dx nz ny nx nm shape_exp u res_exp view_attrs,
    res0 = [dz; dy; dx] /\ shape0 = [nz; ny; nx]
    /\ text_is nm name0 = true
    /\ list_eqb Z.eqb shape_exp [nx; ny; nz] = true
    /\ text_is u unit0 = true
    /\ list_eqb feqb res_exp [dx; dy; dz] = true
    /\ Dict.eqb Z.eqb view_attrs attributes0 = true
    /\ Dict.wf view_attrs
    /\ forall name' unit' dz' dy' dx' nz' ny' nx' attributes' aff' e,
         shape_read w' data_path is_h5 sid tp = Ok [nz'; ny'; nx'] ->
         (attributes' = attributes0
          \/ forall setups name,
               doc_setups w' xml_path = Some setups ->
               In name (registered_names setups) -> In name (Dict.keys attributes')) ->
         (if negb (text_is nm (default ("Setup" ++ PyStr.str sid) name'))
          then Err (ValueError "Incompatible setup name")
          else if negb (list_eqb Z.eqb shape_exp [nx'; ny'; nz'])
          then Err (ValueError "Incompatible dataset size")
          else if negb (text_is u unit')
          then Err (ValueError "Incompatible unit of measurement")
          else if negb (list_eqb feqb res_exp [dx'; dy'; dz'])
          then Err (ValueError "Incompatible voxel size")
          else if negb (Dict.eqb Z.eqb view_attrs attributes')
          then Err (ValueError "Incompatible view attributes")
          else Ok tt) = Err e ->
         build_xml w' xml_path data_path unit' [dz'; dy'; dx'] is_h5 sid tp name' aff'
                   attributes' = Err e.
Proof.
  intros (seqdesc & viewsets & tpoints & vregs0 & vs & first & last' & fi & la
          & dz & dy & dx & nz & ny & nx & -> & -> & Hsd & Hvs & Htp & Hvr & Hfix
          & Hfound & Hcheck & Hf & Hft & Hfi & Hl & Hlt & Hla) Hroot.
  destruct (check_setup_cases _ _ _ _ _ _ _ _ _ _ Hcheck)
    as (nm & shape_exp & u & res_exp & view_attrs & Hn & Hs & Hu & Hr & Ha & Hwfv & Hcases).
  exists dz, dy, dx, nz, ny, nx, nm, shape_exp, u, res_exp, view_attrs.
  repeat (split; [assumption || reflexivity|]).
  intros name' unit' dz' dy' dx' nz' ny' nx' attributes' aff' e Hshape Hsub Hchain.
  rewrite build_xml_unfold. unfold shape_read in Hshape.
  apply bind_Ok in Hshape as (f & Hopen & Hshape).
  apply bind_Ok in Hshape as (ds & Hds & Hshape). injection Hshape as Hshape.
  rewrite Hopen. cbn [mbind result_bind]. rewrite Hds. cbn [mbind result_bind].
  rewrite Hroot.
  assert (Hnames : forall name, In name (registered_names viewsets) ->
                                In name (Dict.keys attributes')).
  { destruct Hsub as [->|Hsub]; [intros name; apply registries_fixed_names, Hfix|].
    intros name. apply (Hsub viewsets name). unfold doc_setups. rewrite Hroot. cbn [mbind option_bind].
    rewrite Hsd. exact Hvs. }
  destruct (load_document_again root seqdesc viewsets tpoints first last' fi la tp
              attributes0 attributes' Hsd Hvs Htp Hf Hft Hfi Hl Hlt Hla Hfix Hnames)
    as (viewsets' & _ & Hall & Hload).
  rewrite Hload. cbn [mbind result_bind h_viewsets h_vregs]. rewrite Hshape.
  rewrite <- Hall in Hfound.
  rewrite (require_view_setup_found _ _ _ _ _ _ _ _ _ _ _ _ Hfound).
  rewrite Hcases, Hchain. reflexivity.
Qed.

Lemma write_xml_metadata_Err (w : world F) xml_path data_path unit (res : list F)
    is_h5 sid tp name aff attributes e :
  build_xml w xml_path data_path unit res is_h5 sid tp name aff attributes = Err e ->
  write_xml_metadata w xml_path data_path unit res is_h5 sid tp name aff attributes
  = (w, Err e).
Proof. intros Hb. unfold write_xml_metadata. rewrite Hb. reflexivity. Qed.

(** C3, as the code has it: after a setup was written, with a name (if one
    is given) and a unit that are plain text and a resolution without NaN,
    writing the same setup id again with one parameter changed fails, with
    the error of that parameter, and leaves the files as they are.  A
    different name gives the name error, a different unit the unit error, a
    different voxel size the voxel-size error, a different shape of the
    stored array the size error.  A different attribute mapping gives the
    attributes error when it has every attribute name that is registered
    in the document. *)
Theorem write_xml_metadata_mismatch (w w1 : world F) (xml_path data_path unit : string)
    (resolution : list F) (is_h5 : bool) (setup_id timepoint : Z)
    (setup_name : option string) (affine : option (affine_arg F))
    (attributes : dict Z) :
  Dict.wf attributes -> Forall printable resolution ->
  (forall name, setup_name = Some name -> PyStr.plain name = true) ->
  PyStr.plain unit = true ->
  write_xml_metadata w xml_path data_path unit resolution is_h5 setup_id timepoint
                     setup_name affine attributes = (w1, Ok tt) ->
  (forall setup_name',
      default ("Setup" ++ PyStr.str setup_id) setup_name'
      <> default ("Setup" ++ PyStr.str setup_id) setup_name ->
      write_xml_metadata w1 xml_path data_path unit resolution is_h5 setup_id timepoint
                         setup_name' affine attributes
      = (w1, Err (ValueError "Incompatible setup name")))
  /\ (forall unit',
        unit' <> unit ->
        write_xml_metadata w1 xml_path data_path unit' resolution is_h5 setup_id timepoint
                           setup_name affine attributes
        = (w1, Err (ValueError "Incompatible unit of measurement")))
  /\ (forall resolution',
        length resolution' = 3%nat ->
        list_eqb feqb resolution resolution' = false ->
        write_xml_metadata w1 xml_path data_path unit resolution' is_h5 setup_id timepoint
                           setup_name affine attributes
        = (w1, Err (ValueError "Incompatible voxel size")))
  /\ (forall w1' shape',
        xml_files w1' = xml_files w1 ->
        shape_read w1' data_path is_h5 setup_id timepoint = Ok shape' ->
        length shape' = 3%nat ->
        shape_read w data_path is_h5 setup_id timepoint <> Ok shape' ->
        write_xml_metadata w1' xml_path data_path unit resolution is_h5 setup_id timepoint
                           setup_name affine attributes
        = (w1', Err (ValueError "Incompatible dataset size")))
  /\ (forall attributes',
        Dict.wf attributes' ->
        Dict.eqb Z.eqb attributes attributes' = false ->
        (forall setups name,
            doc_setups w1 xml_path = Some setups ->
            In name (registered_names setups) -> In name (Dict.keys attributes')) ->
        write_xml_metadata w1 xml_path data_path unit resolution is_h5 setup_id timepoint
                           setup_name affine attributes'
        = (w1, Err (ValueError "Incompatible view attributes"))).
Proof.
  intros Hwf Hpr Hname Hunit Hw.
  apply write_xml_metadata_Ok in Hw as (root & Hb & ->).
  destruct (build_xml_written _ _ _ _ _ _ _ _ _ _ _ _ Hwf Hpr
              (TextFacts.default_name_plain _ _ Hname) Hunit Hb)
    as (shape & reg & Hshape & Hreg & Hwritten).
  set (w1 := mkWorld (<[xml_path := root]> (xml_files w)) (containers w)) in *.
  assert (Hroot : xml_files w1 !! xml_path = Some root) by apply lookup_insert_eq.
  assert (Hshape1 : shape_read w1 data_path is_h5 setup_id timepoint = Ok shape).
  { rewrite <- Hshape. apply shape_read_containers. reflexivity. }
  split; [|split; [|split; [|split]]].
  - intros name' Hne.
    destruct (build_xml_mismatch w1 xml_path data_path is_h5 _ _ _ _ _ _ _ _ _ Hwritten Hroot)
      as (dz & dy & dx & nz & ny & nx & nm & shape_exp & u & res_exp & view_attrs
          & -> & -> & Hn & Hs & Hu & Hr & Ha & Hwfv & Hcases).
    apply write_xml_metadata_Err. eapply Hcases; [exact Hshape1 | auto |].
    rewrite (text_is_other _ _ _ Hn Hne). reflexivity.
  - intros unit' Hne.
    destruct (build_xml_mismatch w1 xml_path data_path is_h5 _ _ _ _ _ _ _ _ _ Hwritten Hroot)
      as (dz & dy & dx & nz & ny & nx & nm & shape_exp & u & res_exp & view_attrs
          & -> & -> & Hn & Hs & Hu & Hr & Ha & Hwfv & Hcases).
    apply write_xml_metadata_Err. eapply Hcases; [exact Hshape1 | auto |].
    rewrite Hn, Hs, (text_is_other _ _ _ Hu Hne). reflexivity.
  - intros res' Hlen Hneq.
    destruct (build_xml_mismatch w1 xml_path data_path is_h5 _ _ _ _ _ _ _ _ _ Hwritten Hroot)
      as (dz & dy & dx & nz & ny & nx & nm & shape_exp & u & res_exp & view_attrs
          & -> & -> & Hn & Hs & Hu & Hr & Ha & Hwfv & Hcases).
    destruct res' as [|dz' [|dy' [|dx' [|]]]]; try discriminate Hlen.
    apply write_xml_metadata_Err. eapply Hcases; [exact Hshape1 | auto |].
    assert (Hrev : list_eqb feqb [dx; dy; dz] [dx'; dy'; dz'] = false).
    { cbn in Hneq |- *. destruct (feqb dz dz'), (feqb dy dy'), (feqb dx dx');
        cbn in Hneq |- *; congruence. }
    rewrite Hn, Hs, Hu, (list_eqb_feqb_other _ _ _ Hr Hrev). reflexivity.
  - intros w1' shape' Hxml Hshape' Hlen Hneq.
    assert (Hroot' : xml_files w1' !! xml_path = Some root) by (rewrite Hxml; exact Hroot).
    destruct (build_xml_mismatch w1' xml_path data_path is_h5 _ _ _ _ _ _ _ _ _ Hwritten Hroot')
      as (dz & dy & dx & nz & ny & nx & nm & shape_exp & u & res_exp & view_attrs
          & -> & -> & Hn & Hs & Hu & Hr & Ha & Hwfv & Hcases).
    destruct shape' as [|nz' [|ny' [|nx' [|]]]]; try discriminate Hlen.
    apply write_xml_metadata_Err. eapply Hcases; [exact Hshape' | auto |].
    rewrite Hn. cbn [negb].
    rewrite (list_eqb_Z_other _ _ [nx'; ny'; nz'] Hs); [reflexivity|].
    intros [= -> -> ->]. apply Hneq. exact Hshape.
  - intros attributes' Hwf' Hneq Hsub.
    destruct (build_xml_mismatch w1 xml_path data_path is_h5 _ _ _ _ _ _ _ _ _ Hwritten Hroot)
      as (dz & dy & dx & nz & ny & nx & nm & shape_exp & u & res_exp & view_attrs
          & -> & -> & Hn & Hs & Hu & Hr & Ha & Hwfv & Hcases).
    apply write_xml_metadata_Err. eapply Hcases; [exact Hshape1 | right; exact Hsub |].
    rewrite Hn, Hs, Hu, Hr, (DictEq.eqb_neq_trans _ _ _ Hwfv Hwf Hwf' Ha Hneq). reflexivity.
Qed.

End MismatchTheorem.

Lemma write_xml_metadata_mismatch_witness :
  write_xml_metadata example_setup_written "d.xml" "d.h5" "pixel" [1; 2; 3] true 0 0
                     (Some "other") None [("channel", 0)]
  = (example_setup_written, Err (ValueError "Incompatible setup name"))
  /\ write_xml_metadata example_setup_written "d.xml" "d.h5" "pixel" [1; 2; 3] true 0 0
                        None None [("channel", 1)]
     = (example_setup_written, Err (ValueError "Incompatible view attributes")).
Proof.
  assert (Hplain : forall name, @None string = Some name -> PyStr.plain name = true)
    by (intros name Hn; discriminate Hn).
  destruct (write_xml_metadata_mismatch example_h5_written example_setup_written
              "d.xml" "d.h5" "pixel" [1; 2; 3] true 0 0 None None [("channel", 0)]
              wf_example printable_example Hplain eq_refl eq_refl)
    as (Hname & _ & _ & _ & Hattrs).
  split.
  - apply Hname. discriminate.
  - apply Hattrs; [apply NoDup_singleton | reflexivity |].
    intros setups name Hdoc Hin. vm_compute in Hdoc. injection Hdoc as <-.
    vm_compute in Hin. destruct Hin as [<-|[]]. left. reflexivity.
Defined.

(** C3 does not hold as stated for every attribute mismatch: a mapping
    that lacks the registered name [channel] makes the call fail with the
    assertion of [_update_attributes], not with the attributes error. *)
Lemma write_xml_metadata_missing_attribute :
  write_xml_metadata example_setup_written "d.xml" "d.h5" "pixel" [1; 2; 3] true 0 0
                     None None [("tile", 0)]
  = (example_setup_written, Err (AssertionError "channel"))
  /\ Err (A := ()) (AssertionError "channel")
     <> Err (ValueError "Incompatible view attributes").
Proof. split; [reflexivity | discriminate]. Qed.

(** The name of the first call has to be plain text for the later checks to
    be reached: after a write with [setup_name=''], a call that changes
    the unit only fails at the comparison of the names. *)
Lemma mismatch_after_empty_name :
  example_unnamed_write example_unnamed "micrometer"
  = (example_unnamed, Err (ValueError "Incompatible setup name")).
Proof. reflexivity. Qed.

(** ** What a write leaves in the document, part by part *)

Section DocumentParts.

Context {F : Type} `{PyFloat F}.

Lemma load_document_parts (root : Element) (tp : Z) (attributes : dict Z) (h : handles) :
  load_document root tp attributes = Ok h ->
  exists seqdesc viewsets0,
    find "SequenceDescription" root = Some seqdesc
    /\ find "ViewSetups" seqdesc = Some viewsets0
    /\ _update_attributes viewsets0 attributes = Ok (h_viewsets h)
    /\ h_root h = root /\ h_seqdesc h = seqdesc
    /\ h_vregs h = find "ViewRegistrations" root.
Proof.
  unfold load_document. intros Hl.
  apply bind_Ok in Hl as (seqdesc & Hsd & Hl). apply deref_Ok in Hsd.
  apply bind_Ok in Hl as (viewsets0 & Hvs & Hl). apply deref_Ok in Hvs.
  apply bind_Ok in Hl as (viewsets & Hup & Hl).
  apply bind_Ok in Hl as (tpoints & _ & Hl).
  apply bind_Ok in Hl as (first & _ & Hl).
  apply bind_Ok in Hl as (fi & _ & Hl).
  apply bind_Ok in Hl as (last & _ & Hl).
  apply bind_Ok in Hl as (la & _ & Hl).
  injection Hl as <-. exists seqdesc, viewsets0. cbn. auto 10.
Qed.

(** [_require_view_setup] either finds the setup, checks it and changes
    nothing, or finds no setup with the id and appends a new one. *)
Lemma require_view_setup_cases (v0 v1 : Element) (sid : Z) (name unit : string)
    (res : list F) (shape : list Z) (attributes : dict Z) :
  _require_view_setup v0 sid name res shape attributes unit = Ok v1 ->
  exists dz dy dx nz ny nx,
    res = [dz; dy; dx] /\ shape = [nz; ny; nx]
    /\ ((exists vs, first_with_id sid (findall "ViewSetup" v0) = Ok (Some vs)
                    /\ _check_setup name nx ny nz dx dy dz attributes unit vs = Ok tt
                    /\ v1 = v0)
        \/ (first_with_id sid (findall "ViewSetup" v0) = Ok None
            /\ v1 = SubElement v0 (new_view_setup sid name nx ny nz dx dy dz
                                                  attributes unit))).
Proof.
  unfold _require_view_setup. intros Hr.
  apply bind_Ok in Hr as ([[dz dy] dx] & Hres & Hr). apply unpack3_Ok in Hres.
  apply bind_Ok in Hr as ([[nz ny] nx] & Hsh & Hr). apply unpack3_Ok in Hsh.
  apply bind_Ok in Hr as (found & Hfound & Hr).
  exists dz, dy, dx, nz, ny, nx. split; [exact Hres|]. split; [exact Hsh|].
  destruct found as [vs|].
  - apply bind_Ok in Hr as ([] & Hcheck & Hr). injection Hr as <-. left. eauto.
  - injection Hr as <-. right. auto.
Qed.

Lemma assemble_seqdesc (h : handles) (fi la : Z) (viewsets vregs' : Element) :
  handles_shape h fi la ->
  tag vregs' = "ViewRegistrations" ->
  find "SequenceDescription" (assemble h viewsets vregs')
  = Some (put "Timepoints" (h_tpoints h) (put "ViewSetups" viewsets (h_seqdesc h))).
Proof.
  intros (Hsd & _) Hr'. unfold assemble.
  rewrite ETFacts.find_put_ne by (discriminate || exact Hr').
  eapply ETFacts.find_put_eq; [exact Hsd|].
  rewrite !tag_put. eapply ETFacts.find_tag. exact Hsd.
Qed.

(** A successful [write_xml_metadata], step by step: the handles it started
    from, the [ViewSetups] element after [_require_view_setup], the
    registration it appended, and where they are in the tree it wrote. *)
Lemma build_xml_parts (w : world F) xml_path data_path unit (res : list F) is_h5
    sid tp name aff attributes root1 :
  build_xml w xml_path data_path unit res is_h5 sid tp name aff attributes = Ok root1 ->
  exists h viewsets1 vregs reg seqdesc1 shape,
    match xml_files w !! xml_path with
    | Some root => load_document root tp attributes
    | None => Ok (new_document data_path is_h5 tp attributes)
    end = Ok h
    /\ shape_read w data_path is_h5 sid tp = Ok shape
    /\ _require_view_setup (h_viewsets h) sid (default ("Setup" ++ PyStr.str sid) name)
                           res shape attributes unit = Ok viewsets1
    /\ h_vregs h = Some vregs
    /\ registration_of sid tp res aff = Some reg
    /\ find "SequenceDescription" root1 = Some seqdesc1
    /\ find "ViewSetups" seqdesc1 = Some viewsets1
    /\ find "ViewRegistrations" root1 = Some (SubElement vregs reg)
    /\ find "ImageLoader" seqdesc1 = find "ImageLoader" (h_seqdesc h).
Proof.
  rewrite build_xml_unfold. intros Hb.
  apply bind_Ok in Hb as (f & Hf & Hb). apply bind_Ok in Hb as (ds & Hds & Hb).
  apply bind_Ok in Hb as (h & Hh & Hb). apply bind_Ok in Hb as (viewsets & Hreq & Hb).
  apply bind_Ok in Hb as (vregs & Hv & Hb). apply bind_Ok in Hb as (vregs' & Haff & Hb).
  injection Hb as <-.
  destruct (handles_of_document _ _ _ _ _ _ _ Hh) as (fi & la & Hs & _).
  destruct (h_vregs h) as [v|] eqn:Hhv; [|discriminate]. injection Hv as ->.
  apply affine_step_spec in Haff as (reg & Hreg & ->).
  assert (Htv : tag viewsets = "ViewSetups").
  { rewrite (require_view_setup_tag _ _ _ _ _ _ _ _ Hreq). apply Hs. }
  assert (Htr : tag (SubElement vregs reg) = "ViewRegistrations").
  { cbn. eapply ETFacts.find_tag. destruct Hs as (_ & _ & _ & _ & _ & Hvr & _).
    rewrite <- Hvr. exact Hhv. }
  destruct (assemble_finds h fi la viewsets vregs _ Hs Htv Hhv Htr)
    as (sd' & Hsd & Hvs & _ & Hvr).
  exists h, viewsets, vregs, reg, sd', (a_shape (ds_data ds)).
  split; [exact Hh|].
  split; [unfold shape_read; rewrite Hf; cbn; rewrite Hds; reflexivity|].
  split; [exact Hreq|]. split; [exact Hhv|]. split; [exact Hreg|].
  split; [exact Hsd|]. split; [exact Hvs|]. split; [exact Hvr|].
  rewrite (assemble_seqdesc h fi la viewsets _ Hs Htr) in Hsd. injection Hsd as <-.
  rewrite ETFacts.find_put_ne by (discriminate || apply Hs).
  rewrite ETFacts.find_put_ne by (discriminate || exact Htv). reflexivity.
Qed.

(** The attribute mapping that a checked setup records. *)
Lemma check_setup_attributes (name unit : string) (nx ny nz : Z) (dx dy dz : F)
    (attributes : dict Z) (vs : Element) :
  _check_setup name nx ny nz dx dy dz attributes unit vs = Ok tt ->
  exists a d, find "attributes" vs = Some a /\ tag_ids a = Ok d
              /\ Dict.eqb Z.eqb d attributes = true.
Proof.
  unfold _check_setup. intros Hc.
  apply bind_Ok in Hc as (nm & _ & Hc).
  destruct (negb (text_is nm name)); [discriminate|].
  apply bind_Ok in Hc as (size & _ & Hc).
  apply bind_Ok in Hc as (se & _ & Hc). apply bind_Ok in Hc as (shape_exp & _ & Hc).
  destruct (negb (list_eqb Z.eqb shape_exp [nx; ny; nz])); [discriminate|].
  apply bind_Ok in Hc as (vox & _ & Hc). apply bind_Ok in Hc as (u & _ & Hc).
  destruct (negb (text_is u unit)); [discriminate|].
  apply bind_Ok in Hc as (vsize & _ & Hc).
  apply bind_Ok in Hc as (re & _ & Hc). apply bind_Ok in Hc as (res_exp & _ & Hc).
  destruct (negb (list_eqb feqb res_exp [dx; dy; dz])); [discriminate|].
  apply bind_Ok in Hc as (a & Ha & Hc). apply deref_Ok in Ha.
  apply bind_Ok in Hc as (d & Hd & Hc).
  destruct (Dict.eqb Z.eqb d attributes) eqn:He; [|discriminate].
  exists a, d. auto.
Qed.

Lemma tag_ids_wf (a : Element) (d : dict Z) : tag_ids a = Ok d -> Dict.wf d.
Proof.
  unfold tag_ids. intros Ht. apply bind_Ok in Ht as (items & _ & Ht).
  injection Ht as <-. apply DictEq.of_items_is_wf.
Qed.

Lemma first_with_id_snoc (s i : Z) (l : list Element) (v : Element) :
  id_of v = Ok i -> i <> s ->
  first_with_id s (l ++ [v]) = first_with_id s l.
Proof.
  intros Hv Hne. induction l as [|a l IH]; cbn [app first_with_id].
  - rewrite Hv. cbn. apply Z.eqb_neq in Hne. rewrite Hne. reflexivity.
  - destruct (id_of a) as [j|e]; cbn; [|reflexivity].
    destruct (Z.eqb j s); [reflexivity | exact IH].
Qed.

Lemma parse_root_written (w : world F) xml_path (root : Element) :
  parse_root (mkWorld (<[xml_path := root]> (xml_files w)) (containers w)) xml_path
  = Ok root.
Proof. unfold parse_root. cbn. rewrite lookup_insert_eq. reflexivity. Qed.

End DocumentParts.

(** ** [get_attributes] and [get_resolution] after a write *)

Section SetupReaders.

Context {F : Type} `{PyFloat F}.

Lemma first_with_id_new_setup (sid : Z) (v0 : Element) (name unit : string)
    (nx ny nz : Z) (dx dy dz : F) (attributes : dict Z) :
  first_with_id sid (findall "ViewSetup" v0) = Ok None ->
  first_with_id sid
    (findall "ViewSetup"
       (SubElement v0 (new_view_setup sid name nx ny nz dx dy dz attributes unit)))
  = Ok (Some (new_view_setup sid name nx ny nz dx dy dz attributes unit)).
Proof.
  intros Hnone. rewrite ETFacts.findall_SubElement.
  rewrite (first_with_id_app_None _ _ _ Hnone).
  change (has_tag "ViewSetup" (new_view_setup _ _ _ _ _ _ _ _ _ _)) with true.
  cbn [first_with_id]. rewrite id_of_new_view_setup. cbn [mbind result_bind].
  rewrite Z.eqb_refl. reflexivity.
Qed.

Lemma get_attributes_unfold (w : world F) xml_path root seqdesc setups sid :
  parse_root w xml_path = Ok root ->
  find "SequenceDescription" root = Some seqdesc ->
  find "ViewSetups" seqdesc = Some setups ->
  get_attributes w xml_path sid
  = (found ← first_with_id sid (findall "ViewSetup" setups);
     match found with
     | Some viewset =>
         match find "attributes" viewset with
         | Some attributes => tag_ids attributes
         | None => Err TypeError
         end
     | None => Err (ValueError ("Could not find setup " ++ PyStr.str sid))
     end).
Proof.
  intros Hp Hsd Hvs. unfold get_attributes. rewrite Hp. cbn [mbind result_bind].
  rewrite Hsd. cbn [mbind result_bind deref]. rewrite Hvs. reflexivity.
Qed.

(** X1: [get_attributes] reads back the attribute mapping that
    [write_xml_metadata] was called with, for a setup that the call created
    and for a setup that it found and checked. *)
Theorem get_attributes_after_write (w w1 : world F) (xml_path data_path unit : string)
    (resolution : list F) (is_h5 : bool) (setup_id timepoint : Z)
    (setup_name : option string) (affine : option (affine_arg F))
    (attributes : dict Z) :
  Dict.wf attributes ->
  write_xml_metadata w xml_path data_path unit resolution is_h5 setup_id timepoint
                     setup_name affine attributes = (w1, Ok tt) ->
  exists d, get_attributes w1 xml_path setup_id = Ok d
            /\ forall k, Dict.get k d = Dict.get k attributes.
Proof.
  intros Hwf Hw. apply write_xml_metadata_Ok in Hw as (root & Hb & ->).
  destruct (build_xml_parts _ _ _ _ _ _ _ _ _ _ _ _ Hb)
    as (h & v1 & vregs & reg & sd1 & shape & _ & _ & Hreq & _ & _ & Hsd & Hvs & _).
  rewrite (get_attributes_unfold _ _ _ _ _ _ (parse_root_written w xml_path root) Hsd Hvs).
  destruct (require_view_setup_cases _ _ _ _ _ _ _ _ Hreq)
    as (dz & dy & dx & nz & ny & nx & _ & _ & [(vs & Hfound & Hcheck & ->)|[Hnone ->]]).
  - destruct (check_setup_attributes _ _ _ _ _ _ _ _ _ _ Hcheck) as (a & d & Ha & Hd & He).
    exists d. rewrite Hfound. cbn [mbind result_bind]. rewrite Ha. split; [exact Hd|].
    apply DictEq.eqb_ext; [eapply tag_ids_wf; exact Hd | exact Hwf | exact He].
  - exists attributes. rewrite (first_with_id_new_setup _ _ _ _ _ _ _ _ _ _ _ Hnone).
    cbn [mbind result_bind].
    change (find "attributes" (new_view_setup _ _ _ _ _ _ _ _ attributes _))
      with (Some (mkElement "attributes" [] None
                    (map (fun kv => leaf (fst kv) (PyStr.str (snd kv))) attributes))).
    split; [apply tag_ids_leaves; exact Hwf | reflexivity].
Qed.

Lemma new_document_setups (data_path : string) (is_h5 : bool) (tp : Z)
    (attributes : dict Z) :
  findall "ViewSetup" (h_viewsets (new_document data_path is_h5 tp attributes)) = [].
Proof.
  unfold new_document. cbn [h_viewsets]. rewrite initialize_attributes_children.
  unfold findall. cbn [new children app].
  induction attributes as [|kv l IH]; [reflexivity | cbn; exact IH].
Qed.

(** The [ViewSetup] elements after a write: those of the document before,
    followed by the new setup when no setup had the id. *)
Lemma build_xml_setups (w : world F) xml_path data_path unit (res : list F) is_h5
    sid tp name aff attributes root1 :
  build_xml w xml_path data_path unit res is_h5 sid tp name aff attributes = Ok root1 ->
  exists L sd1 v1 dz dy dx nz ny nx,
    res = [dz; dy; dx]
    /\ match xml_files w !! xml_path with
       | Some root =>
           exists seqdesc viewsets0,
             find "SequenceDescription" root = Some seqdesc
             /\ find "ViewSetups" seqdesc = Some viewsets0
             /\ L = findall "ViewSetup" viewsets0
       | None => L = []
       end
    /\ find "SequenceDescription" root1 = Some sd1
    /\ find "ViewSetups" sd1 = Some v1
    /\ ((exists vs, first_with_id sid L = Ok (Some vs)
                    /\ _check_setup (default ("Setup" ++ PyStr.str sid) name)
                                    nx ny nz dx dy dz attributes unit vs = Ok tt
                    /\ findall "ViewSetup" v1 = L)
        \/ (first_with_id sid L = Ok None
            /\ findall "ViewSetup" v1
               = app L [new_view_setup sid (default ("Setup" ++ PyStr.str sid) name)
                                       nx ny nz dx dy dz attributes unit])).
Proof.
  intros Hb.
  destruct (build_xml_parts _ _ _ _ _ _ _ _ _ _ _ _ Hb)
    as (h & v1 & vregs & reg & sd1 & shape & Hh & _ & Hreq & _ & _ & Hsd & Hvs & _).
  destruct (require_view_setup_cases _ _ _ _ _ _ _ _ Hreq)
    as (dz & dy & dx & nz & ny & nx & Hres & _ & Hcases).
  exists (findall "ViewSetup" (h_viewsets h)), sd1, v1, dz, dy, dx, nz, ny, nx.
  split; [exact Hres|]. split; [|split; [exact Hsd|split; [exact Hvs|]]].
  - destruct (xml_files w !! xml_path) as [root|].
    + destruct (load_document_parts _ _ _ _ Hh) as (seqdesc & viewsets0 & Hs & Hv & Hup & _).
      exists seqdesc, viewsets0. split; [exact Hs|]. split; [exact Hv|].
      apply update_attributes_spec in Hup as (_ & Hall & _). exact Hall.
    + injection Hh as <-. apply new_document_setups.
  - destruct Hcases as [(vs & Hfound & Hcheck & ->)|[Hnone ->]].
    + left. eauto.
    + right. split; [exact Hnone|]. rewrite ETFacts.findall_SubElement. reflexivity.
Qed.

Lemma first_with_id_text_snoc (t : string) (l : list Element) (v i : Element) :
  find "id" v = Some i -> text_is i t = false ->
  first_with_id_text t (l ++ [v]) = first_with_id_text t l.
Proof.
  intros Hv Hne. induction l as [|a l IH]; cbn [app first_with_id_text].
  - rewrite Hv. cbn. rewrite Hne. reflexivity.
  - destruct (deref (find "id" a)) as [j|e]; cbn; [|reflexivity].
    destruct (text_is j t); [reflexivity | exact IH].
Qed.

Lemma get_resolution_unfold (w : world F) xml_path root seqdesc setups sid :
  parse_root w xml_path = Ok root ->
  find "SequenceDescription" root = Some seqdesc ->
  find "ViewSetups" seqdesc = Some setups ->
  get_resolution w xml_path sid
  = (found ← first_with_id_text (PyStr.str sid) (findall "ViewSetup" setups);
     match found with
     | Some vs =>
         vox ← deref (find "voxelSize" vs);
         size ← deref (find "size" vox);
         resolution ← split_text size;
         resolution ← mapM float resolution;
         Ok (rev resolution)
     | None => Err (ValueError ("Could not find setup " ++ PyStr.str sid))
     end).
Proof.
  intros Hp Hsd Hvs. unfold get_resolution. rewrite Hp. cbn [mbind result_bind].
  rewrite Hsd. cbn [mbind result_bind deref]. rewrite Hvs. reflexivity.
Qed.

Lemma text_is_str_ne (t : string) (a b : Z) :
  a <> b -> text_is (leaf t (PyStr.str a)) (PyStr.str b) = false.
Proof.
  intros Hne. unfold text_is. cbn. apply String.eqb_neq. intros He.
  apply str_inj in He. contradiction.
Qed.

(** X2: A write for one setup changes nothing that the readers return for the
    other setups of the document. *)
Theorem write_xml_metadata_other_setups (w w1 : world F)
    (xml_path data_path unit : string) (resolution : list F) (is_h5 : bool)
    (setup_id timepoint : Z) (setup_name : option string)
    (affine : option (affine_arg F)) (attributes : dict Z) :
  is_Some (xml_files w !! xml_path) ->
  write_xml_metadata w xml_path data_path unit resolution is_h5 setup_id timepoint
                     setup_name affine attributes = (w1, Ok tt) ->
  forall s, s <> setup_id ->
    get_attributes w1 xml_path s = get_attributes w xml_path s
    /\ get_resolution w1 xml_path s = get_resolution w xml_path s.
Proof.
  intros [root Hroot] Hw s Hs. apply write_xml_metadata_Ok in Hw as (root1 & Hb & ->).
  destruct (build_xml_setups _ _ _ _ _ _ _ _ _ _ _ _ Hb)
    as (L & sd1 & v1 & dz & dy & dx & nz & ny & nx & _ & Hold & Hsd1 & Hv1 & Hcases).
  rewrite Hroot in Hold. destruct Hold as (seqdesc & viewsets0 & Hsd & Hvs & ->).
  assert (Hp : parse_root w xml_path = Ok root) by (unfold parse_root; rewrite Hroot; reflexivity).
  rewrite (get_attributes_unfold _ _ _ _ _ _ (parse_root_written w xml_path root1) Hsd1 Hv1).
  rewrite (get_resolution_unfold _ _ _ _ _ _ (parse_root_written w xml_path root1) Hsd1 Hv1).
  rewrite (get_attributes_unfold _ _ _ _ _ _ Hp Hsd Hvs).
  rewrite (get_resolution_unfold _ _ _ _ _ _ Hp Hsd Hvs).
  destruct Hcases as [(vs & _ & _ & ->)|[_ ->]]; [split; reflexivity|].
  rewrite (first_with_id_snoc s setup_id) by (apply id_of_new_view_setup || congruence).
  rewrite (first_with_id_text_snoc _ _ _ (leaf "id" (PyStr.str setup_id)));
    [split; reflexivity | reflexivity | apply text_is_str_ne; congruence].
Qed.

Lemma first_with_id_text_None (sid : Z) (l : list Element) :
  first_with_id sid l = Ok None -> first_with_id_text (PyStr.str sid) l = Ok None.
Proof.
  induction l as [|a l IH]; cbn [first_with_id first_with_id_text]; [reflexivity|].
  intros Hf. apply bind_Ok in Hf as (j & Hj & Hf).
  destruct (Z.eqb j sid) eqn:Hjs; [discriminate|].
  unfold id_of in Hj. apply bind_Ok in Hj as (i & Hi & Hj). rewrite Hi.
  cbn [mbind result_bind].
  assert (Ht : text_is i (PyStr.str sid) = false).
  { unfold text_is. destruct (text i) as [t|]; [|reflexivity].
    apply String.eqb_neq. intros ->. cbn in Hj. rewrite PyStrFacts.int_str in Hj.
    injection Hj as <-. rewrite Z.eqb_refl in Hjs. discriminate. }
  rewrite Ht. apply IH. exact Hf.
Qed.

Lemma first_with_id_text_app_None (t : string) (l1 l2 : list Element) :
  first_with_id_text t l1 = Ok None ->
  first_with_id_text t (l1 ++ l2) = first_with_id_text t l2.
Proof.
  induction l1 as [|a l IH]; cbn [app first_with_id_text]; [reflexivity|].
  intros Hf. apply bind_Ok in Hf as (i & Hi & Hf). rewrite Hi. cbn [mbind result_bind].
  destruct (text_is i t); [discriminate | auto].
Qed.

Lemma voxel_size_new_view_setup (sid : Z) (name unit : string) (nx ny nz : Z)
    (dx dy dz : F) (attributes : dict Z) :
  find "voxelSize" (new_view_setup sid name nx ny nz dx dy dz attributes unit)
  = Some (mkElement "voxelSize" [] None
            [text_leaf "unit" unit; leaf "size" (format3 (fstr dx) (fstr dy) (fstr dz))]).
Proof. reflexivity. Qed.

Lemma size_of_voxel_size (unit size : string) :
  find "size" (mkElement "voxelSize" [] None [text_leaf "unit" unit; leaf "size" size])
  = Some (leaf "size" size).
Proof. reflexivity. Qed.

(** X3: [get_resolution] reads back the resolution of a setup that
    [write_xml_metadata] created: a setup that [get_attributes] could not
    read before the call. *)
Theorem get_resolution_after_write (w w1 : world F) (xml_path data_path unit : string)
    (resolution : list F) (is_h5 : bool) (setup_id timepoint : Z)
    (setup_name : option string) (affine : option (affine_arg F))
    (attributes : dict Z) :
  Forall printable resolution ->
  is_Err (get_attributes w xml_path setup_id) ->
  write_xml_metadata w xml_path data_path unit resolution is_h5 setup_id timepoint
                     setup_name affine attributes = (w1, Ok tt) ->
  get_resolution w1 xml_path setup_id = Ok resolution.
Proof.
  intros Hpr [e He] Hw. apply write_xml_metadata_Ok in Hw as (root1 & Hb & ->).
  destruct (build_xml_setups _ _ _ _ _ _ _ _ _ _ _ _ Hb)
    as (L & sd1 & v1 & dz & dy & dx & nz & ny & nx & -> & Hold & Hsd1 & Hv1 & Hcases).
  rewrite (get_resolution_unfold _ _ _ _ _ _ (parse_root_written w xml_path root1) Hsd1 Hv1).
  destruct Hcases as [(vs & Hfound & Hcheck & _)|[Hnone ->]].
  - exfalso. destruct (xml_files w !! xml_path) as [root|] eqn:Hroot.
    + destruct Hold as (seqdesc & viewsets0 & Hsd & Hvs & ->).
      assert (Hp : parse_root w xml_path = Ok root)
        by (unfold parse_root; rewrite Hroot; reflexivity).
      rewrite (get_attributes_unfold _ _ _ _ _ _ Hp Hsd Hvs), Hfound in He.
      destruct (check_setup_attributes _ _ _ _ _ _ _ _ _ _ Hcheck) as (a & d & Ha & Hd & _).
      cbn in He. rewrite Ha, Hd in He. discriminate.
    + subst L. discriminate.
  - rewrite (first_with_id_text_app_None _ _ _ (first_with_id_text_None _ _ Hnone)).
    inversion Hpr as [|? ? Hz Hpr1]; subst.
    inversion Hpr1 as [|? ? Hy Hpr2]; subst. inversion Hpr2 as [|? ? Hx _]; subst.
    cbn [first_with_id_text].
    change (find "id" (new_view_setup _ _ _ _ _ _ _ _ _ _))
      with (Some (leaf "id" (PyStr.str setup_id))).
    cbn [deref mbind result_bind]. rewrite text_is_leaf. cbn [mbind result_bind].
    rewrite voxel_size_new_view_setup. cbn [deref mbind result_bind].
    rewrite size_of_voxel_size. cbn [deref mbind result_bind].
    rewrite split_text_leaf3 by (apply Hx || apply Hy || apply Hz).
    cbn [mbind result_bind]. rewrite mapM_float3 by assumption. reflexivity.
Qed.

End SetupReaders.

Lemma get_attributes_after_write_witness :
  exists d, get_attributes example_setup_written "d.xml" 0 = Ok d
            /\ forall k, Dict.get k d = Dict.get k [("channel", 0)].
Proof.
  apply (get_attributes_after_write example_h5_written example_setup_written
           "d.xml" "d.h5" "pixel" [1; 2; 3] true 0 0 None None [("channel", 0)]).
  - apply wf_example.
  - reflexivity.
Defined.

Lemma write_xml_metadata_other_setups_witness :
  get_attributes example_second "d.xml" 0 = Ok [("channel", 0)]
  /\ get_resolution example_second "d.xml" 0 = Ok [1; 2; 3].
Proof.
  destruct (write_xml_metadata_other_setups example_first example_second
              "d.xml" "d.h5" "micrometer" [2; 2; 2] true 1 0 (Some "second")
              (Some (AffineList [1; 0; 0; 5; 0; 1; 0; 6; 0; 0; 1; 7])) [("channel", 1)]
              (ex_intro _ _ eq_refl) eq_refl 0 ltac:(discriminate)) as [Ha Hr].
  rewrite Ha, Hr. split; reflexivity.
Defined.

Lemma get_resolution_after_write_witness :
  get_resolution example_second "d.xml" 1 = Ok [2; 2; 2].
Proof.
  apply (get_resolution_after_write example_first example_second "d.xml" "d.h5"
           "micrometer" [2; 2; 2] true 1 0 (Some "second")
           (Some (AffineList [1; 0; 0; 5; 0; 1; 0; 6; 0; 0; 1; 7])) [("channel", 1)]).
  - repeat constructor; vm_compute; repeat split; discriminate.
  - eexists. reflexivity.
  - reflexivity.
Defined.

(** ** [get_bdv_format] and [get_data_path] *)

Section LoaderReaders.

Context {F : Type} `{PyFloat F}.

Lemma image_loader_new_document (data_path : string) (is_h5 : bool) (tp : Z)
    (attributes : dict Z) :
  find "ImageLoader" (h_seqdesc (new_document data_path is_h5 tp attributes))
  = Some (mkElement "ImageLoader"
            [("format", "bdv." ++ (if is_h5 then "hdf5" else "n5"))] None
            [mkElement (if is_h5 then "hdf5" else "n5") [("type", "relative")]
               (Some (PyStr.basename data_path)) []]).
Proof. reflexivity. Qed.

(** X4: The loader format and the data path are fixed when the document is
    created: a new document records the format of the container kind and the
    base name of the data path, and a write to an existing document changes
    neither, whatever container kind and data path it is called with. *)
Theorem write_xml_metadata_loader (abspath_relpath : string -> string)
    (w w1 : world F) (xml_path data_path unit : string) (resolution : list F)
    (is_h5 : bool) (setup_id timepoint : Z) (setup_name : option string)
    (affine : option (affine_arg F)) (attributes : dict Z) :
  write_xml_metadata w xml_path data_path unit resolution is_h5 setup_id timepoint
                     setup_name affine attributes = (w1, Ok tt) ->
  match xml_files w !! xml_path with
  | Some _ =>
      get_bdv_format w1 xml_path = get_bdv_format w xml_path
      /\ forall absolute,
           get_data_path abspath_relpath w1 xml_path absolute
           = get_data_path abspath_relpath w xml_path absolute
  | None =>
      get_bdv_format w1 xml_path = Ok (if is_h5 then "bdv.hdf5" else "bdv.n5")
      /\ get_data_path abspath_relpath w1 xml_path false
         = Ok (Some (PyStr.basename data_path))
  end.
Proof.
  intros Hw. apply write_xml_metadata_Ok in Hw as (root1 & Hb & ->).
  destruct (build_xml_parts _ _ _ _ _ _ _ _ _ _ _ _ Hb)
    as (h & v1 & vregs & reg & sd1 & shape & Hh & _ & _ & _ & _ & Hsd1 & _ & _ & Himg).
  unfold get_bdv_format, get_data_path. rewrite parse_root_written.
  cbn [mbind result_bind]. rewrite Hsd1. cbn [deref mbind result_bind]. rewrite Himg.
  destruct (xml_files w !! xml_path) as [root|] eqn:Hroot.
  - destruct (load_document_parts _ _ _ _ Hh) as (seqdesc & _ & Hsd & _ & _ & _ & Hhs & _).
    unfold parse_root. rewrite Hroot. cbn [mbind result_bind].
    rewrite Hsd. cbn [deref mbind result_bind]. rewrite Hhs. split; reflexivity.
  - injection Hh as <-. rewrite image_loader_new_document.
    destruct is_h5; split; reflexivity.
Qed.

End LoaderReaders.

Lemma write_xml_metadata_loader_witness :
  get_bdv_format example_first "d.xml" = Ok "bdv.hdf5"
  /\ get_data_path id example_first "d.xml" false = Ok (Some "d.h5")
  /\ get_bdv_format example_second "d.xml" = get_bdv_format example_first "d.xml".
Proof.
  destruct (write_xml_metadata_loader id example_world2 example_first
              "d.xml" "d.h5" "pixel" [1; 2; 3] true 0 0 None None [("channel", 0)]
              eq_refl) as [Hf Hp].
  destruct (write_xml_metadata_loader id example_first example_second
              "d.xml" "d.h5" "micrometer" [2; 2; 2] true 1 0 (Some "second")
              (Some (AffineList [1; 0; 0; 5; 0; 1; 0; 6; 0; 0; 1; 7])) [("channel", 1)]
              eq_refl) as [Hf2 _].
  split; [exact Hf|]. split; [exact Hp | exact Hf2].
Defined.

(** ** [get_affine] *)

Module SplitFacts.
Import PyStr.

Lemma split_join (l : list string) : Forall token l -> split (join " " l) = l.
Proof.
  unfold split. induction 1 as [|a l Ha Hl IH]; [reflexivity|].
  destruct l as [|b r].
  - cbn [join]. rewrite TokenFacts.fields_ws_free by apply Ha.
    cbn. rewrite TokenFacts.nonempty_token by exact Ha. reflexivity.
  - change (join " " (a :: b :: r)) with (a ++ " " ++ join " " (b :: r)).
    change (" " ++ join " " (b :: r)) with (String " " (join " " (b :: r))).
    rewrite TokenFacts.fields_app_space by apply Ha.
    cbn [List.filter]. rewrite TokenFacts.nonempty_token by exact Ha.
    rewrite IH. reflexivity.
Qed.

End SplitFacts.

Section AffineFacts.

Context {F : Type} `{PyFloat F}.

Lemma mapM_float_printable (l : list F) :
  Forall printable l -> mapM float (map fstr l) = Ok l.
Proof.
  induction 1 as [|x l (_ & Hx & _) _ IH]; [reflexivity|].
  assert (Hf : float (fstr x) = Ok x) by (unfold float; rewrite Hx; reflexivity).
  cbn [map mapM]. rewrite Hf. cbn [mbind result_bind]. rewrite IH. reflexivity.
Qed.

Lemma tokens_printable (l : list F) : Forall printable l -> Forall PyStr.token (map fstr l).
Proof.
  induction 1 as [|x l (Hx & _) _ IH]; constructor; assumption.
Qed.

(** The text that [_write_affine] writes for a transformation with a
    parameter is in the file as it was written. *)
Lemma affine_text_leaf (t : string) (trafo : list F) :
  trafo <> [] -> Forall printable trafo ->
  text_leaf t (PyStr.join " " (map fstr trafo)) = leaf t (PyStr.join " " (map fstr trafo)).
Proof.
  intros Hne Hp. unfold text_leaf, leaf.
  destruct (TextFacts.join_tokens _ (tokens_printable _ Hp)) as [Hcr Hnonempty].
  rewrite TextFacts.written_text_cr_free; [reflexivity | | exact Hcr].
  apply Hnonempty. destruct trafo; [congruence | discriminate].
Qed.

(** The text that [_write_affine] writes for a transformation reads back
    as the transformation. *)
Lemma read_affine_text (t : string) (trafo : list F) :
  trafo <> [] -> Forall printable trafo ->
  (trafo0 ← split_text (text_leaf t (PyStr.join " " (map fstr trafo))); mapM float trafo0)
  = Ok trafo.
Proof.
  intros Hne Hp. rewrite (affine_text_leaf _ _ Hne Hp).
  unfold split_text. cbn [leaf text deref mbind result_bind].
  rewrite SplitFacts.split_join by (apply tokens_printable; exact Hp).
  apply mapM_float_printable. exact Hp.
Qed.

Lemma find_registration_app_Some (s t : Z) (l1 l2 : list Element) (v : Element) :
  find_registration s t l1 = Ok (Some v) ->
  find_registration s t (l1 ++ l2) = Ok (Some v).
Proof.
  induction l1 as [|a l IH]; cbn [app find_registration]; [discriminate|].
  intros Hf.
  apply bind_Ok in Hf as (x1 & H1 & Hf). rewrite H1. cbn [mbind result_bind].
  apply bind_Ok in Hf as (x2 & H2 & Hf). rewrite H2. cbn [mbind result_bind].
  apply bind_Ok in Hf as (x3 & H3 & Hf). rewrite H3. cbn [mbind result_bind].
  apply bind_Ok in Hf as (x4 & H4 & Hf). rewrite H4. cbn [mbind result_bind].
  destruct (negb (x2 =? s) || negb (t =? x4)); [auto | exact Hf].
Qed.

Lemma find_registration_app_None (s t : Z) (l1 l2 : list Element) :
  find_registration s t l1 = Ok None ->
  find_registration s t (l1 ++ l2) = find_registration s t l2.
Proof.
  induction l1 as [|a l IH]; cbn [app find_registration]; [reflexivity|].
  intros Hf.
  apply bind_Ok in Hf as (x1 & H1 & Hf). rewrite H1. cbn [mbind result_bind].
  apply bind_Ok in Hf as (x2 & H2 & Hf). rewrite H2. cbn [mbind result_bind].
  apply bind_Ok in Hf as (x3 & H3 & Hf). rewrite H3. cbn [mbind result_bind].
  apply bind_Ok in Hf as (x4 & H4 & Hf). rewrite H4. cbn [mbind result_bind].
  destruct (negb (x2 =? s) || negb (t =? x4)); [auto | discriminate].
Qed.

Lemma get_affine_unfold (w : world F) xml_path root vregs s t :
  parse_root w xml_path = Ok root ->
  find "ViewRegistrations" root = Some vregs ->
  get_affine w xml_path s t
  = (found ← find_registration s t (findall "ViewRegistration" vregs);
     match found with
     | Some vreg => read_transforms (findall "ViewTransform" vreg) 0 []
     | None => Err (ValueError ("Could not find setup " ++ PyStr.str s
                                ++ " and timepoint " ++ PyStr.str t))
     end).
Proof.
  intros Hp Hv. unfold get_affine. rewrite Hp. cbn [mbind result_bind].
  rewrite Hv. reflexivity.
Qed.

(** Where the write finds the registrations element. *)
Lemma handles_vregs (w : world F) xml_path data_path is_h5 tp attributes h :
  match xml_files w !! xml_path with
  | Some root => load_document root tp attributes
  | None => Ok (new_document data_path is_h5 tp attributes)
  end = Ok h ->
  h_vregs h = match xml_files w !! xml_path with
              | Some root => find "ViewRegistrations" root
              | None => Some (new "ViewRegistrations")
              end.
Proof.
  destruct (xml_files w !! xml_path) as [root|]; intros Hh.
  - destruct (load_document_parts _ _ _ _ Hh) as (_ & _ & _ & _ & _ & _ & _ & Hv). exact Hv.
  - injection Hh as <-. reflexivity.
Qed.

(** X5: [get_affine] returns the transformations of the first registration of
    the setup and timepoint, and [write_xml_metadata] appends: what
    [get_affine] returned before a write, for any setup and timepoint, it
    returns after it. *)
Theorem get_affine_keeps_first (w w1 : world F) (xml_path data_path unit : string)
    (resolution : list F) (is_h5 : bool) (setup_id timepoint : Z)
    (setup_name : option string) (affine : option (affine_arg F))
    (attributes : dict Z) :
  write_xml_metadata w xml_path data_path unit resolution is_h5 setup_id timepoint
                     setup_name affine attributes = (w1, Ok tt) ->
  forall s t trafos,
    get_affine w xml_path s t = Ok trafos ->
    get_affine w1 xml_path s t = Ok trafos.
Proof.
  intros Hw s t trafos Hg. apply write_xml_metadata_Ok in Hw as (root1 & Hb & ->).
  destruct (build_xml_parts _ _ _ _ _ _ _ _ _ _ _ _ Hb)
    as (h & v1 & vregs & reg & sd1 & shape & Hh & _ & _ & Hhv & _ & _ & _ & Hvr & _).
  apply handles_vregs in Hh. rewrite Hhv in Hh.
  unfold get_affine, parse_root in Hg.
  destruct (xml_files w !! xml_path) as [root|]; [|discriminate].
  cbn [mbind result_bind] in Hg. rewrite <- Hh in Hg. cbn [deref mbind result_bind] in Hg.
  apply bind_Ok in Hg as (found & Hfound & Hg).
  destruct found as [vreg|]; [|discriminate].
  rewrite (get_affine_unfold _ _ _ _ _ _ (parse_root_written w xml_path root1) Hvr).
  rewrite ETFacts.findall_SubElement.
  rewrite (find_registration_app_Some _ _ _ _ _ Hfound). exact Hg.
Qed.

(** *** Where the errors of the readers come from *)

Lemma int_Err (s : string) (e : pyerror) :
  PyStr.int s = Err e -> e = ValueError ("invalid literal for int(): " ++ s).
Proof.
  unfold PyStr.int. destruct (NilZero.int_of_string s); [discriminate|].
  intros [= <-]. reflexivity.
Qed.

Lemma float_Err (s : string) (e : pyerror) :
  float s = Err e -> e = ValueError ("could not convert string to float: " ++ s).
Proof.
  unfold float. destruct (fparse s); [discriminate|]. intros [= <-]. reflexivity.
Qed.

Lemma mapM_Err {A B} (f : A -> result B) (l : list A) (e : pyerror) :
  mapM f l = Err e -> exists a, In a l /\ f a = Err e.
Proof.
  induction l as [|a l IH]; cbn [mapM]; [discriminate|].
  destruct (f a) as [b|e'] eqn:Hfa; cbn [mbind result_bind].
  - destruct (mapM f l) as [bs|e'']; cbn [mbind result_bind]; [discriminate|].
    intros [= <-]. destruct (IH eq_refl) as (a' & Hin & Ha'). exists a'. split; [right|]; auto.
  - intros [= <-]. exists a. split; [left; reflexivity | exact Hfa].
Qed.

Lemma not_found_ne_invalid (m x : string) :
  ValueError ("Could not find setup " ++ m) <> ValueError ("invalid literal for int(): " ++ x).
Proof. intros [=]. Qed.

Lemma not_found_ne_convert (m x : string) :
  ValueError ("Could not find setup " ++ m)
  <> ValueError ("could not convert string to float: " ++ x).
Proof. intros [=]. Qed.

Lemma item_Err {V} (k : string) (d : dict V) (e : pyerror) :
  Dict.item k d = Err e -> e = KeyError k.
Proof. unfold Dict.item. destruct (Dict.get k d); [discriminate|]. intros [= <-]. reflexivity. Qed.

Lemma find_registration_Err (s t : Z) (l : list Element) (e : pyerror) (m : string) :
  find_registration s t l = Err e -> e <> ValueError ("Could not find setup " ++ m).
Proof.
  induction l as [|a l IH]; cbn [find_registration]; [discriminate|].
  destruct (Dict.item "setup" (attrib a)) as [x1|e1] eqn:H1; cbn [mbind result_bind];
    [|intros [= <-]; apply item_Err in H1; subst; discriminate].
  destruct (PyStr.int x1) as [x2|e2] eqn:H2; cbn [mbind result_bind];
    [|intros [= <-]; apply int_Err in H2; subst; apply not_eq_sym, not_found_ne_invalid].
  destruct (Dict.item "timepoint" (attrib a)) as [x3|e3] eqn:H3; cbn [mbind result_bind];
    [|intros [= <-]; apply item_Err in H3; subst; discriminate].
  destruct (PyStr.int x3) as [x4|e4] eqn:H4; cbn [mbind result_bind];
    [|intros [= <-]; apply int_Err in H4; subst; apply not_eq_sym, not_found_ne_invalid].
  destruct (negb (x2 =? s) || negb (t =? x4)); [exact IH | discriminate].
Qed.

Lemma read_transforms_Err (vts : list Element) (e : pyerror) (m : string) :
  forall ii acc,
    read_transforms vts ii acc = Err e -> e <> ValueError ("Could not find setup " ++ m).
Proof.
  induction vts as [|vt vts IH]; intros ii acc; cbn [read_transforms]; [discriminate|].
  destruct (deref (find "affine" vt)) as [a|e1] eqn:H1; cbn [mbind result_bind].
  2: { intros [= <-]. destruct (find "affine" vt); [discriminate|].
       injection H1 as <-. discriminate. }
  destruct (split_text a) as [ts|e2] eqn:H2; cbn [mbind result_bind].
  2: { intros [= <-]. unfold split_text in H2. destruct (text a); [discriminate|].
       injection H2 as <-. discriminate. }
  destruct (mapM float ts) as [fs|e3] eqn:H3; cbn [mbind result_bind].
  2: { intros [= <-]. apply mapM_Err in H3 as (x & _ & Hx). apply float_Err in Hx.
       subst. apply not_eq_sym, not_found_ne_convert. }
  apply IH.
Qed.

(** [get_affine] reports a missing registration only when no registration
    of the document is for the setup and timepoint. *)
Lemma get_affine_not_found (w : world F) xml_path (s t : Z) :
  get_affine w xml_path s t
  = Err (ValueError ("Could not find setup " ++ PyStr.str s
                     ++ " and timepoint " ++ PyStr.str t)) ->
  exists root vregs,
    xml_files w !! xml_path = Some root
    /\ find "ViewRegistrations" root = Some vregs
    /\ find_registration s t (findall "ViewRegistration" vregs) = Ok None.
Proof.
  unfold get_affine, parse_root.
  destruct (xml_files w !! xml_path) as [root|]; [|discriminate].
  cbn [mbind result_bind].
  destruct (find "ViewRegistrations" root) as [vregs|] eqn:Hv; [|discriminate].
  cbn [deref mbind result_bind].
  destruct (find_registration s t (findall "ViewRegistration" vregs)) as [[v|]|e] eqn:Hf;
    cbn [mbind result_bind]; intros Hg.
  - exfalso. eapply read_transforms_Err; [exact Hg | reflexivity].
  - exists root, vregs. auto.
  - exfalso. injection Hg as ->. eapply find_registration_Err; [exact Hf | reflexivity].
Qed.

(** *** Reading back a registration *)

Lemma name_eqb_eq (a b : option string) : name_eqb a b = true <-> a = b.
Proof.
  destruct a as [x|], b as [y|]; cbn; try (split; [discriminate | congruence]).
  - rewrite String.eqb_eq. split; congruence.
  - split; reflexivity.
Qed.

Lemma set_trafo_fresh (name : option string) (trafo : list F)
    (acc : list (option string * list F)) :
  ~ In name (map fst acc) -> set_trafo name trafo acc = (acc ++ [(name, trafo)])%list.
Proof.
  induction acc as [|[k v] acc IH]; cbn; [reflexivity|].
  intros Hn. destruct (name_eqb k name) eqn:He.
  - apply name_eqb_eq in He. tauto.
  - rewrite IH by tauto. reflexivity.
Qed.

Lemma read_transforms_named (trafos : dict (list F)) :
  Forall (fun kv => PyStr.plain (fst kv) = true
                    /\ snd kv <> [] /\ Forall printable (snd kv)) trafos ->
  forall ii acc,
    NoDup (map fst acc ++ map (fun kv => Some (fst kv)) trafos) ->
    read_transforms
      (map (fun kv => mkElement "ViewTransform" [("type", "affine")] None
                        [text_leaf "affine" (PyStr.join " " (map fstr (snd kv)));
                         text_leaf "Name" (fst kv)]) trafos) ii acc
    = Ok (acc ++ map (fun kv => (Some (fst kv), snd kv)) trafos)%list.
Proof.
  induction 1 as [|[k v] trafos (Hk & Hne & Hv) _ IH]; intros ii acc Hnd;
    cbn [map read_transforms].
  - rewrite app_nil_r. reflexivity.
  - cbn [fst snd] in Hk, Hne, Hv.
    change (find "Name" (mkElement "ViewTransform" [("type", "affine")] None
                           [text_leaf "affine" (PyStr.join " " (map fstr (snd (k, v))));
                            text_leaf "Name" (fst (k, v))]))
      with (Some (text_leaf "Name" k)).
    change (find "affine" (mkElement "ViewTransform" [("type", "affine")] None
                             [text_leaf "affine" (PyStr.join " " (map fstr (snd (k, v))));
                              text_leaf "Name" (fst (k, v))]))
      with (Some (text_leaf "affine" (PyStr.join " " (map fstr v)))).
    rewrite (TextFacts.text_leaf_plain _ _ Hk).
    cbn [deref mbind result_bind].
    pose proof (read_affine_text "affine" v Hne Hv) as Hread.
    destruct (split_text (text_leaf "affine" (PyStr.join " " (map fstr v)))) as [ts|];
      cbn [mbind result_bind] in Hread |- *; [|discriminate].
    rewrite Hread. cbn [mbind result_bind leaf text].
    cbn [map fst] in Hnd.
    rewrite set_trafo_fresh.
    + rewrite IH.
      * rewrite <- app_assoc. reflexivity.
      * rewrite map_app. cbn [map fst]. rewrite <- app_assoc. exact Hnd.
    + apply NoDup_app in Hnd as (_ & Hdisj & _). intros Hin.
      apply (Hdisj (Some k)); [apply list_elem_of_In; exact Hin | left].
Qed.

Lemma filter_map_all {A} (p : Element -> bool) (f : A -> Element) (l : list A) :
  (forall a, p (f a) = true) -> List.filter p (map f l) = map f l.
Proof.
  intros Hp. induction l as [|a l IH]; cbn; [reflexivity|]. rewrite Hp, IH. reflexivity.
Qed.

Lemma find_registration_written (sid tp : Z) (transforms : list Element) :
  find_registration sid tp [view_registration sid tp transforms]
  = Ok (Some (view_registration sid tp transforms)).
Proof.
  cbn [find_registration view_registration attrib].
  change (Dict.item "setup" [("timepoint", PyStr.str tp); ("setup", PyStr.str sid)])
    with (Ok (PyStr.str sid)).
  change (Dict.item "timepoint" [("timepoint", PyStr.str tp); ("setup", PyStr.str sid)])
    with (Ok (PyStr.str tp)).
  cbn [mbind result_bind]. rewrite !PyStrFacts.int_str. cbn [mbind result_bind].
  rewrite !Z.eqb_refl. reflexivity.
Qed.

(** The registration that a write appends reads back as the
    transformations of the arguments. *)
Lemma registration_read (zero : F) (sid tp : Z) (res : list F)
    (aff : option (affine_arg F)) (reg : Element) :
  Forall printable res -> affine_printable aff -> fparse "0.0" = Some zero ->
  registration_of sid tp res aff = Some reg ->
  has_tag "ViewRegistration" reg = true
  /\ find_registration sid tp [reg] = Ok (Some reg)
  /\ read_transforms (findall "ViewTransform" reg) 0 [] = Ok (affine_recorded zero res aff).
Proof.
  intros Hres Haff Hzero. unfold registration_of.
  destruct aff as [[trafo|trafos]|].
  - intros Hreg. cbn in Hreg. injection Hreg as <-.
    split; [reflexivity|]. split; [apply find_registration_written|].
    cbn [findall view_registration children List.filter].
    change (has_tag "ViewTransform" (mkElement "ViewTransform" ?a ?b ?c)) with true.
    cbn [read_transforms].
    destruct Haff as [Hne Haff].
    change (find "Name" (mkElement "ViewTransform" [("type", "affine")] None
                           [text_leaf "affine" (PyStr.join " " (map fstr trafo))]))
      with (@None Element).
    change (find "affine" (mkElement "ViewTransform" [("type", "affine")] None
                             [text_leaf "affine" (PyStr.join " " (map fstr trafo))]))
      with (Some (text_leaf "affine" (PyStr.join " " (map fstr trafo)))).
    cbn [deref mbind result_bind].
    pose proof (read_affine_text "affine" trafo Hne Haff) as Hread.
    destruct (split_text (text_leaf "affine" (PyStr.join " " (map fstr trafo)))) as [ts|];
      cbn [mbind result_bind] in Hread |- *; [|discriminate].
    rewrite Hread. reflexivity.
  - intros Hreg. cbn in Hreg. injection Hreg as <-. split; [reflexivity|].
    split; [apply find_registration_written|].
    destruct Haff as [Hwf Hpr]. unfold findall. cbn [view_registration children].
    rewrite filter_map_all by reflexivity.
    rewrite (read_transforms_named trafos Hpr 0 []); [reflexivity|].
    cbn [map app]. unfold Dict.wf, Dict.keys in Hwf.
    apply (NoDup_fmap_2 Some) in Hwf. rewrite <- list_fmap_compose in Hwf. exact Hwf.
  - unfold _write_default_affine.
    destruct res as [|dz [|dy [|dx [|]]]]; intros Hreg; cbn in Hreg; try discriminate.
    injection Hreg as <-. split; [reflexivity|].
    split; [apply find_registration_written|].
    inversion Hres as [|? ? Hz Hres1]; subst.
    inversion Hres1 as [|? ? Hy Hres2]; subst. inversion Hres2 as [|? ? Hx _]; subst.
    cbn [findall view_registration children List.filter].
    change (has_tag "ViewTransform" (mkElement "ViewTransform" ?a ?b ?c)) with true.
    cbn [read_transforms].
    match goal with
    | |- context [leaf "affine" ?t] =>
        replace t with (PyStr.join " " [fstr dx; "0.0"; "0.0"; "0.0"; "0.0"; fstr dy;
                                        "0.0"; "0.0"; "0.0"; "0.0"; fstr dz; "0.0"])
          by (cbn [PyStr.join]; str_simpl; reflexivity)
    end.
    match goal with
    | |- context [find "Name" ?e] => change (find "Name" e) with (@None Element)
    end.
    match goal with
    | |- context [find "affine" ?e] =>
        change (find "affine" e)
          with (Some (leaf "affine"
                        (PyStr.join " " [fstr dx; "0.0"; "0.0"; "0.0"; "0.0"; fstr dy;
                                         "0.0"; "0.0"; "0.0"; "0.0"; fstr dz; "0.0"])))
    end.
    cbn [deref mbind result_bind].
    unfold split_text. cbn [leaf text deref mbind result_bind].
    rewrite SplitFacts.split_join.
    2: { assert (Hz0 : PyStr.token "0.0") by (split; [discriminate | reflexivity]).
         repeat (apply List.Forall_cons; [exact Hz0 || apply Hx || apply Hy || apply Hz|]).
         apply List.Forall_nil. }
    assert (Hf0 : float "0.0" = Ok zero) by (unfold float; rewrite Hzero; reflexivity).
    assert (Hfx : float (fstr dx) = Ok dx)
      by (unfold float; destruct Hx as (_ & -> & _); reflexivity).
    assert (Hfy : float (fstr dy) = Ok dy)
      by (unfold float; destruct Hy as (_ & -> & _); reflexivity).
    assert (Hfz : float (fstr dz) = Ok dz)
      by (unfold float; destruct Hz as (_ & -> & _); reflexivity).
    cbn [mapM]. rewrite Hf0, Hfx, Hfy, Hfz. reflexivity.
Qed.

(** X6: [get_affine] reads back the transformations that [write_xml_metadata]
    recorded, when the setup had no registration at the timepoint before:
    when there was no document, or [get_affine] reported the registration
    missing.  The transformations of the call have a parameter each and no
    NaN, and the names of a dictionary are plain text. *)
Theorem get_affine_after_write (zero : F) (w w1 : world F)
    (xml_path data_path unit : string) (resolution : list F) (is_h5 : bool)
    (setup_id timepoint : Z) (setup_name : option string)
    (affine : option (affine_arg F)) (attributes : dict Z) :
  Forall printable resolution -> affine_printable affine ->
  fparse "0.0" = Some zero ->
  xml_files w !! xml_path = None
  \/ get_affine w xml_path setup_id timepoint
     = Err (ValueError ("Could not find setup " ++ PyStr.str setup_id
                        ++ " and timepoint " ++ PyStr.str timepoint)) ->
  write_xml_metadata w xml_path data_path unit resolution is_h5 setup_id timepoint
                     setup_name affine attributes = (w1, Ok tt) ->
  get_affine w1 xml_path setup_id timepoint
  = Ok (affine_recorded zero resolution affine).
Proof.
  intros Hres Haff Hzero Hbefore Hw.
  apply write_xml_metadata_Ok in Hw as (root1 & Hb & ->).
  destruct (build_xml_parts _ _ _ _ _ _ _ _ _ _ _ _ Hb)
    as (h & v1 & vregs & reg & sd1 & shape & Hh & _ & _ & Hhv & Hreg & _ & _ & Hvr & _).
  apply handles_vregs in Hh. rewrite Hhv in Hh.
  assert (Hnone : find_registration setup_id timepoint (findall "ViewRegistration" vregs)
                  = Ok None).
  { destruct Hbefore as [Habsent|Hmissing].
    - rewrite Habsent in Hh. injection Hh as ->. reflexivity.
    - apply get_affine_not_found in Hmissing as (root & vregs' & Hroot & Hv' & Hf).
      rewrite Hroot, Hv' in Hh. injection Hh as ->. exact Hf. }
  destruct (registration_read zero _ _ _ _ _ Hres Haff Hzero Hreg) as (Htag & Hfind & Hread).
  rewrite (get_affine_unfold _ _ _ _ _ _ (parse_root_written w xml_path root1) Hvr).
  rewrite ETFacts.findall_SubElement, Htag.
  rewrite (find_registration_app_None _ _ _ _ Hnone), Hfind. exact Hread.
Qed.

End AffineFacts.

Lemma get_affine_after_write_witness :
  get_affine example_first "d.xml" 0 0
  = Ok [(Some "affine0", [3; 0; 0; 0; 0; 2; 0; 0; 0; 0; 1; 0])]
  /\ get_affine example_second "d.xml" 1 0
     = Ok [(Some "affine0", [1; 0; 0; 5; 0; 1; 0; 6; 0; 0; 1; 7])].
Proof.
  split.
  - apply (get_affine_after_write 0 example_world2 example_first "d.xml" "d.h5"
             "pixel" [1; 2; 3] true 0 0 None None [("channel", 0)]).
    + apply printable_example.
    + exact I.
    + reflexivity.
    + left. reflexivity.
    + reflexivity.
  - apply (get_affine_after_write 0 example_first example_second "d.xml" "d.h5"
             "micrometer" [2; 2; 2] true 1 0 (Some "second")
             (Some (AffineList [1; 0; 0; 5; 0; 1; 0; 6; 0; 0; 1; 7])) [("channel", 1)]).
    + repeat constructor; vm_compute; repeat split; discriminate.
    + repeat constructor; vm_compute; repeat split; discriminate.
    + reflexivity.
    + right. reflexivity.
    + reflexivity.
Defined.

(** A transformation has to have a parameter: the empty list leaves an
    [affine] element without text, and [get_affine] raises at
    [trafo.split()]. *)
Lemma get_affine_empty_list :
  let out := write_xml_metadata example_world2 "d.xml" "d.h5" "pixel" [1; 2; 3] true 0 0
                                None (Some (AffineList [])) [("channel", 0)] in
  out.2 = Ok tt /\ get_affine out.1 "d.xml" 0 0 = Err AttributeError.
Proof. split; reflexivity. Qed.

(** The names of a dictionary have to be plain text: the name [''] leaves
    a [Name] element without text, and [get_affine] returns the
    transformation under the key [None]. *)
Lemma get_affine_empty_name :
  let out := write_xml_metadata example_world2 "d.xml" "d.h5" "pixel" [1; 2; 3] true 0 0
                                None
                                (Some (AffineDict [("", [1; 0; 0; 0; 0; 1; 0; 0; 0; 0; 1; 0])]))
                                [("channel", 0)] in
  out.2 = Ok tt
  /\ get_affine out.1 "d.xml" 0 0 = Ok [(None, [1; 0; 0; 0; 0; 1; 0; 0; 0; 0; 1; 0])].
Proof. split; reflexivity. Qed.

Lemma get_affine_keeps_first_witness :
  (write_xml_metadata example_first "d.xml" "d.h5" "pixel" [1; 2; 3] true 0 0 None
                      (Some (AffineList [2; 0; 0; 0; 0; 2; 0; 0; 0; 0; 2; 0]))
                      [("channel", 0)]).2 = Ok tt
  /\ get_affine
       (write_xml_metadata example_first "d.xml" "d.h5" "pixel" [1; 2; 3] true 0 0 None
                           (Some (AffineList [2; 0; 0; 0; 0; 2; 0; 0; 0; 0; 2; 0]))
                           [("channel", 0)]).1 "d.xml" 0 0
     = Ok [(Some "affine0", [3; 0; 0; 0; 0; 2; 0; 0; 0; 0; 1; 0])].
Proof.
  split; [reflexivity|].
  apply (get_affine_keeps_first example_first _ "d.xml" "d.h5" "pixel" [1; 2; 3] true
           0 0 None (Some (AffineList [2; 0; 0; 0; 0; 2; 0; 0; 0; 0; 2; 0]))
           [("channel", 0)]).
  - reflexivity.
  - reflexivity.
Defined.

(** ** [write_attribute_name] *)

Section Rename.

Context {F : Type} `{PyFloat F}.

Lemma id_of_put_name (n e : Element) :
  tag n = "name" -> id_of (put "name" n e) = id_of e.
Proof.
  intros Hn. unfold id_of. rewrite ETFacts.find_put_ne by (discriminate || exact Hn).
  reflexivity.
Qed.

(** Writing the name of an entry changes no id of the registry. *)
Lemma rename_entry_ids (xml_name : string) (i : Z) (nm : string) (es es' : list Element) :
  rename_entry xml_name i nm es = Ok (Some es') ->
  mapM id_of es' = mapM id_of es.
Proof.
  revert es'. induction es as [|e es IH]; intros es'; cbn [rename_entry]; [discriminate|].
  assert (Hrest : forall es',
             (r ← rename_entry xml_name i nm es; Ok (option_map (cons e) r)) = Ok (Some es') ->
             mapM id_of es' = mapM id_of (e :: es)).
  { intros es2 Hr. apply bind_Ok in Hr as ([r|] & Hr & Heq); [|discriminate].
    injection Heq as <-. cbn [mapM]. rewrite (IH _ Hr). reflexivity. }
  destruct (has_tag xml_name e); [|apply Hrest].
  destruct (id_of e) as [j|err] eqn:Hj; cbn [mbind result_bind]; [|discriminate].
  destruct (Z.eqb j i); [|apply Hrest].
  intros Hr. apply bind_Ok in Hr as (n & Hn & Hr). apply deref_Ok in Hn.
  injection Hr as <-. cbn [mapM]. rewrite id_of_put_name; [reflexivity|].
  cbn. eapply ETFacts.find_tag. exact Hn.
Qed.

(** What [write_attribute_name] changes among the children of
    [ViewSetups]: one registry, of which it keeps the tag, the attributes
    and the ids of the entries. *)
Lemma rename_registry_spec (attribute : string) (i : Z) (nm : string)
    (cs cs' : list Element) :
  rename_registry attribute i nm cs = Ok (Some cs') ->
  Forall2 (fun c c' => c' = c
                       \/ (has_tag "Attributes" c = true /\ tag c' = tag c
                           /\ attrib c' = attrib c
                           /\ mapM id_of (children c') = mapM id_of (children c)))
          cs cs'.
Proof.
  revert cs'. induction cs as [|c cs IH]; intros cs'; cbn [rename_registry]; [discriminate|].
  assert (Hrest : forall cs',
             (r ← rename_registry attribute i nm cs; Ok (option_map (cons c) r))
             = Ok (Some cs') ->
             Forall2 (fun c c' => c' = c
                       \/ (has_tag "Attributes" c = true /\ tag c' = tag c
                           /\ attrib c' = attrib c
                           /\ mapM id_of (children c') = mapM id_of (children c)))
                     (c :: cs) cs').
  { intros cs2 Hr. apply bind_Ok in Hr as ([r|] & Hr & Heq); [|discriminate].
    injection Heq as <-. constructor; [left; reflexivity | apply IH; exact Hr]. }
  destruct (has_tag "Attributes" c) eqn:Htag; [|apply Hrest].
  intros Hr. apply bind_Ok in Hr as (name & Hname & Hr).
  apply bind_Ok in Hr as (written & Hwritten & Hr).
  destruct written as [entries|]; [|apply Hrest; exact Hr].
  injection Hr as <-. constructor.
  - right. split; [exact Htag|]. split; [reflexivity|]. split; [reflexivity|].
    destruct (String.eqb name attribute); [|discriminate].
    cbn [set_children children]. eapply rename_entry_ids. exact Hwritten.
  - clear. induction cs as [|x cs IH]; constructor; [left; reflexivity | exact IH].
Qed.

Lemma rename_registry_setups (attribute : string) (i : Z) (nm : string)
    (cs cs' : list Element) :
  rename_registry attribute i nm cs = Ok (Some cs') ->
  List.filter (has_tag "ViewSetup") cs' = List.filter (has_tag "ViewSetup") cs.
Proof.
  intros Hr. apply rename_registry_spec in Hr.
  induction Hr as [|c c' cs cs' Hc _ IH]; [reflexivity|]. cbn [List.filter].
  destruct Hc as [->|(Ht & Htag & _)]; [rewrite IH; reflexivity|].
  unfold has_tag in *. rewrite Htag. apply String.eqb_eq in Ht. rewrite Ht.
  cbn. exact IH.
Qed.

Lemma rename_registry_registries (attribute : string) (i : Z) (nm : string)
    (cs cs' : list Element) :
  rename_registry attribute i nm cs = Ok (Some cs') ->
  Forall2 (fun c c' => attrib c' = attrib c
                       /\ mapM id_of (children c') = mapM id_of (children c))
          (List.filter (has_tag "Attributes") cs) (List.filter (has_tag "Attributes") cs').
Proof.
  intros Hr. apply rename_registry_spec in Hr.
  induction Hr as [|c c' cs cs' Hc _ IH]; [constructor|]. cbn [List.filter].
  destruct Hc as [->|(Ht & Htag & Ha & Hids)].
  - destruct (has_tag "Attributes" c); [constructor; auto | exact IH].
  - unfold has_tag in *. rewrite Htag, Ht. constructor; auto.
Qed.

(** [validate_attributes] looks at a registry only through its [name]
    attribute and the ids of its entries. *)
Lemma validate_loop_ext (attributes : dict (option Z)) (recorded : option (dict Z))
    (l l' : list Element) :
  Forall2 (fun c c' => attrib c' = attrib c
                       /\ mapM id_of (children c') = mapM id_of (children c)) l l' ->
  forall names out,
    validate_loop attributes recorded l' names out
    = validate_loop attributes recorded l names out.
Proof.
  induction 1 as [|c c' l l' [Ha Hids] _ IH]; intros names out; [reflexivity|].
  cbn [validate_loop]. rewrite Ha, Hids.
  destruct (Dict.item "name" (attrib c)) as [name|]; cbn [mbind result_bind]; [|reflexivity].
  destruct (negb (Dict.contains name attributes)); [reflexivity|].
  destruct (mapM id_of (children c)) as [ids|]; cbn [mbind result_bind]; [|reflexivity].
  destruct (Dict.item name attributes) as [req|]; cbn [mbind result_bind]; [|reflexivity].
  match goal with
  | |- (?r ≫= _) = _ => destruct r as [v|]; cbn [mbind result_bind]; [apply IH | reflexivity]
  end.
Qed.

(** The document that [write_attribute_name] writes. *)
Lemma rename_xml_parts (w : world F) xml_path attribute i nm root1 :
  rename_xml w xml_path attribute i nm = Ok root1 ->
  exists root seqdesc viewsets seqdesc1 viewsets1,
    xml_files w !! xml_path = Some root
    /\ find "SequenceDescription" root = Some seqdesc
    /\ find "ViewSetups" seqdesc = Some viewsets
    /\ find "SequenceDescription" root1 = Some seqdesc1
    /\ find "ViewSetups" seqdesc1 = Some viewsets1
    /\ find "Timepoints" seqdesc1 = find "Timepoints" seqdesc
    /\ find "ImageLoader" seqdesc1 = find "ImageLoader" seqdesc
    /\ find "ViewRegistrations" root1 = find "ViewRegistrations" root
    /\ findall "ViewSetup" viewsets1 = findall "ViewSetup" viewsets
    /\ Forall2 (fun c c' => attrib c' = attrib c
                            /\ mapM id_of (children c') = mapM id_of (children c))
               (findall "Attributes" viewsets) (findall "Attributes" viewsets1).
Proof.
  unfold rename_xml, parse_root. intros Hr.
  destruct (xml_files w !! xml_path) as [root|]; [|discriminate].
  cbn [mbind result_bind] in Hr.
  apply bind_Ok in Hr as (seqdesc & Hsd & Hr). apply deref_Ok in Hsd.
  apply bind_Ok in Hr as (viewsets & Hvs & Hr). apply deref_Ok in Hvs.
  apply bind_Ok in Hr as ([cs|] & Hcs & Hr); [|discriminate]. injection Hr as <-.
  set (viewsets1 := set_children cs viewsets).
  set (seqdesc1 := put "ViewSetups" viewsets1 seqdesc).
  assert (Htv : tag viewsets1 = "ViewSetups") by (cbn; eapply ETFacts.find_tag; exact Hvs).
  assert (Hts : tag seqdesc1 = "SequenceDescription")
    by (unfold seqdesc1; rewrite tag_put; eapply ETFacts.find_tag; exact Hsd).
  exists root, seqdesc, viewsets, seqdesc1, viewsets1.
  split; [reflexivity|]. split; [exact Hsd|]. split; [exact Hvs|].
  split; [eapply ETFacts.find_put_eq; [exact Hsd | exact Hts]|].
  split; [eapply ETFacts.find_put_eq; [exact Hvs | exact Htv]|].
  split; [apply ETFacts.find_put_ne; [discriminate | exact Htv]|].
  split; [apply ETFacts.find_put_ne; [discriminate | exact Htv]|].
  split; [apply ETFacts.find_put_ne; [discriminate | exact Hts]|].
  split.
  - unfold findall. cbn [viewsets1 set_children children].
    eapply rename_registry_setups. exact Hcs.
  - unfold findall. cbn [viewsets1 set_children children].
    eapply rename_registry_registries. exact Hcs.
Qed.

(** X7: Naming an attribute id changes no id and nothing else that the
    functions of the module read from the document: after a successful
    [write_attribute_name], [validate_attributes], [get_attributes],
    [get_resolution], [get_affine], [get_time_range] and [get_bdv_format]
    return what they returned before. *)
Theorem write_attribute_name_keeps (w w1 : world F) (xml_path attribute : string)
    (attribute_id : Z) (attribute_name : string) :
  write_attribute_name w xml_path attribute attribute_id attribute_name = (w1, Ok tt) ->
  (forall attributes s,
      validate_attributes w1 xml_path attributes s
      = validate_attributes w xml_path attributes s)
  /\ (forall s, get_attributes w1 xml_path s = get_attributes w xml_path s)
  /\ (forall s, get_resolution w1 xml_path s = get_resolution w xml_path s)
  /\ (forall s t, get_affine w1 xml_path s t = get_affine w xml_path s t)
  /\ get_time_range w1 xml_path = get_time_range w xml_path
  /\ get_bdv_format w1 xml_path = get_bdv_format w xml_path.
Proof.
  unfold write_attribute_name.
  destruct (rename_xml w xml_path attribute attribute_id attribute_name)
    as [root1|] eqn:Hr; [|discriminate].
  intros [= <-].
  destruct (rename_xml_parts _ _ _ _ _ _ Hr)
    as (root & seqdesc & viewsets & seqdesc1 & viewsets1 & Hroot & Hsd & Hvs & Hsd1 & Hvs1
        & Htp & Himg & Hvr & Hsetups & Hregs).
  assert (Hp : parse_root w xml_path = Ok root)
    by (unfold parse_root; rewrite Hroot; reflexivity).
  split; [|split; [|split; [|split; [|split]]]].
  - intros attributes s. unfold validate_attributes. cbn [xml_files].
    rewrite lookup_insert_eq, Hroot, Hsd1, Hsd. cbn [deref mbind result_bind].
    rewrite Hvs1, Hvs. cbn [deref mbind result_bind]. rewrite Hsetups.
    destruct (first_with_id s (findall "ViewSetup" viewsets)) as [found|];
      cbn [mbind result_bind]; [|reflexivity].
    match goal with
    | |- (?r ≫= _) = _ => destruct r as [rec|]; cbn [mbind result_bind]; [|reflexivity]
    end.
    rewrite (validate_loop_ext _ _ _ _ Hregs). reflexivity.
  - intros s.
    rewrite (get_attributes_unfold _ _ _ _ _ _ (parse_root_written w xml_path root1) Hsd1 Hvs1).
    rewrite (get_attributes_unfold _ _ _ _ _ _ Hp Hsd Hvs), Hsetups. reflexivity.
  - intros s.
    rewrite (get_resolution_unfold _ _ _ _ _ _ (parse_root_written w xml_path root1) Hsd1 Hvs1).
    rewrite (get_resolution_unfold _ _ _ _ _ _ Hp Hsd Hvs), Hsetups. reflexivity.
  - intros s t. unfold get_affine. rewrite parse_root_written, Hp.
    cbn [mbind result_bind]. rewrite Hvr. reflexivity.
  - unfold get_time_range. cbn [xml_files]. rewrite lookup_insert_eq, Hroot.
    cbn [mbind result_bind]. rewrite Hsd1, Hsd. cbn [deref mbind result_bind].
    rewrite Htp. reflexivity.
  - unfold get_bdv_format. rewrite parse_root_written, Hp. cbn [mbind result_bind].
    rewrite Hsd1, Hsd. cbn [deref mbind result_bind]. rewrite Himg. reflexivity.
Qed.

End Rename.

Lemma write_attribute_name_keeps_witness :
  (write_attribute_name example_second "d.xml" "channel" 1 "DAPI").2 = Ok tt
  /\ validate_attributes (write_attribute_name example_second "d.xml" "channel" 1 "DAPI").1
                         "d.xml" [("channel", None)] 2
     = Ok [("channel", 2)]
  /\ get_attributes (write_attribute_name example_second "d.xml" "channel" 1 "DAPI").1
                    "d.xml" 1
     = Ok [("channel", 1)].
Proof.
  destruct (write_attribute_name_keeps example_second _ "d.xml" "channel" 1 "DAPI" eq_refl)
    as (Hv & Ha & _).
  split; [reflexivity|]. rewrite Hv, Ha. split; reflexivity.
Defined.

(** ** The attribute registries *)

Section Registries.

Context {F : Type} `{PyFloat F}.

Lemma rename_entry_written (xml_name : string) (i : Z) (nm : string)
    (es es' : list Element) :
  rename_entry xml_name i nm es = Ok (Some es') ->
  exists e n, In e es' /\ has_tag xml_name e = true /\ id_of e = Ok i
              /\ find "name" e = Some n /\ text n = written_text nm.
Proof.
  revert es'. induction es as [|e es IH]; intros es'; cbn [rename_entry]; [discriminate|].
  assert (Hrest : forall es',
             (r ← rename_entry xml_name i nm es; Ok (option_map (cons e) r)) = Ok (Some es') ->
             exists e n, In e es' /\ has_tag xml_name e = true /\ id_of e = Ok i
                         /\ find "name" e = Some n /\ text n = written_text nm).
  { intros es2 Hr. apply bind_Ok in Hr as ([r|] & Hr & Heq); [|discriminate].
    injection Heq as <-. destruct (IH _ Hr) as (e' & n & Hin & Hmore).
    exists e', n. split; [right; exact Hin | exact Hmore]. }
  destruct (has_tag xml_name e) eqn:Htag; [|apply Hrest].
  destruct (id_of e) as [j|err] eqn:Hj; cbn [mbind result_bind]; [|discriminate].
  destruct (Z.eqb j i) eqn:Hji; [|apply Hrest].
  intros Hr. apply bind_Ok in Hr as (n & Hn & Hr). apply deref_Ok in Hn.
  injection Hr as <-. apply Z.eqb_eq in Hji. subst j.
  assert (Htn : tag (write_text nm n) = "name") by (cbn; eapply ETFacts.find_tag; exact Hn).
  exists (put "name" (write_text nm n) e), (write_text nm n).
  split; [left; reflexivity|]. split; [exact Htag|].
  split; [rewrite id_of_put_name; [exact Hj | exact Htn]|].
  split; [eapply ETFacts.find_put_eq; [exact Hn | exact Htn] | reflexivity].
Qed.

Lemma rename_registry_written (attribute : string) (i : Z) (nm : string)
    (cs cs' : list Element) :
  rename_registry attribute i nm cs = Ok (Some cs') ->
  exists registry e n,
    In registry (List.filter (has_tag "Attributes") cs')
    /\ Dict.get "name" (attrib registry) = Some attribute
    /\ In e (findall (PyStr.capitalize attribute) registry)
    /\ id_of e = Ok i /\ find "name" e = Some n /\ text n = written_text nm.
Proof.
  revert cs'. induction cs as [|c cs IH]; intros cs'; cbn [rename_registry]; [discriminate|].
  assert (Hrest : forall cs',
             (r ← rename_registry attribute i nm cs; Ok (option_map (cons c) r))
             = Ok (Some cs') ->
             exists registry e n,
               In registry (List.filter (has_tag "Attributes") cs')
               /\ Dict.get "name" (attrib registry) = Some attribute
               /\ In e (findall (PyStr.capitalize attribute) registry)
               /\ id_of e = Ok i /\ find "name" e = Some n /\ text n = written_text nm).
  { intros cs2 Hr. apply bind_Ok in Hr as ([r|] & Hr & Heq); [|discriminate].
    injection Heq as <-. destruct (IH _ Hr) as (reg & e & n & Hin & Hmore).
    exists reg, e, n. split; [|exact Hmore].
    cbn [List.filter]. destruct (has_tag "Attributes" c); [right|]; exact Hin. }
  destruct (has_tag "Attributes" c) eqn:Htag; [|apply Hrest].
  intros Hr. apply bind_Ok in Hr as (name & Hname & Hr).
  apply bind_Ok in Hr as (written & Hwritten & Hr).
  destruct written as [entries|]; [|apply Hrest; exact Hr].
  injection Hr as <-.
  destruct (String.eqb_spec name attribute) as [->|]; [|discriminate].
  destruct (rename_entry_written _ _ _ _ _ Hwritten) as (e & n & Hin & He & Hmore).
  exists (set_children entries c), e, n.
  split; [cbn [List.filter]; change (has_tag "Attributes" (set_children entries c))
                               with (has_tag "Attributes" c); rewrite Htag; left; reflexivity|].
  split; [apply DictFacts.item_Ok; exact Hname|].
  split; [|exact Hmore].
  unfold findall. cbn [set_children children]. apply filter_In. auto.
Qed.

(** X8: After [write_attribute_name] succeeded with a name that is plain
    text (not empty, no control characters), the registry of the attribute
    has an entry with the id whose name is the name that was written. *)
Theorem write_attribute_name_written (w w1 : world F) (xml_path attribute : string)
    (attribute_id : Z) (attribute_name : string) :
  PyStr.plain attribute_name = true ->
  write_attribute_name w xml_path attribute attribute_id attribute_name = (w1, Ok tt) ->
  exists setups registry entry name,
    doc_setups w1 xml_path = Some setups
    /\ In registry (findall "Attributes" setups)
    /\ Dict.get "name" (attrib registry) = Some attribute
    /\ In entry (findall (PyStr.capitalize attribute) registry)
    /\ id_of entry = Ok attribute_id
    /\ find "name" entry = Some name
    /\ text name = Some attribute_name.
Proof.
  intros Hplain. unfold write_attribute_name.
  destruct (rename_xml w xml_path attribute attribute_id attribute_name)
    as [root1|] eqn:Hr; [|discriminate].
  intros [= <-].
  destruct (rename_xml_parts _ _ _ _ _ _ Hr)
    as (root & seqdesc & viewsets & seqdesc1 & viewsets1 & Hroot & Hsd & Hvs & Hsd1 & Hvs1 & _).
  unfold rename_xml, parse_root in Hr. rewrite Hroot in Hr. cbn [mbind result_bind] in Hr.
  rewrite Hsd in Hr. cbn [deref mbind result_bind] in Hr.
  rewrite Hvs in Hr. cbn [deref mbind result_bind] in Hr.
  apply bind_Ok in Hr as ([cs|] & Hcs & Hr); [|discriminate]. injection Hr as Hr.
  subst root1.
  rewrite (ETFacts.find_put_eq _ _ _ _ Hsd) in Hsd1
    by (rewrite tag_put; eapply ETFacts.find_tag; exact Hsd).
  injection Hsd1 as <-.
  rewrite (ETFacts.find_put_eq _ _ _ _ Hvs) in Hvs1
    by (cbn; eapply ETFacts.find_tag; exact Hvs).
  injection Hvs1 as <-.
  destruct (rename_registry_written _ _ _ _ _ Hcs) as (reg & e & n & Hin & Hmore).
  rewrite (TextFacts.written_text_plain _ Hplain) in Hmore.
  exists (set_children cs viewsets), reg, e, n. split; [|split; [exact Hin | exact Hmore]].
  unfold doc_setups. cbn [xml_files]. rewrite lookup_insert_eq. cbn [mbind option_bind].
  rewrite (ETFacts.find_put_eq _ _ _ _ Hsd)
    by (rewrite tag_put; eapply ETFacts.find_tag; exact Hsd).
  cbn [mbind option_bind].
  eapply ETFacts.find_put_eq; [exact Hvs|]. cbn. eapply ETFacts.find_tag. exact Hvs.
Qed.

(** *** Registries under [write_xml_metadata] *)

Lemma update_attrset_grows (attributes : dict Z) (a a' : Element) :
  update_attrset attributes a = Ok a' ->
  attrib a' = attrib a /\ exists extra, children a' = (children a ++ extra)%list.
Proof.
  unfold update_attrset. intros Hu.
  apply bind_Ok in Hu as (name & _ & Hu).
  destruct (Dict.get name attributes) as [i|]; [|discriminate].
  apply bind_Ok in Hu as (ids & _ & Hu).
  destruct (existsb (Z.eqb i) ids); injection Hu as <-.
  - split; [reflexivity|]. exists []. rewrite app_nil_r. reflexivity.
  - split; [reflexivity|]. eexists. reflexivity.
Qed.

Lemma update_attributes_grow (viewsets viewsets' : Element) (attributes : dict Z) :
  _update_attributes viewsets attributes = Ok viewsets' ->
  Forall2 (fun a a' => attrib a' = attrib a
                       /\ exists extra, children a' = (children a ++ extra)%list)
          (findall "Attributes" viewsets) (findall "Attributes" viewsets').
Proof.
  unfold _update_attributes. intros Hu. apply bind_Ok in Hu as (cs & Hcs & Hu).
  injection Hu as <-. unfold findall. cbn [set_children children].
  apply mapM_Forall2 in Hcs.
  induction Hcs as [|c c' l l' Hc _ IH]; [constructor|]. cbn [List.filter].
  destruct (has_tag "Attributes" c) eqn:Htag.
  - assert (Htag' : has_tag "Attributes" c' = true).
    { unfold has_tag in *. rewrite (update_attrset_tag _ _ _ Hc). exact Htag. }
    rewrite Htag'. constructor; [eapply update_attrset_grows; exact Hc | exact IH].
  - injection Hc as <-. rewrite Htag. exact IH.
Qed.

(** X9: [write_xml_metadata] only adds to the attribute registries of an
    existing document: every registry keeps its attributes and its
    entries, in order, so ids and the names given to them stay. *)
Theorem write_xml_metadata_registries_grow (w w1 : world F)
    (xml_path data_path unit : string) (resolution : list F) (is_h5 : bool)
    (setup_id timepoint : Z) (setup_name : option string)
    (affine : option (affine_arg F)) (attributes : dict Z) (setups : Element) :
  doc_setups w xml_path = Some setups ->
  write_xml_metadata w xml_path data_path unit resolution is_h5 setup_id timepoint
                     setup_name affine attributes = (w1, Ok tt) ->
  exists setups1,
    doc_setups w1 xml_path = Some setups1
    /\ Forall2 (fun a a' => attrib a' = attrib a
                            /\ exists extra, children a' = (children a ++ extra)%list)
               (findall "Attributes" setups) (findall "Attributes" setups1).
Proof.
  intros Hdoc Hw. apply write_xml_metadata_Ok in Hw as (root1 & Hb & ->).
  destruct (build_xml_parts _ _ _ _ _ _ _ _ _ _ _ _ Hb)
    as (h & v1 & vregs & reg & sd1 & shape & Hh & _ & Hreq & _ & _ & Hsd1 & Hvs1 & _).
  unfold doc_setups in Hdoc.
  destruct (xml_files w !! xml_path) as [root|]; [|discriminate]. cbn in Hdoc.
  destruct (load_document_parts _ _ _ _ Hh) as (seqdesc & viewsets0 & Hsd & Hvs & Hup & _).
  rewrite Hsd in Hdoc. cbn in Hdoc. rewrite Hvs in Hdoc. injection Hdoc as <-.
  exists v1. split.
  - unfold doc_setups. cbn [xml_files]. rewrite lookup_insert_eq. cbn [mbind option_bind].
    rewrite Hsd1. cbn [mbind option_bind]. exact Hvs1.
  - apply update_attributes_grow in Hup.
    destruct (require_view_setup_cases _ _ _ _ _ _ _ _ Hreq)
      as (dz & dy & dx & nz & ny & nx & _ & _ & [(vs & _ & _ & ->)|[_ ->]]); [exact Hup|].
    rewrite ETFacts.findall_SubElement.
    change (has_tag "Attributes" (new_view_setup _ _ _ _ _ _ _ _ _ _)) with false.
    rewrite app_nil_r. exact Hup.
Qed.

End Registries.

Lemma write_attribute_name_written_witness :
  exists setups registry entry name,
    doc_setups (write_attribute_name example_second "d.xml" "channel" 1 "DAPI").1 "d.xml"
    = Some setups
    /\ In registry (findall "Attributes" setups)
    /\ Dict.get "name" (attrib registry) = Some "channel"
    /\ In entry (findall (PyStr.capitalize "channel") registry)
    /\ id_of entry = Ok 1
    /\ find "name" entry = Some name
    /\ text name = Some "DAPI".
Proof.
  exact (write_attribute_name_written example_second _ "d.xml" "channel" 1 "DAPI"
           eq_refl eq_refl).
Defined.

(** The name has to be plain text: [attribute_name=''] leaves a [name]
    element without text in the file. *)
Lemma write_attribute_name_empty :
  (write_attribute_name example_second "d.xml" "channel" 1 "").2 = Ok tt
  /\ example_entry_name (write_attribute_name example_second "d.xml" "channel" 1 "DAPI").1
     = Some (Some "DAPI")
  /\ example_entry_name (write_attribute_name example_second "d.xml" "channel" 1 "").1
     = Some None.
Proof. repeat split; reflexivity. Qed.

Lemma write_xml_metadata_registries_grow_witness :
  exists setups setups1,
    doc_setups example_first "d.xml" = Some setups
    /\ doc_setups example_second "d.xml" = Some setups1
    /\ Forall2 (fun a a' => attrib a' = attrib a
                            /\ exists extra, children a' = (children a ++ extra)%list)
               (findall "Attributes" setups) (findall "Attributes" setups1).
Proof.
  destruct (doc_setups example_first "d.xml") as [setups|] eqn:Hdoc;
    [|vm_compute in Hdoc; discriminate Hdoc].
  destruct (write_xml_metadata_registries_grow example_first example_second
              "d.xml" "d.h5" "micrometer" [2; 2; 2] true 1 0 (Some "second")
              (Some (AffineList [1; 0; 0; 5; 0; 1; 0; 6; 0; 0; 1; 7])) [("channel", 1)]
              setups Hdoc eq_refl) as (setups1 & Hdoc1 & Hgrow).
  exists setups, setups1. auto.
Defined.

(** ** [validate_attributes] before [_update_attributes] *)

Section ValidateThenUpdate.

Context {F : Type} `{PyFloat F}.

Lemma contains_set {V} (k name : string) (v : V) (d : dict V) :
  Dict.contains k d = true -> Dict.contains k (Dict.set name v d) = true.
Proof.
  unfold Dict.contains. destruct (String.eqb_spec name k) as [->|Hne].
  - rewrite DictFacts.get_set_eq. reflexivity.
  - rewrite DictFacts.get_set_ne by exact Hne. auto.
Qed.

Lemma contains_set_eq {V} (name : string) (v : V) (d : dict V) :
  Dict.contains name (Dict.set name v d) = true.
Proof. unfold Dict.contains. rewrite DictFacts.get_set_eq. reflexivity. Qed.

(** After the loop of [validate_attributes], the returned mapping has the
    name of every registry, and the ids of every registry were read. *)
Lemma validate_loop_names (attributes : dict (option Z)) (recorded : option (dict Z))
    (l : list Element) :
  forall names out names' out',
    validate_loop attributes recorded l names out = Ok (names', out') ->
    (forall k, Dict.contains k out = true -> Dict.contains k out' = true)
    /\ forall a, In a l ->
         exists name, Dict.item "name" (attrib a) = Ok name
                      /\ Dict.contains name out' = true
                      /\ exists ids, mapM id_of (children a) = Ok ids.
Proof.
  induction l as [|a l IH]; intros names out names' out' Hl; cbn [validate_loop] in Hl.
  - injection Hl as <- <-. split; [auto | intros a []].
  - apply bind_Ok in Hl as (name & Hname & Hl).
    destruct (negb (Dict.contains name attributes)); [discriminate|].
    apply bind_Ok in Hl as (ids & Hids & Hl).
    apply bind_Ok in Hl as (req & _ & Hl).
    apply bind_Ok in Hl as (v & _ & Hl).
    apply IH in Hl as [Hkeep Hall]. split.
    + intros k Hk. apply Hkeep, contains_set. exact Hk.
    + intros a' [<-|Hin]; [|auto].
      exists name. split; [exact Hname|]. split; [apply Hkeep, contains_set_eq | eauto].
Qed.

Lemma mapM_filter_Ok {A B} (f : A -> result B) (p : A -> bool) (l : list A) (bs : list B) :
  mapM f l = Ok bs -> exists bs', mapM f (List.filter p l) = Ok bs'.
Proof.
  revert bs. induction l as [|a l IH]; intros bs; cbn [mapM List.filter]; [eauto|].
  intros Hm. apply bind_Ok in Hm as (b & Hb & Hm). apply bind_Ok in Hm as (bs0 & Hbs & _).
  destruct (IH _ Hbs) as (bs' & Hbs'). destruct (p a); [|eauto].
  cbn [mapM]. rewrite Hb, Hbs'. eauto.
Qed.

(** X10: The mapping that [validate_attributes] returns for an existing
    document is one that [_update_attributes] accepts: it has every
    registered name, so the assertion of [_update_attributes] holds, and
    the update succeeds. *)
Theorem validate_attributes_then_update (w : world F) (xml_path : string)
    (attributes : dict (option Z)) (setup_id : Z) (setups : Element) (out : dict Z) :
  doc_setups w xml_path = Some setups ->
  validate_attributes w xml_path attributes setup_id = Ok out ->
  exists setups', _update_attributes setups out = Ok setups'.
Proof.
  intros Hdoc Hv.
  destruct (validate_attributes_Ok _ _ _ _ _ _ Hdoc Hv) as (recorded & names & _ & Hloop & _).
  apply validate_loop_names in Hloop as [_ Hall].
  unfold _update_attributes.
  destruct (mapM_Ok_all
              (fun c => if has_tag "Attributes" c then update_attrset out c else Ok c)
              (children setups)) as (cs & Hcs).
  - intros c Hc. destruct (has_tag "Attributes" c) eqn:Htag; [|eauto].
    destruct (Hall c) as (name & Hname & Hcontains & ids & Hids).
    { unfold findall. apply filter_In. auto. }
    unfold update_attrset. rewrite Hname. cbn [mbind result_bind].
    unfold Dict.contains in Hcontains.
    destruct (Dict.get name out) as [i|]; [|discriminate].
    destruct (mapM_filter_Ok id_of (has_tag (PyStr.capitalize name)) _ _ Hids) as (ids' & Hids').
    unfold findall. rewrite Hids'. cbn [mbind result_bind].
    destruct (existsb (Z.eqb i) ids'); eauto.
  - rewrite Hcs. cbn [mbind result_bind]. eauto.
Qed.

End ValidateThenUpdate.

Lemma validate_attributes_then_update_witness :
  exists setups setups',
    doc_setups example_first "d.xml" = Some setups
    /\ validate_attributes example_first "d.xml" [("channel", None)] 1 = Ok [("channel", 1)]
    /\ _update_attributes setups [("channel", 1)] = Ok setups'.
Proof.
  destruct (doc_setups example_first "d.xml") as [setups|] eqn:Hdoc;
    [|vm_compute in Hdoc; discriminate Hdoc].
  destruct (validate_attributes_then_update example_first "d.xml" [("channel", None)] 1
              setups [("channel", 1)] Hdoc eq_refl) as (setups' & Hup).
  exists setups, setups'. auto.
Defined.

(** ** [handle_setup_id]: ids that are taken *)

(** X11: [handle_setup_id] returns an id that is already in the container only
    when that id was asked for and the user answered [y] at the prompt;
    with any other answer the process exits with status 0. *)
Theorem handle_setup_id_no_reuse (setup_id : option Z) (keys : list string)
    (ids : list Z) (answer : string) :
  member_ids keys = Ok ids ->
  (forall r, Converter.handle_setup_id setup_id (Some keys) answer = Ok r ->
             In r ids -> setup_id = Some r /\ answer = "y")
  /\ (forall s, setup_id = Some s -> In s ids -> answer <> "y" ->
                Converter.handle_setup_id setup_id (Some keys) answer
                = Err (SystemExit 0)).
Proof.
  intros Hids. unfold member_ids in Hids. unfold Converter.handle_setup_id.
  rewrite Hids. cbn [mbind result_bind]. split.
  - intros r Hr Hin. destruct setup_id as [s|].
    + destruct (existsb (Z.eqb s) ids) eqn:Hex.
      * destruct (String.eqb_spec answer "y") as [->|Hne]; cbn in Hr; [|discriminate].
        destruct (s <? 100); [|discriminate]. injection Hr as <-. auto.
      * cbn in Hr. destruct (s <? 100); [|discriminate]. injection Hr as <-.
        exfalso. apply not_true_iff_false in Hex. apply Hex. apply existsb_exists.
        exists s. split; [exact Hin | apply Z.eqb_refl].
    + exfalso. apply bind_Ok in Hr as (sid & Hmax & Hr).
      apply bind_Ok in Hmax as (m & Hm & Hmax). injection Hmax as <-.
      destruct (m + 1 <? 100); [|discriminate]. injection Hr as <-.
      apply max_Ok in Hm as [_ Hle]. specialize (Hle _ Hin). lia.
  - intros s -> Hin Hne.
    assert (Hex : existsb (Z.eqb s) ids = true).
    { apply existsb_exists. exists s. split; [exact Hin | apply Z.eqb_refl]. }
    rewrite Hex. apply String.eqb_neq in Hne. rewrite Hne. reflexivity.
Qed.

Lemma handle_setup_id_no_reuse_witness :
  Converter.handle_setup_id (Some 5) (Some ["s00"; "s05"]) "" = Err (SystemExit 0)
  /\ Converter.handle_setup_id (Some 5) (Some ["s00"; "s05"]) "y" = Ok 5.
Proof.
  destruct (handle_setup_id_no_reuse (Some 5) ["s00"; "s05"] [0; 5] "" eq_refl)
    as [_ Hexit].
  split; [|reflexivity].
  apply (Hexit 5); [reflexivity | right; left; reflexivity | discriminate].
Defined.

(** ** [write_n5_metadata]: repeated and conflicting calls *)

Section N5Again.

Context {F : Type} `{PyFloat F}.

Lemma node_eta (n : node F) : mkNode (attrs n) (array n) = n.
Proof. destruct n. reflexivity. Qed.

(** Setting an attribute to the value it has changes nothing. *)
Lemma set_attr_id key name v (f : gmap string (node F)) n :
  f !! key = Some n -> attrs n !! name = Some v -> set_attr key name v f = f.
Proof.
  intros Hn Hv. unfold set_attr. rewrite Hn.
  rewrite (insert_id (attrs n) name v Hv), node_eta. apply insert_id. exact Hn.
Qed.

Lemma set_attr_array key name v (f : gmap string (node F)) key' :
  array <$> set_attr key name v f !! key' = array <$> f !! key'.
Proof.
  unfold set_attr. destruct (f !! key) as [n|] eqn:Hn; [|reflexivity].
  destruct (decide (key = key')) as [<-|Hne].
  - rewrite lookup_insert_eq, Hn. reflexivity.
  - rewrite lookup_insert_ne by exact Hne. reflexivity.
Qed.

Lemma n5_levels_array (g : string) effs :
  forall (scale : Z) (f f' : gmap string (node F)) r,
    n5_levels g scale effs f = (f', r) ->
    forall key, array <$> f' !! key = array <$> f !! key.
Proof.
  induction effs as [|factor effs IH]; intros scale f f' r Hl key; cbn in Hl.
  - injection Hl as <- _. reflexivity.
  - destruct (getitem f _); [|injection Hl as <- _; reflexivity].
    rewrite (IH _ _ _ _ Hl key). apply set_attr_array.
Qed.

Lemma get_dataset_array (f f' : gmap string (node F)) key :
  array <$> f' !! key = array <$> f !! key -> get_dataset f' key = get_dataset f key.
Proof.
  unfold get_dataset, getitem. intros Ha.
  destruct (f' !! key) as [n'|], (f !! key) as [n|]; cbn in Ha |- *;
    try discriminate; [|reflexivity].
  injection Ha as ->. reflexivity.
Qed.

(** The loop over the levels changes nothing when every level group
    already has its factor. *)
Lemma n5_levels_id (g : string) effs :
  forall (scale : Z) (f : gmap string (node F)),
    (forall (k : nat) factor, effs !! k = Some factor ->
       exists n, f !! level_key g (scale + Z.of_nat k) = Some n
                 /\ attrs n !! "downsamplingFactors" = Some (AFactor factor)) ->
    n5_levels g scale effs f = (f, Ok tt).
Proof.
  induction effs as [|factor effs IH]; intros scale f Hall; cbn [n5_levels]; [reflexivity|].
  fold (level_key g scale).
  destruct (Hall O factor eq_refl) as (n & Hn & Ha). rewrite Z.add_0_r in Hn.
  unfold getitem. rewrite Hn. rewrite (set_attr_id _ _ _ _ _ Hn Ha).
  apply IH. intros k fac Hk. destruct (Hall (S k) fac Hk) as (n' & Hn' & Ha').
  exists n'. split; [|exact Ha'].
  replace (scale + 1 + Z.of_nat k) with (scale + Z.of_nat (S k)) by lia. exact Hn'.
Qed.

Lemma n5_keys_apart (setup_id timepoint : Z) :
  let root_key := get_key false None (Some setup_id) None in
  let group_key := get_key false (Some timepoint) (Some setup_id) None in
  root_key <> group_key
  /\ (forall j, root_key <> level_key group_key j)
  /\ (forall j, group_key <> level_key group_key j)
  /\ get_key false (Some timepoint) (Some setup_id) (Some 0) = level_key group_key 0.
Proof.
  intros root_key group_key.
  pose proof (n5_group_longer setup_id timepoint) as Hlt. fold root_key group_key in Hlt.
  split; [|split; [|split]].
  - intros E. rewrite E in Hlt. lia.
  - intros j E. pose proof (level_key_longer group_key j) as Hlt'. rewrite <- E in Hlt'. lia.
  - intros j E. pose proof (level_key_longer group_key j) as Hlt'. rewrite <- E in Hlt'. lia.
  - unfold group_key, level_key. cbn [get_key]. rewrite !append_assoc. reflexivity.
Qed.

(** What the body of [write_n5_metadata] leaves in the container when it
    succeeds. *)
Lemma n5_body_Ok effs (resolution : list F) (setup_id timepoint : Z)
    (f0 f' : gmap string (node F)) :
  n5_body effs resolution setup_id timepoint f0 = (f', Ok tt) ->
  let root_key := get_key false None (Some setup_id) None in
  let group_key := get_key false (Some timepoint) (Some setup_id) None in
  exists ds root grp,
    get_dataset f0 (get_key false (Some timepoint) (Some setup_id) (Some 0)) = Ok ds
    /\ (forall key, array <$> f' !! key = array <$> f0 !! key)
    /\ f' !! root_key
       = Some (mkNode (<["dataType" := AStr (a_dtype (ds_data ds))]>
                         (<["downsamplingFactors" := AFactors effs]> (attrs root)))
                      (array root))
    /\ f' !! group_key
       = Some (mkNode (<["resolution" := AFloats (rev resolution)]>
                         (<["multiScale" := ABool true]> (attrs grp)))
                      (array grp))
    /\ forall (k : nat) factor, effs !! k = Some factor ->
         exists n, f' !! level_key group_key (Z.of_nat k) = Some n
                   /\ attrs n !! "downsamplingFactors" = Some (AFactor factor).
Proof.
  intros Hb root_key group_key.
  destruct (n5_keys_apart setup_id timepoint) as (Hrg & Hrl & Hgl & _).
  fold root_key group_key in Hrg, Hrl, Hgl.
  unfold n5_body in Hb. fold root_key in Hb. fold group_key in Hb.
  destruct (get_dataset f0 _) as [ds|] eqn:Hds; [|discriminate].
  destruct (getitem f0 root_key) as [root|] eqn:Hroot; [|discriminate].
  destruct (match attrs root !! "downsamplingFactors" with
            | Some v => negb (attr_eqb v (AFactors effs)) | None => false end);
    [discriminate|].
  destruct (match attrs root !! "dataType" with
            | Some v => negb (attr_eqb v (AStr (a_dtype (ds_data ds)))) | None => false end);
    [discriminate|].
  set (f1 := set_attr root_key "downsamplingFactors" (AFactors effs) f0) in *.
  set (f2 := set_attr root_key "dataType" (AStr (a_dtype (ds_data ds))) f1) in *.
  destruct (getitem f2 group_key) as [grp|] eqn:Hgrp; [|discriminate].
  set (f3 := set_attr group_key "multiScale" (ABool true) f2) in *.
  set (f4 := set_attr group_key "resolution" (AFloats (rev resolution)) f3) in *.
  unfold getitem in Hroot. destruct (f0 !! root_key) as [root0|] eqn:Hr0; [|discriminate].
  injection Hroot as ->.
  unfold getitem in Hgrp. destruct (f2 !! group_key) as [grp0|] eqn:Hg2; [|discriminate].
  injection Hgrp as ->.
  exists ds, root, grp. split; [reflexivity|]. split; [|split; [|split]].
  - intros key. rewrite (n5_levels_array _ _ _ _ _ _ Hb key).
    unfold f4, f3, f2, f1. rewrite !set_attr_array. reflexivity.
  - rewrite (n5_levels_frame _ _ _ _ _ _ Hb root_key Hrl).
    unfold f4, f3. rewrite !set_attr_ne by (intros E; symmetry in E; contradiction).
    unfold f2.
    rewrite (set_attr_eq _ _ _ _
               (mkNode (<["downsamplingFactors" := AFactors effs]> (attrs root))
                       (array root)));
      [reflexivity|].
    unfold f1. apply set_attr_eq. exact Hr0.
  - rewrite (n5_levels_frame _ _ _ _ _ _ Hb group_key Hgl).
    unfold f4.
    rewrite (set_attr_eq _ _ _ _
               (mkNode (<["multiScale" := ABool true]> (attrs grp)) (array grp)));
      [reflexivity|].
    unfold f3. apply set_attr_eq. exact Hg2.
  - intros k factor Hk.
    destruct (n5_levels_Ok _ _ _ _ _ Hb k factor Hk) as (n & Hn & Ha).
    rewrite Z.add_0_l in Hn. eauto.
Qed.

Lemma attr_eqb_factors_refl (l : list (list Z)) :
  attr_eqb (F := F) (AFactors l) (AFactors l) = true.
Proof. cbn. apply list_eqb_ZZ. reflexivity. Qed.

(** A container that the body left behind is one that the body leaves as
    it is. *)
Lemma n5_body_again effs (resolution : list F) (setup_id timepoint : Z)
    (f0 f' : gmap string (node F)) :
  n5_body effs resolution setup_id timepoint f0 = (f', Ok tt) ->
  n5_body effs resolution setup_id timepoint f' = (f', Ok tt).
Proof.
  intros Hb.
  destruct (n5_body_Ok _ _ _ _ _ _ Hb) as (ds & root & grp & Hds & Harr & Hroot & Hgrp & Hlev).
  unfold n5_body.
  rewrite (get_dataset_array _ _ _ (Harr _)), Hds.
  unfold getitem at 1. rewrite Hroot. cbn [attrs].
  rewrite lookup_insert_ne by discriminate. rewrite lookup_insert_eq.
  rewrite attr_eqb_factors_refl. cbn [negb].
  rewrite (set_attr_id _ _ _ _ _ Hroot)
    by (cbn [attrs]; rewrite lookup_insert_ne by discriminate; apply lookup_insert_eq).
  rewrite lookup_insert_eq. cbn [attr_eqb]. rewrite String.eqb_refl. cbn [negb].
  rewrite (set_attr_id _ _ _ _ _ Hroot) by (cbn [attrs]; apply lookup_insert_eq).
  unfold getitem. rewrite Hgrp.
  rewrite (set_attr_id _ _ _ _ _ Hgrp)
    by (cbn [attrs]; rewrite lookup_insert_ne by discriminate; apply lookup_insert_eq).
  rewrite (set_attr_id _ _ _ _ _ Hgrp) by (cbn [attrs]; apply lookup_insert_eq).
  apply n5_levels_id. intros k factor Hk. rewrite Z.add_0_l. auto.
Qed.

(** X12: [write_n5_metadata] is idempotent: after a successful call, the same
    call again succeeds and leaves the container as it is. *)
Theorem write_n5_metadata_idempotent (w w1 : world F) (path : string)
    (scale_factors : list (list Z)) (resolution : list F) (setup_id timepoint : Z) :
  write_n5_metadata w path scale_factors resolution setup_id timepoint = (w1, Ok tt) ->
  write_n5_metadata w1 path scale_factors resolution setup_id timepoint = (w1, Ok tt).
Proof.
  unfold write_n5_metadata. destruct scale_factors as [|first rest]; [discriminate|].
  destruct (n5_body _ _ _ _ (open_append w path)) as [f' r] eqn:Hb.
  intros [= <- ->].
  assert (Hopen : open_append (close w path f') path = f').
  { unfold open_append, close. cbn. rewrite lookup_insert_eq. reflexivity. }
  rewrite Hopen, (n5_body_again _ _ _ _ _ _ Hb).
  rewrite world_close_same; [reflexivity|]. cbn. apply lookup_insert_eq.
Qed.

Lemma n5_effective_scales_factors (first : list Z) (rest : list (list Z)) :
  n5_effective_scales [first] rest
  = map (n5_factor_at (first :: rest)) (seq 0 (length (first :: rest))).
Proof.
  apply list_eq. intros k.
  destruct (decide (k < S (length rest))%nat) as [Hk|Hk].
  - rewrite n5_effective_scales_lookup by exact Hk.
    rewrite list_lookup_fmap. cbn [length].
    rewrite (lookup_seq_lt 0 (S (length rest)) k) by exact Hk. reflexivity.
  - rewrite !lookup_ge_None_2; [reflexivity | |].
    + rewrite length_map, length_seq. cbn. lia.
    + rewrite n5_effective_scales_length. lia.
Qed.

(** X13: [write_n5_metadata] on a setup root that records other metadata.
    Recorded factors that differ from the computed ones make the call fail
    and leave the container as it is.  A recorded element type that
    differs makes the call fail too, but only after the factors were
    written: a root without factors has them after the failed call. *)
Theorem write_n5_metadata_inconsistent (w : world F) (path : string)
    (scale_factors : list (list Z)) (resolution : list F) (setup_id timepoint : Z)
    (f : gmap string (node F)) (ds : dataset) (root : node F) :
  let root_key := get_key false None (Some setup_id) None in
  let factors := AFactors (F := F)
                   (map (n5_factor_at scale_factors) (seq 0 (length scale_factors))) in
  scale_factors <> [] ->
  containers w !! path = Some f ->
  get_dataset f (get_key false (Some timepoint) (Some setup_id) (Some 0)) = Ok ds ->
  f !! root_key = Some root ->
  (forall v, attrs root !! "downsamplingFactors" = Some v ->
             attr_eqb v factors = false ->
             write_n5_metadata w path scale_factors resolution setup_id timepoint
             = (w, Err (inconsistent setup_id)))
  /\ (forall v, attrs root !! "downsamplingFactors" = None ->
                attrs root !! "dataType" = Some v ->
                attr_eqb v (AStr (a_dtype (ds_data ds))) = false ->
                exists w',
                  write_n5_metadata w path scale_factors resolution setup_id timepoint
                  = (w', Err (inconsistent setup_id))
                  /\ attr_at w' path root_key "downsamplingFactors" = Some factors
                  /\ attr_at w' path root_key "dataType" = Some v).
Proof.
  intros root_key factors Hne Hf Hds Hroot.
  destruct scale_factors as [|first rest]; [contradiction|].
  unfold factors. rewrite <- n5_effective_scales_factors.
  assert (Hopen : open_append w path = f) by (unfold open_append; rewrite Hf; reflexivity).
  unfold write_n5_metadata, n5_body. fold root_key. rewrite Hopen, Hds. split.
  - intros v Hv Hneq. unfold getitem at 1. rewrite Hroot, Hv, Hneq. cbn [negb].
    rewrite world_close_same by exact Hf. reflexivity.
  - intros v Hnone Hv Hneq. unfold getitem at 1. rewrite Hroot, Hnone, Hv, Hneq. cbn [negb].
    eexists. split; [reflexivity|].
    rewrite !attr_at_close, (set_attr_eq _ _ _ _ _ Hroot). cbn [mbind option_bind attrs].
    split; [apply lookup_insert_eq|]. rewrite lookup_insert_ne by discriminate. exact Hv.
Qed.

End N5Again.

Lemma write_n5_metadata_idempotent_witness :
  write_n5_metadata example_n5_written "d.n5" [[1; 1; 1]; [1; 2; 2]] [1; 2; 3] 0 0
  = (example_n5_written, Ok tt).
Proof.
  apply (write_n5_metadata_idempotent example_world). reflexivity.
Defined.

Lemma write_n5_metadata_inconsistent_witness :
  write_n5_metadata example_n5_written "d.n5" [[1; 1; 1]; [2; 2; 2]] [1; 2; 3] 0 0
  = (example_n5_written, Err (inconsistent 0)).
Proof.
  destruct (containers example_n5_written !! "d.n5") as [f|] eqn:Hf;
    [|vm_compute in Hf; discriminate Hf].
  destruct (get_dataset f "setup0/timepoint0/s0") as [ds|] eqn:Hds;
    [|vm_compute in Hf; injection Hf as <-; vm_compute in Hds; discriminate Hds].
  destruct (f !! "setup0") as [root|] eqn:Hroot;
    [|vm_compute in Hf; injection Hf as <-; vm_compute in Hroot; discriminate Hroot].
  destruct (write_n5_metadata_inconsistent example_n5_written "d.n5"
              [[1; 1; 1]; [2; 2; 2]] [1; 2; 3] 0 0 f ds root
              ltac:(discriminate) Hf Hds Hroot) as [Hfactors _].
  apply (Hfactors (AFactors [[1; 1; 1]; [2; 2; 1]])).
  - vm_compute in Hf. injection Hf as <-. vm_compute in Hroot. injection Hroot as <-.
    reflexivity.
  - reflexivity.
Defined.

(** ** [normalize_output_path] *)

Lemma rfind_from_bounds (c : ascii) (p : string) :
  forall i last,
    rfind_from c p i last = last
    \/ i <= rfind_from c p i last < i + Z.of_nat (String.length p).
Proof.
  induction p as [|a p IH]; intros i last; cbn [rfind_from String.length]; [auto|].
  destruct (IH (i + 1) (if Ascii.eqb a c then i else last)) as [->|Hb].
  - destruct (Ascii.eqb a c); [right; lia | auto].
  - right. lia.
Qed.

Lemma substring_split (p : string) :
  forall n, (n <= String.length p)%nat ->
    String.substring 0 n p ++ String.substring n (String.length p - n) p = p.
Proof.
  induction p as [|a p IH]; intros n Hn.
  - destruct n; reflexivity.
  - destruct n as [|n].
    + cbn [String.substring String.length Nat.sub]. rewrite append_nil.
      clear. cbn. f_equal. induction p as [|b p IH]; cbn; [reflexivity|]. f_equal. exact IH.
    + cbn [String.substring String.length Nat.sub]. rewrite append_cons. f_equal.
      apply IH. cbn in Hn. lia.
Qed.

(** [splitext] cuts the path in two. *)
Lemma splitext_concat (p base ext : string) : splitext p = (base, ext) -> p = base ++ ext.
Proof.
  unfold splitext.
  destruct ((rfind "/" p <? rfind "." p) && _) eqn:Hc.
  - intros [= <- <-]. apply andb_true_iff in Hc as [Hlt _]. apply Z.ltb_lt in Hlt.
    assert (Hsep : -1 <= rfind "/" p).
    { unfold rfind. destruct (rfind_from_bounds "/" p 0 (-1)) as [->|?]; lia. }
    assert (Hdot : 0 <= rfind "." p < Z.of_nat (String.length p)).
    { unfold rfind in *. destruct (rfind_from_bounds "." p 0 (-1)) as [Hd|?]; lia. }
    unfold slice. rewrite Z.sub_0_r. change (Z.to_nat 0) with O.
    replace (Z.to_nat (Z.of_nat (String.length p) - rfind "." p))
      with (String.length p - Z.to_nat (rfind "." p))%nat by lia.
    symmetry. apply substring_split. lia.
  - intros [= <- <-]. clear. induction p as [|a p IH]; [reflexivity|].
    rewrite append_cons. f_equal. exact IH.
Qed.

(** X14: When [normalize_output_path] succeeds, the two paths are siblings: they
    have a common base, which is the output path without the extension it
    was given with, the HDF5 path ends in one of the HDF5 extensions and the
    XML path in [.xml], up to case; so the two paths are never the same
    file, and the output path is the base or one of the two. *)
Theorem normalize_output_path_siblings (output_path h5_path xml_path : string) :
  normalize_output_path output_path = Ok (h5_path, xml_path) ->
  exists base ext_h5 ext_xml,
    h5_path = base ++ ext_h5
    /\ xml_path = base ++ ext_xml
    /\ In (PyStr.lower_all ext_h5) HDF5_EXTENSIONS
    /\ PyStr.lower_all ext_xml = ".xml"
    /\ (output_path = base \/ output_path = h5_path \/ output_path = xml_path)
    /\ h5_path <> xml_path.
Proof.
  unfold normalize_output_path.
  destruct (splitext output_path) as [base ext] eqn:Hs. apply splitext_concat in Hs.
  assert (Hne : forall b e1 e2, In (PyStr.lower_all e1) HDF5_EXTENSIONS ->
                  PyStr.lower_all e2 = ".xml" -> b ++ e1 <> b ++ e2).
  { intros b e1 e2 H1 H2 E. apply append_inj_l in E. subst e2. rewrite H2 in H1.
    cbn in H1. intuition discriminate. }
  destruct (String.eqb ext "") eqn:He.
  - intros [= <- <-]. exists output_path, ".h5", ".xml".
    split; [reflexivity|]. split; [reflexivity|].
    split; [left; reflexivity|]. split; [reflexivity|]. split; [auto|].
    apply Hne; [left|]; reflexivity.
  - destruct (existsb (String.eqb (PyStr.lower_all ext)) HDF5_EXTENSIONS) eqn:Hh.
    + intros [= <- <-]. exists base, ext, ".xml".
      assert (Hin : In (PyStr.lower_all ext) HDF5_EXTENSIONS).
      { apply existsb_exists in Hh as (x & Hx & Heq). apply String.eqb_eq in Heq.
        subst x. exact Hx. }
      split; [exact Hs|]. split; [reflexivity|]. split; [exact Hin|].
      split; [reflexivity|]. split; [auto|]. rewrite Hs. apply Hne; auto.
    + destruct (existsb (String.eqb (PyStr.lower_all ext)) XML_EXTENSIONS) eqn:Hx;
        [|discriminate].
      intros [= <- <-]. exists base, ".h5", ext.
      assert (Hxml : PyStr.lower_all ext = ".xml").
      { apply existsb_exists in Hx as (x & Hin & Heq). apply String.eqb_eq in Heq.
        subst x. destruct Hin as [<-|[]]. reflexivity. }
      split; [reflexivity|]. split; [exact Hs|]. split; [left; reflexivity|].
      split; [exact Hxml|]. split; [auto|]. rewrite Hs. apply Hne; [left; reflexivity | exact Hxml].
Qed.

Lemma normalize_output_path_siblings_witness :
  exists base ext_h5 ext_xml,
    "out/vol.1.HDF5" = base ++ ext_h5
    /\ "out/vol.1.xml" = base ++ ext_xml
    /\ In (PyStr.lower_all ext_h5) HDF5_EXTENSIONS
    /\ PyStr.lower_all ext_xml = ".xml"
    /\ ("out/vol.1.HDF5" = base \/ "out/vol.1.HDF5" = "out/vol.1.HDF5"
        \/ "out/vol.1.HDF5" = "out/vol.1.xml")
    /\ "out/vol.1.HDF5" <> "out/vol.1.xml".
Proof.
  apply (normalize_output_path_siblings "out/vol.1.HDF5"). reflexivity.
Defined.

(** ** [copy_dataset] on unsigned data *)

Module CopyFacts.
Import Converter.

(** The element at a position of a list that was built block by block
    from blocks of one length. *)
Lemma lookup_bind_const {A B} (h : A -> list B) (m : nat) (l : list A) :
  (forall a, length (h a) = m) ->
  forall k j, (j < m)%nat -> (l ≫= h) !! (k * m + j)%nat = l !! k ≫= fun a => h a !! j.
Proof.
  intros Hm. induction l as [|a l IH]; intros k j Hj; [reflexivity|].
  change ((a :: l) ≫= h) with (app (h a) (l ≫= h)).
  destruct k as [|k].
  - cbn [Nat.mul Nat.add lookup list_lookup]. rewrite lookup_app_l by (rewrite Hm; exact Hj).
    reflexivity.
  - rewrite lookup_app_r by (rewrite Hm; lia). rewrite Hm.
    replace (S k * m + j - m)%nat with (k * m + j)%nat by lia.
    rewrite IH by exact Hj. reflexivity.
Qed.

Lemma length_bind_const {A B} (h : A -> list B) (m : nat) (l : list A) :
  (forall a, length (h a) = m) -> length (l ≫= h) = (length l * m)%nat.
Proof.
  intros Hm. induction l as [|a l IH]; [reflexivity|].
  change ((a :: l) ≫= h) with (app (h a) (l ≫= h)). rewrite length_app, Hm, IH. reflexivity.
Qed.

Lemma lookup_range (a b i : Z) :
  a <= i < b -> range a b !! Z.to_nat (i - a) = Some i.
Proof.
  intros Hi. unfold range. rewrite lookup_seqZ_lt by lia. f_equal. lia.
Qed.

Lemma length_range (a b : Z) : length (range a b) = Z.to_nat (b - a).
Proof. unfold range. apply length_seqZ. Qed.

(** The coordinates of a box in row-major order: where a point is. *)
Lemma lookup_coords (bb : bbox) (z y x : Z) :
  inside bb z y x = true -> coords bb !! offset bb z y x = Some (z, y, x).
Proof.
  unfold inside. rewrite !andb_true_iff, !Z.leb_le, !Z.ltb_lt.
  intros (((((Hz0 & Hz1) & Hy0) & Hy1) & Hx0) & Hx1).
  unfold coords, offset.
  set (kz := Z.to_nat (z - z0 bb)). set (ky := Z.to_nat (y - y0 bb)).
  set (kx := Z.to_nat (x - x0 bb)).
  set (Ny := Z.to_nat (y1 bb - y0 bb)). set (Nx := Z.to_nat (x1 bb - x0 bb)).
  replace (Z.to_nat (((z - z0 bb) * (y1 bb - y0 bb) + (y - y0 bb)) * (x1 bb - x0 bb)
                     + (x - x0 bb)))
    with (kz * (Ny * Nx) + (ky * Nx + kx))%nat.
  2: { rewrite Z2Nat.inj_add;
         [|apply Z.mul_nonneg_nonneg;
           [apply Z.add_nonneg_nonneg; [apply Z.mul_nonneg_nonneg|]|]; lia | lia].
       rewrite Z2Nat.inj_mul;
         [|apply Z.add_nonneg_nonneg; [apply Z.mul_nonneg_nonneg|]; lia | lia].
       rewrite Z2Nat.inj_add; [|apply Z.mul_nonneg_nonneg; lia | lia].
       rewrite Z2Nat.inj_mul by lia. fold kz ky kx Ny Nx. nia. }
  assert (Hinner : forall z' y' : Z, length (x' ← range (x0 bb) (x1 bb); [(z', y', x')]) = Nx).
  { intros z' y'. rewrite (length_bind_const _ 1) by reflexivity.
    rewrite length_range. unfold Nx. lia. }
  assert (Hmid : forall z' : Z, length (y' ← range (y0 bb) (y1 bb);
                                    x' ← range (x0 bb) (x1 bb); [(z', y', x')])
                            = (Ny * Nx)%nat).
  { intros z'. rewrite (length_bind_const _ Nx) by (intros; apply Hinner).
    rewrite length_range. reflexivity. }
  rewrite (lookup_bind_const _ (Ny * Nx)) by (exact Hmid || (unfold ky, kx, Ny, Nx; nia)).
  unfold kz. rewrite lookup_range by lia. cbn [mbind option_bind].
  rewrite (lookup_bind_const _ Nx) by ((intros; apply Hinner) || (unfold kx, Nx; lia)).
  unfold ky. rewrite lookup_range by lia. cbn [mbind option_bind].
  replace kx with (kx * 1 + 0)%nat by lia.
  rewrite (lookup_bind_const _ 1) by (reflexivity || lia).
  unfold kx. rewrite lookup_range by lia. reflexivity.
Qed.

(** Reading a box gives the value of each of its points at the offset of
    the point. *)
Lemma read_at (ds : voxels) (bb : bbox) (z y x : Z) :
  inside bb z y x = true -> read ds bb !! offset bb z y x = Some (ds z y x).
Proof.
  intros Hin. unfold read. rewrite list_lookup_fmap, (lookup_coords _ _ _ _ Hin).
  reflexivity.
Qed.

(** Writing what was read from [ds_in] makes the box a copy of [ds_in]. *)
Lemma write_read (ds_in ds_out : voxels) (bb : bbox) (z y x : Z) :
  write ds_out bb (read ds_in bb) z y x
  = if inside bb z y x then ds_in z y x else ds_out z y x.
Proof.
  unfold write. destruct (inside bb z y x) eqn:Hin; [|reflexivity].
  apply nth_lookup_Some. apply read_at. exact Hin.
Qed.

(** *** The grid *)

Lemma existsb_bind {A B} (p : B -> bool) (h : A -> list B) (l : list A) :
  existsb p (l ≫= h) = existsb (fun a => existsb p (h a)) l.
Proof.
  induction l as [|a l IH]; [reflexivity|].
  change ((a :: l) ≫= h) with (app (h a) (l ≫= h)). rewrite existsb_app, IH. reflexivity.
Qed.

Lemma existsb_pointwise {A} (p q : A -> bool) (l : list A) :
  (forall a, p a = q a) -> existsb p l = existsb q l.
Proof.
  intros Hpq. induction l as [|a l IH]; [reflexivity|]. cbn. rewrite Hpq, IH. reflexivity.
Qed.

Lemma existsb_andb_r {A} (p : A -> bool) (q : bool) (l : list A) :
  existsb (fun a => p a && q) l = existsb p l && q.
Proof.
  induction l as [|a l IH]; [reflexivity|]. cbn. rewrite IH.
  destruct (p a), q, (existsb p l); reflexivity.
Qed.

(** Along one axis, the blocks of size [c] cover exactly [0, n). *)
Lemma starts_cover (n c i : Z) :
  0 < c ->
  existsb (fun s => (s <=? i) && (i <? Z.min (s + c) n)) (starts n c)
  = (0 <=? i) && (i <? n).
Proof.
  intros Hc. unfold starts. apply eq_true_iff_eq.
  rewrite existsb_exists, andb_true_iff, Z.leb_le, Z.ltb_lt. split.
  - intros (s & Hs & Hin). apply in_map_iff in Hs as (k & <- & Hk).
    apply list_elem_of_In, elem_of_seqZ in Hk.
    apply andb_true_iff in Hin as [H1 H2]. apply Z.leb_le in H1. apply Z.ltb_lt in H2.
    nia.
  - intros [H0 Hn]. exists (i / c * c). split.
    + apply in_map_iff. exists (i / c). split; [reflexivity|].
      apply list_elem_of_In, elem_of_seqZ.
      assert (Hd : i / c <= (n - 1) / c) by (apply Z.div_le_mono; lia).
      assert (Hs : (n + c - 1) / c = (n - 1) / c + 1).
      { replace (n + c - 1) with (n - 1 + 1 * c) by lia. apply Z.div_add. lia. }
      pose proof (Z.div_pos i c H0 Hc). lia.
    + pose proof (Z.mul_div_le i c Hc) as Hle.
      pose proof (Z.mod_pos_bound i c Hc) as Hmod.
      pose proof (Z.div_mod i c ltac:(lia)) as Hdm.
      apply andb_true_iff. rewrite Z.leb_le, Z.ltb_lt. lia.
Qed.

(** The grid covers the volume, and nothing else. *)
Lemma blocking_cover (nz ny nx cz cy cx z y x : Z) :
  0 < cz -> 0 < cy -> 0 < cx ->
  existsb (fun bb => inside bb z y x) (blocking (nz, ny, nx) (cz, cy, cx))
  = inside (mkBox 0 nz 0 ny 0 nx) z y x.
Proof.
  intros Hz Hy Hx. unfold blocking. rewrite existsb_bind.
  rewrite (existsb_pointwise _ (fun s => ((s <=? z) && (z <? Z.min (s + cz) nz))
                                   && ((0 <=? y) && (y <? ny) && ((0 <=? x) && (x <? nx))))).
  - rewrite existsb_andb_r, starts_cover by exact Hz. unfold inside. cbn.
    destruct (0 <=? z), (z <? nz), (0 <=? y), (y <? ny), (0 <=? x), (x <? nx); reflexivity.
  - intros s. rewrite existsb_bind.
    rewrite (existsb_pointwise _ (fun t => ((t <=? y) && (y <? Z.min (t + cy) ny))
                                     && ((s <=? z) && (z <? Z.min (s + cz) nz)
                                         && ((0 <=? x) && (x <? nx))))).
    + rewrite existsb_andb_r, starts_cover by exact Hy.
      destruct (s <=? z), (z <? Z.min (s + cz) nz), (0 <=? y), (y <? ny),
               (0 <=? x), (x <? nx); reflexivity.
    + intros t. rewrite existsb_bind.
      rewrite (existsb_pointwise _ (fun u => ((u <=? x) && (x <? Z.min (u + cx) nx))
                                       && ((s <=? z) && (z <? Z.min (s + cz) nz)
                                           && ((t <=? y) && (y <? Z.min (t + cy) ny))))).
      * rewrite existsb_andb_r, starts_cover by exact Hx.
        destruct (s <=? z), (z <? Z.min (s + cz) nz), (t <=? y), (y <? Z.min (t + cy) ny),
                 (0 <=? x), (x <? nx); reflexivity.
      * intros u. cbn [existsb]. unfold inside. cbn.
        destruct (s <=? z), (z <? Z.min (s + cz) nz), (t <=? y), (y <? Z.min (t + cy) ny),
                 (u <=? x), (x <? Z.min (u + cx) nx); reflexivity.
Qed.

End CopyFacts.

Section CopyUnsigned.

Import Converter.

Variable convert_to_bdv_dtype : list Z -> result (list Z).
Variable ds_in : voxels.
Hypothesis ds_in_unsigned : forall z y x, 0 <= ds_in z y x.

(** One block, without conversion: afterwards the box is a copy of the
    source, whether the block was written or skipped. *)
Lemma copy_chunk_unsigned (ds_out : voxels) (bb : bbox) :
  fold_left Z.add (read ds_in bb) 0 < 2 ^ 64 ->
  exists ds_out',
    copy_chunk convert_to_bdv_dtype Unsigned false ds_in ds_out bb = Ok ds_out'
    /\ forall z y x,
         ds_out' z y x
         = if inside bb z y x
           then (if skipped Unsigned ds_in bb then ds_out z y x else ds_in z y x)
           else ds_out z y x.
Proof.
  intros Hsum. unfold copy_chunk, skipped.
  destruct (sum Unsigned (read ds_in bb) =? 0) eqn:Hs.
  - exists ds_out. split; [reflexivity|]. intros z y x. destruct (inside bb z y x); reflexivity.
  - eexists. split; [reflexivity|]. intros z y x. apply CopyFacts.write_read.
Qed.

Lemma skipped_zero (bb : bbox) (z y x : Z) :
  fold_left Z.add (read ds_in bb) 0 < 2 ^ 64 ->
  skipped Unsigned ds_in bb = true -> inside bb z y x = true -> ds_in z y x = 0.
Proof.
  intros Hsum Hskip Hin.
  assert (Hpos : forall v, In v (read ds_in bb) -> 0 <= v).
  { intros v Hv. unfold read in Hv. apply in_map_iff in Hv as ([[a b] c] & <- & _).
    apply ds_in_unsigned. }
  apply (proj1 (skipped_unsigned_iff ds_in bb Hpos Hsum) Hskip).
  apply list_elem_of_In. eapply list_elem_of_lookup_2. apply CopyFacts.read_at. exact Hin.
Qed.

(** The loop over the grid keeps the destination a copy of the source on
    the boxes that were visited, and zero elsewhere. *)
Lemma copy_blocks (todo : list bbox) :
  forall (done : list bbox) (ds_out : voxels),
    (forall bb, In bb todo -> fold_left Z.add (read ds_in bb) 0 < 2 ^ 64) ->
    (forall z y x, ds_out z y x
                   = if existsb (fun bb => inside bb z y x) done then ds_in z y x else 0) ->
    exists ds_out',
      foldl (fun acc bb =>
               ds_out ← acc;
               copy_chunk convert_to_bdv_dtype Unsigned false ds_in ds_out bb)
            (Ok ds_out) todo = Ok ds_out'
      /\ forall z y x,
           ds_out' z y x
           = if existsb (fun bb => inside bb z y x) (done ++ todo) then ds_in z y x else 0.
Proof.
  induction todo as [|bb todo IH]; intros done ds_out Hsum Hinv.
  - exists ds_out. split; [reflexivity|]. rewrite app_nil_r. exact Hinv.
  - cbn [foldl mbind result_bind].
    destruct (copy_chunk_unsigned ds_out bb) as (ds1 & Hc & H1);
      [apply Hsum; left; reflexivity|].
    rewrite Hc.
    destruct (IH (done ++ [bb])%list ds1) as (ds' & Hfold & Hinv').
    + intros b Hb. apply Hsum. right. exact Hb.
    + intros z y x. rewrite H1, Hinv, existsb_app. cbn [existsb]. rewrite orb_false_r.
      destruct (inside bb z y x) eqn:Hin.
      * rewrite orb_true_r. destruct (skipped Unsigned ds_in bb) eqn:Hskip; [|reflexivity].
        rewrite (skipped_zero bb z y x) by (assumption || (apply Hsum; left; reflexivity)).
        destruct (existsb _ done); reflexivity.
      * rewrite orb_false_r. reflexivity.
    + exists ds'. split; [exact Hfold|]. intros z y x. rewrite Hinv'.
      rewrite <- app_assoc. reflexivity.
Qed.

End CopyUnsigned.

(** X15: [copy_dataset] copies unsigned data faithfully when the type is not
    converted: if no block sum reaches the range of the 64-bit accumulator,
    the destination holds the source value at every point of the volume
    (skipped blocks hold only zeros in the source) and reads zero outside. *)
Theorem copy_dataset_unsigned (convert_to_bdv_dtype : list Z -> result (list Z))
    (ds_in : Converter.voxels) (nz ny nx cz cy cx : Z) :
  0 < cz -> 0 < cy -> 0 < cx ->
  (forall z y x, 0 <= ds_in z y x) ->
  (forall bb, In bb (Converter.blocking (nz, ny, nx) (cz, cy, cx)) ->
              fold_left Z.add (Converter.read ds_in bb) 0 < 2 ^ 64) ->
  exists ds_out,
    Converter.copy_dataset convert_to_bdv_dtype Converter.Unsigned false ds_in
                           (nz, ny, nx) (cz, cy, cx) = Ok ds_out
    /\ forall z y x,
         ds_out z y x
         = if Converter.inside (Converter.mkBox 0 nz 0 ny 0 nx) z y x
           then ds_in z y x else 0.
Proof.
  intros Hz Hy Hx Hpos Hsum. unfold Converter.copy_dataset.
  destruct (copy_blocks convert_to_bdv_dtype ds_in Hpos
              (Converter.blocking (nz, ny, nx) (cz, cy, cx)) [] (fun _ _ _ => 0) Hsum)
    as (ds_out & Hfold & Hinv); [reflexivity|].
  exists ds_out. split; [exact Hfold|]. intros z y x.
  rewrite Hinv. cbn [app]. rewrite CopyFacts.blocking_cover by assumption. reflexivity.
Qed.

Lemma copy_dataset_unsigned_witness :
  exists ds_out,
    Converter.copy_dataset (fun block => Ok block) Converter.Unsigned false
      (fun z y x => if Converter.inside (Converter.mkBox 0 2 0 2 0 3) z y x
                    then z + y + x else 7)
      (2, 2, 3) (1, 2, 2) = Ok ds_out
    /\ forall z y x,
         ds_out z y x
         = if Converter.inside (Converter.mkBox 0 2 0 2 0 3) z y x
           then (if Converter.inside (Converter.mkBox 0 2 0 2 0 3) z y x
                 then z + y + x else 7)
           else 0.
Proof.
  apply copy_dataset_unsigned; try lia.
  - intros z y x. destruct (Converter.inside _ z y x) eqn:Hin; [|lia].
    unfold Converter.inside in Hin. cbn in Hin. lia.
  - intros bb Hbb. vm_compute in Hbb.
    repeat (destruct Hbb as [<-|Hbb]; [vm_compute; reflexivity|]). destruct Hbb.
Defined.

(** ** [write_xml_metadata] on a path without document *)

Section NewDocument.

Context {F : Type} `{PyFloat F}.

(** X16: Where there is no document yet, [write_xml_metadata] succeeds exactly
    when the array of level 0 can be read from the container and its
    shape and the resolution have three entries each; when it fails, no
    document is created. *)
Theorem write_xml_metadata_new_document (w : world F)
    (xml_path data_path unit : string) (resolution : list F) (is_h5 : bool)
    (setup_id timepoint : Z) (setup_name : option string)
    (affine : option (affine_arg F)) (attributes : dict Z) :
  xml_files w !! xml_path = None ->
  let out := write_xml_metadata w xml_path data_path unit resolution is_h5 setup_id
                                timepoint setup_name affine attributes in
  (out.2 = Ok tt
   <-> exists shape, shape_read w data_path is_h5 setup_id timepoint = Ok shape
                     /\ length shape = 3%nat /\ length resolution = 3%nat)
  /\ (out.2 <> Ok tt -> out.1 = w).
Proof.
  intros Hnone out. split.
  - split.
    + intros Hok. destruct out as [w1 r] eqn:Hout. cbn in Hok. subst r.
      apply write_xml_metadata_Ok in Hout as (root1 & Hb & _).
      destruct (build_xml_parts _ _ _ _ _ _ _ _ _ _ _ _ Hb)
        as (h & v1 & vregs & reg & sd1 & shape & _ & Hshape & Hreq & _).
      destruct (require_view_setup_cases _ _ _ _ _ _ _ _ Hreq)
        as (dz & dy & dx & nz & ny & nx & -> & -> & _).
      exists [nz; ny; nx]. auto.
    + intros (shape & Hshape & Hls & Hlr).
      destruct shape as [|nz [|ny [|nx [|]]]]; try discriminate Hls.
      destruct resolution as [|dz [|dy [|dx [|]]]]; try discriminate Hlr.
      unfold out, write_xml_metadata. rewrite build_xml_unfold.
      unfold shape_read in Hshape.
      apply bind_Ok in Hshape as (f & Hf & Hshape).
      apply bind_Ok in Hshape as (ds & Hds & Hshape). injection Hshape as Hshape.
      rewrite Hf. cbn [mbind result_bind]. rewrite Hds. cbn [mbind result_bind].
      rewrite Hnone. cbn [mbind result_bind]. rewrite Hshape.
      unfold _require_view_setup. cbn [unpack3 mbind result_bind].
      rewrite new_document_setups. cbn [first_with_id mbind result_bind].
      change (h_vregs (new_document data_path is_h5 timepoint attributes))
        with (Some (new "ViewRegistrations")).
      cbn [mbind result_bind].
      destruct affine as [a|]; reflexivity.
  - unfold out, write_xml_metadata.
    destruct (build_xml _ _ _ _ _ _ _ _ _ _ _); [intros Hne; contradiction | reflexivity].
Qed.

End NewDocument.

Lemma write_xml_metadata_new_document_witness :
  (write_xml_metadata example_world2 "d.xml" "d.h5" "pixel" [1; 2; 3] true 0 0
                      None None [("channel", 0)]).2 = Ok tt
  /\ (write_xml_metadata example_world2 "d.xml" "d.h5" "pixel" [1; 2] true 0 0
                         None None [("channel", 0)]).1 = example_world2.
Proof.
  destruct (write_xml_metadata_new_document example_world2 "d.xml" "d.h5" "pixel"
              [1; 2; 3] true 0 0 None None [("channel", 0)] eq_refl) as [[_ Hok] _].
  destruct (write_xml_metadata_new_document example_world2 "d.xml" "d.h5" "pixel"
              [1; 2] true 0 0 None None [("channel", 0)] eq_refl) as [_ Hfail].
  split.
  - apply Hok. exists [10; 20; 30]. repeat split; reflexivity.
  - apply Hfail. discriminate.
Defined.
